(** * Provisioning engine of automagic.py: a shallow embedding

    The development follows src/provisioning-tool/automagic.py.  Python
    dictionaries are finite maps with string keys, JSON documents are a
    small tree type, and every function that talks to a router, to a target
    device, to the clock or to a file is a computation in a monad that
    threads

    - the position in the history of interactions (the tick),
    - the trace of interactions the computation adds to that history,
    - the mutable store (connection objects, instruction queue, device
      records),

    and that ends in a returned value, a [sys.exit()], an uncaught Python
    exception, or in exhausted loop fuel.  What the outside answers is read
    from an [oracle] indexed by the tick.

    What the embedding leaves out.  Printing is not modelled, nor are the
    timing reports.  The clock is read in whole milliseconds.  A URL is a
    structured value, so the string concatenations that build it, and the
    TypeError they raise on a value that is not a string, are not
    modelled.  The telnet reads of [ddwrt_do_cmd] and
    [ddwrt_sync_connection] always come back: a dropped session shows as
    the answer the oracle gives.  [toggle_device] is a single
    interaction.  The regular expression of [ddwrt_discover] and
    [json.loads] are parameters of the engine.  The [while True] loops of
    the source take a fuel argument and end in [Diverge] when it runs
    out. *)

From stdpp Require Import gmap strings list fin_maps.
From Stdlib Require Import ZArith Lia Ascii.

Set Warnings "-register-all".
Open Scope string_scope.

(** ** JSON values and Python dictionaries *)

Inductive json :=
| JNull
| JBool (b : bool)
| JNum (z : Z)
| JStr (s : string)
| JArr (l : list json)
| JObj (m : gmap string json).

(** A record of the instruction queue, a router profile, a device status:
    a Python dict with string keys. *)
Abbreviation dict := (gmap string json).

(** Python truthiness ([if x:], [not x]) of a JSON value. *)
Definition truthy (j : json) : bool :=
  match j with
  | JNull => false
  | JBool b => b
  | JNum z => negb (Z.eqb z 0)
  | JStr s => negb (bool_decide (s = ""))
  | JArr l => match l with [] => false | _ => true end
  | JObj m => Nat.ltb 0 (size m)
  end.

(** Truthiness of a value that may be [None]. *)
Definition truthy_opt (j : option json) : bool :=
  match j with Some v => truthy v | None => false end.

(** [k in d] for a dict. *)
Definition has_key (d : dict) (k : string) : bool :=
  bool_decide (is_Some (d !! k)).

(** [j == s] where [s] is a Python string. *)
Definition eq_str (j : json) (s : string) : bool :=
  match j with JStr s' => bool_decide (s' = s) | _ => false end.

(** The object an index of a Python sequence of length [n] denotes:
    negative indices count from the end, anything out of range is an
    IndexError ([None]). *)
Definition py_norm (n : nat) (i : Z) : option nat :=
  if Z.leb 0 i then (if Z.ltb i (Z.of_nat n) then Some (Z.to_nat i) else None)
  else if Z.leb (- Z.of_nat n) i then Some (Z.to_nat (Z.of_nat n + i))
  else None.

(** [l[i]] *)
Definition py_index {A} (l : list A) (i : Z) : option A :=
  match py_norm (length l) i with
  | Some r => l !! r
  | None => None
  end.

(** The positions of a list whose element satisfies [p], in increasing
    order: what [for i in range(len(l)): if p(l[i]): acc.append(i)] builds. *)
Fixpoint positions {A} (p : A -> bool) (l : list A) (i : Z) : list Z :=
  match l with
  | [] => []
  | x :: l' => if p x then i :: positions p l' (i + 1) else positions p l' (i + 1)
  end.

(** ** Outcomes *)

(** Uncaught Python exceptions. *)
Inductive exn :=
| IndexError
| KeyError (k : string)
| TypeError
| JSONDecodeError
| UnboundLocalError
| CommandError (err : string)      (* raise Exception( err ) *)
| MultiLineResponse                (* raise Exception( 'multi-line response' ) *)
| ConnectionError                  (* telnet or HTTP transport failure *)
| HookFailure.                     (* an exception of the label module *)

(** The [sys.exit()] sites of the modelled functions. *)
Inductive exit_site :=
| ExitUnknownRouter        (* ddwrt_connect_to_known_router: name not in router_db *)
| ExitWrongRouter          (* ddwrt_connect_to_known_router: et0macaddr differs *)
| ExitNoApCapable          (* ddwrt_choose_roles: "No AP capable dd-wrt device found" *)
| ExitNoStaCapable         (* ddwrt_choose_roles: "No client-mode capable dd-wrt device found" *)
| ExitSurveyFailed         (* ddwrt_discover *)
| ExitQueueEmpty           (* check_for_device_queue: "List is empty" *)
| ExitNothingReady         (* check_for_device_queue: no entries ready to provision *)
| ExitAttemptsExhausted    (* provision_list: "failed to take AP programming instructions after 10 attemps" *)
| ExitDeviceNotFound       (* provision_list: "Failed to find device on network" *)
| ExitWriteFailed.         (* write_json_file: IOError *)

Inductive res (A : Type) :=
| Ret (a : A)
| Exit (s : exit_site)
| Raise (e : exn)
| Diverge.                 (* loop fuel exhausted *)
Arguments Ret {A} a.
Arguments Exit {A} s.
Arguments Raise {A} e.
Arguments Diverge {A}.

(** ** Interactions with the outside *)

(** URLs of the target device's HTTP surface, kept structured; the fields
    taken from an instruction record are carried as they are. *)
Inductive url :=
| UStatus (address : string)                               (* status_url *)
| USettings (address : string) (name latlng tz : option json)
                                                           (* get_settings_url *)
| UJoinDhcp (address : string) (ssid pw : json)            (* set_settings_url, ipv4_method=dhcp *)
| UJoinStatic (address : string) (ssid pw : json) (ip mask : option json) (gw : option json)
                                                           (* set_settings_url, ipv4_method=static *)
| UOta (address : string)                                  (* "http://" + addr + "/ota" *)
| UOtaUpdate (address : string)                            (* ota_url, fw == 'LATEST' *)
| UOtaUrl (address : string) (fw : string).                (* ota_url, explicit firmware *)

(** Commands sent over the telnet session of a router. *)
Inductive cmd :=
| NvramGet (k : string)            (* "nvram get " + k *)
| NvramSet (k v : string)          (* "nvram set " + k + '=' + v *)
| NvramUnset (k : string)          (* "nvram unset " + k *)
| NvramCommit                      (* "nvram commit 2>/dev/null" *)
| RestartWireless                  (* "stopservice nas;stopservice wlconf ...;startservice nas" *)
| RadioCycle                       (* "wl radio off; wl radio on" *)
| SiteSurvey                       (* "site_survey 2>&1" *)
| Wget (u : url).                  (* "wget -T 1 -qO- '" + url + "'; echo" *)

Inductive event :=
| EvTelnetOpen (address : string)  (* ddwrt_establish_connection *)
| EvCmd (address : string) (c : cmd)   (* ddwrt_do_cmd *)
| EvSync (address : string)        (* ddwrt_sync_connection *)
| EvApply (address : string)       (* ddwrt_apply: POST /apply.cgi, action=ApplyTake *)
| EvHttp (u : url)                 (* url_read from the host *)
| EvSleep (ms : Z)                 (* time.sleep, in milliseconds *)
| EvTime                           (* time.time() *)
| EvWriteQueue                     (* write_json_file( args.device_queue, device_queue ) *)
| EvWriteDb                        (* write_json_file( args.device_db, device_db ) *)
| EvLabel                          (* print_label *)
| EvToggle                         (* toggle_device *)
| EvCue.                           (* getpass: "Press <enter> to continue" *)

(** What the outside answers to the interaction at a given position of the
    history.  The clock is in milliseconds. *)
Record oracle := {
  o_cmd : nat -> string -> cmd -> list string * string;
                                   (* output lines and stderr text of a command *)
  o_http : nat -> url -> option json;
                                   (* url_read + json.loads; [None]: an exception *)
  o_clock : nat -> Z;              (* time.time() *)
  o_ok : nat -> bool;              (* success of a connect, a POST, a file write, a hook *)
}.

(** ** The monad *)

Definition M (St A : Type) : Type := nat -> St -> res A * list event * St.

Definition ret {St A} (a : A) : M St A := fun _ s => (Ret a, [], s).

(** The run [x] after the interactions [tr0]. *)
Definition prepend {St A} (tr0 : list event) (x : res A * list event * St)
  : res A * list event * St :=
  match x with (r, tr, s) => (r, (tr0 ++ tr)%list, s) end.

Definition bind {St A B} (m : M St A) (k : A -> M St B) : M St B :=
  fun t s =>
    match m t s with
    | (Ret a, tr, s1) => prepend tr (k a (t + length tr) s1)
    | (Exit x, tr, s1) => (Exit x, tr, s1)
    | (Raise e, tr, s1) => (Raise e, tr, s1)
    | (Diverge, tr, s1) => (Diverge, tr, s1)
    end.

Notation "x <- m ;; k" := (bind m (fun x => k))
  (at level 100, m at next level, right associativity).
Notation "m ;;; k" := (bind m (fun _ => k))
  (at level 100, right associativity).

Definition exit {St A} (x : exit_site) : M St A := fun _ s => (Exit x, [], s).
Definition raise {St A} (e : exn) : M St A := fun _ s => (Raise e, [], s).
Definition diverge {St A} : M St A := fun _ s => (Diverge, [], s).
Definition get {St} : M St St := fun _ s => (Ret s, [], s).
Definition put {St} (s : St) : M St unit := fun _ _ => (Ret tt, [], s).
Definition emit {St} (e : event) : M St unit := fun _ s => (Ret tt, [e], s).

(** One interaction: the event is appended and the oracle is read at the
    event's own position. *)
Definition ask {St A} (e : event) (answer : nat -> A) : M St A :=
  fun t s => (Ret (answer t), [e], s).

(** An option as a computation: [None] is the given exception. *)
Definition orraise {St A} (e : exn) (x : option A) : M St A :=
  match x with Some a => ret a | None => raise e end.

(** Run a computation on a component of a larger store. *)
Definition lift {St T A} (proj : T -> St) (upd : St -> T -> T) (m : M St A) : M T A :=
  fun t w => match m t (proj w) with (r, tr, s) => (r, tr, upd s w) end.

(** [d[k]] *)
Definition dget {St} (d : dict) (k : string) : M St json :=
  orraise (KeyError k) (d !! k).

(** [j[k]] for a JSON value: only objects can be indexed by a string, and
    [None] (JNull) is not subscriptable. *)
Definition jget {St} (j : json) (k : string) : M St json :=
  match j with
  | JObj m => dget m k
  | _ => raise TypeError
  end.

(** A value used where Python needs a [str] (string concatenation). *)
Definition jstr {St} (j : json) : M St string :=
  match j with JStr s => ret s | _ => raise TypeError end.

Definition sleep {St} (ms : Z) : M St unit := emit (EvSleep ms).
Definition time_time {St} (o : oracle) : M St Z := ask EvTime (o_clock o).

(** [for x in l: f(x)] *)
Fixpoint for_each {St A} (l : list A) (f : A -> M St unit) : M St unit :=
  match l with
  | [] => ret tt
  | x :: l' => f x ;;; for_each l' f
  end.

(** [pgm[k]] for a dict literal, kept in source order. *)
Fixpoint literal_get (l : list (string * json)) (k : string) : option json :=
  match l with
  | [] => None
  | (k', v) :: l' => if bool_decide (k' = k) then Some v else literal_get l' k
  end.

(** ** DD-WRT interactions *)

(** A connection object [cn]: the telnet session (named by the address it
    was opened to), the router's learned profile [cn['router']] and
    [cn['current_mode']].  Connection objects live in a store and are
    referred to by their position in it, so that two names of one object
    see each other's update of [current_mode]. *)
Record node := {
  n_conn : string;
  n_router : dict;
  n_current_mode : json;
}.

Definition factory_device_addr : string := "192.168.33.1".

(** ** The stores *)

(** A value of [device_db]: a JSON value read from the file, or the record
    object at a position of the instruction queue ([device_db[ mac ] = rec]
    stores the object itself, not a copy). *)
Inductive db_val :=
| DbVal (j : json)
| DbRec (i : nat).

Record world := {
  nodes : list node;                    (* the connection objects *)
  device_queue : list dict;             (* the instruction queue, in memory *)
  device_db : gmap string db_val;       (* the device records, in memory *)
  queue_file : list (list dict);        (* contents written to the queue file, latest first *)
  db_file : list (gmap string json);    (* contents written to the device db file, latest first *)
}.

Definition set_nodes (n : list node) (w : world) : world :=
  {| nodes := n; device_queue := device_queue w; device_db := device_db w;
     queue_file := queue_file w; db_file := db_file w |}.
Definition set_device_queue (q : list dict) (w : world) : world :=
  {| nodes := nodes w; device_queue := q; device_db := device_db w;
     queue_file := queue_file w; db_file := db_file w |}.
Definition set_device_db (d : gmap string db_val) (w : world) : world :=
  {| nodes := nodes w; device_queue := device_queue w; device_db := d;
     queue_file := queue_file w; db_file := db_file w |}.
Definition push_queue_file (w : world) : world :=
  {| nodes := nodes w; device_queue := device_queue w; device_db := device_db w;
     queue_file := device_queue w :: queue_file w; db_file := db_file w |}.

(** What [json.dumps( device_db )] sees: record objects by their content. *)
Definition db_contents (w : world) : gmap string json :=
  (fun v => match v with
            | DbVal j => j
            | DbRec i => match device_queue w !! i with
                         | Some rec => JObj rec
                         | None => JNull
                         end
            end) <$> device_db w.

Definition push_db_file (w : world) : world :=
  {| nodes := nodes w; device_queue := device_queue w; device_db := device_db w;
     queue_file := queue_file w; db_file := db_contents w :: db_file w |}.

(** The options of the command line that the modelled functions read. *)
Record options := {
  a_group : option string;
  a_ddwrt_name : list string;
  a_prefix : string;
  a_wait_time : Z;
  a_pause_time : Z;
  a_ota : string;
  a_ota_timeout : Z;
  a_dry_run : bool;
  a_cue : bool;
  a_print_using : bool;
  a_toggle : bool;
}.

Section Engine.

Variable o : oracle.

(** [json.loads] of the Python library; [None]: JSONDecodeError. *)
Variable json_loads : string -> option json.

(** The SSID column of a line of the site survey: the [re.sub] of
    [ddwrt_discover], which keeps what stands between "SSID[" and
    "] BSSID[". *)
Variable survey_ssid : string -> string.

(** An interaction that can fail at the transport level. *)
Definition io_ok {St} (e : event) : M St unit :=
  ok <- ask e (o_ok o) ;;
  if (ok : bool) then ret tt else raise ConnectionError.

Definition ddwrt_do_cmd {St} (conn : string) (c : cmd) : M St (list string * string) :=
  ask (EvCmd conn c) (fun t => o_cmd o t conn c).

Definition ddwrt_get_single_line_result {St} (conn : string) (c : cmd) : M St string :=
  p <- ddwrt_do_cmd conn c ;;
  let '(result, err) := p in
  if negb (bool_decide (err = "")) then raise (CommandError err)
  else if Nat.ltb 2 (length result) then raise MultiLineResponse
  else orraise IndexError (py_index result 0).

Definition ddwrt_sync_connection {St} (conn : string) : M St unit :=
  emit (EvSync conn).

Definition ddwrt_establish_connection {St} (address : string) : M St string :=
  io_ok (EvTelnetOpen address) ;;;
  ddwrt_sync_connection address ;;;
  ret address.

Definition ddwrt_connect_to_known_router {St} (router_db : dict) (ddwrt_name : string)
  : M St node :=
  match router_db !! ddwrt_name with
  | None => exit ExitUnknownRouter
  | Some router =>
      address <- jget router "address" ;;
      address <- jstr address ;;
      password <- jget router "password" ;;
      conn <- ddwrt_establish_connection address ;;
      et0macaddr <- ddwrt_get_single_line_result conn (NvramGet "et0macaddr") ;;
      expected <- jget router "et0macaddr" ;;
      if negb (eq_str expected et0macaddr) then exit ExitWrongRouter
      else
        current_mode <- ddwrt_get_single_line_result conn (NvramGet "wl_mode") ;;
        match router with
        | JObj r => ret {| n_conn := conn; n_router := r;
                           n_current_mode := JStr current_mode |}
        | _ => raise TypeError
        end
  end.

Definition ddwrt_apply {St} (address : string) : M St unit :=
  io_ok (EvApply address).

(** [cn] as a reference into the store of connection objects. *)
Definition node_at (cn : nat) : M (list node) node :=
  nodes <- get ;; orraise IndexError (nodes !! cn).

Definition set_current_mode (cn : nat) (mode : json) : M (list node) unit :=
  nodes <- get ;;
  nd <- orraise IndexError (nodes !! cn) ;;
  put (<[cn := {| n_conn := n_conn nd; n_router := n_router nd;
                  n_current_mode := mode |}]> nodes).

(** [cn['router'][mode][k]] *)
Definition from_profile {St} (router : dict) (mode : json) (k : string) : M St string :=
  match mode with
  | JStr m => profile <- dget router m ;; v <- jget profile k ;; jstr v
  | _ => raise (KeyError k)
  end.

(** [cn['current_mode'] == mode] *)
Definition same_mode (current mode : json) : bool :=
  match mode with
  | JStr m => eq_str current m
  | _ => false
  end.

Definition ddwrt_program_mode (cn : nat) (pgm : list (string * json))
    (from_db deletes : list string) : M (list node) unit :=
  nd <- node_at cn ;;
  let conn := n_conn nd in
  for_each pgm (fun kv =>
    v <- jstr (snd kv) ;;
    ddwrt_get_single_line_result conn (NvramSet (fst kv) v) ;;; ret tt) ;;;
  mode <- orraise (KeyError "wl_mode") (literal_get pgm "wl_mode") ;;
  for_each from_db (fun k =>
    v <- from_profile (n_router nd) mode k ;;
    ddwrt_get_single_line_result conn (NvramSet k v) ;;; ret tt) ;;;
  for_each deletes (fun k =>
    ddwrt_get_single_line_result conn (NvramUnset k) ;;; ret tt) ;;;
  ddwrt_get_single_line_result conn NvramCommit ;;;
  if same_mode (n_current_mode nd) mode then
    ddwrt_get_single_line_result conn RestartWireless ;;; ret tt
  else
    set_current_mode cn mode ;;;
    address <- dget (n_router nd) "address" ;;
    address <- jstr address ;;
    dget (n_router nd) "password" ;;;
    ddwrt_apply address ;;;
    sleep 5000 ;;;
    ddwrt_sync_connection conn ;;;
    ddwrt_get_single_line_result conn RadioCycle ;;; ret tt.

Definition ap_program (ssid password : json) : list (string * json) :=
  [ ("pptp_use_dhcp", JStr "1");      ("wan_gateway", JStr "0.0.0.0");
    ("wan_ipaddr", JStr "0.0.0.0");   ("wan_netmask", JStr "0.0.0.0");
    ("wan_proto", JStr "disabled");   ("wl0_akm", JStr "psk psk2");
    ("wl0_mode", JStr "ap");          ("wl0_nctrlsb", JStr "none");
    ("wl0_security_mode", JStr "psk psk2");
    ("wl0_ssid", ssid);               ("wl_ssid", ssid);
    ("wl0_wpa_psk", password);        ("wl_mode", JStr "ap");
    ("dns_redirect", JStr "1");       ("dnsmasq_enable", JStr "0") ].

Definition ddwrt_set_ap_mode (cn : nat) (ssid password : json) : M (list node) unit :=
  ddwrt_program_mode cn (ap_program ssid password)
    [ "wl0_hw_rxchain"; "wl0_hw_txchain"; "wan_hwaddr" ]
    [ "wan_ipaddr_buf"; "wan_ipaddr_static"; "wan_netmask_static"; "wl0_vifs" ].

Definition sta_program (ssid : json) : list (string * json) :=
  [ ("pptp_use_dhcp", JStr "0");      ("wan_gateway", JStr "192.168.33.1");
    ("wan_ipaddr", JStr "192.168.33.10");
    ("wan_ipaddr_static", JStr ".."); ("wan_netmask", JStr "255.255.255.0");
    ("wan_netmask_static", JStr "..");
    ("wan_proto", JStr "static");     ("wl0_akm", JStr "disabled");
    ("wl0_mode", JStr "sta");         ("wl0_nctrlsb", JStr "");
    ("wl0_security_mode", JStr "disabled");
    ("wl0_vifs", JStr "");            ("wl_mode", JStr "sta");
    ("wl0_ssid", ssid);               ("wl_ssid", ssid);
    ("dns_redirect", JStr "1");       ("dnsmasq_enable", JStr "0");
    ("wan_ipaddr_buf", JStr "192.168.33.10") ].

Definition ddwrt_set_sta_mode (cn : nat) (ssid : json) : M (list node) unit :=
  ddwrt_program_mode cn (sta_program ssid)
    [ "sta_ifname"; "wl0_hw_rxchain"; "wl0_hw_txchain"; "wan_hwaddr" ]
    [ "wl0_wpa_psk" ].

(** The choice made by [ddwrt_choose_roles] once the connections exist:
    the two indices into [nodes]. *)
Definition choose_indices {St} (nodes : list node) : M St (Z * Z) :=
  let ap_node := 0%Z in
  let sta_node := (Z.of_nat (length nodes) - 1)%Z in
  let ap_capable := positions (fun n => has_key (n_router n) "ap") nodes 0 in
  let sta_capable := positions (fun n => has_key (n_router n) "sta") nodes 0 in
  let current_ap := positions (fun n => eq_str (n_current_mode n) "ap") nodes 0 in
  let current_sta := positions (fun n => eq_str (n_current_mode n) "sta") nodes 0 in
  if Nat.eqb (length ap_capable) 0 then exit ExitNoApCapable
  else if Nat.eqb (length sta_capable) 0 then exit ExitNoStaCapable
  else if Nat.ltb 1 (length nodes) then
    if Nat.ltb (length ap_capable) 2 then
      ap_node <- orraise IndexError (py_index ap_capable 0) ;;
      ret (ap_node, ((ap_node + 1) mod 2)%Z)
    else if Nat.ltb (length sta_capable) 2 then
      sta_node <- orraise IndexError (py_index sta_capable 0) ;;
      ret (((sta_node + 1) mod 2)%Z, sta_node)
    else if Nat.ltb (length current_ap) 2 then
      ap_node <- orraise IndexError (py_index current_ap 0) ;;
      ret (ap_node, ((ap_node + 1) mod 2)%Z)
    else if Nat.ltb (length current_sta) 2 then
      sta_node <- orraise IndexError (py_index sta_capable 0) ;;
      ret (((sta_node + 1) mod 2)%Z, sta_node)
    else ret (ap_node, sta_node)
  else ret (ap_node, sta_node).

(** The first loop of [ddwrt_choose_roles]:
    [for node in ddwrt_name: nodes.append( ddwrt_connect_to_known_router( node ) )]. *)
Definition connect_all (router_db : dict) (ddwrt_name : list string)
  : M (list node) unit :=
  put [] ;;;
  for_each ddwrt_name (fun name =>
    nd <- ddwrt_connect_to_known_router router_db name ;;
    nodes <- get ;;
    put (nodes ++ [nd])%list).

(** [ddwrt_choose_roles]: the connection objects are left in the store and
    the two returned objects are given by reference. *)
Definition ddwrt_choose_roles (router_db : dict) (ddwrt_name : list string)
  : M (list node) (nat * nat) :=
  connect_all router_db ddwrt_name ;;;
  nodes <- get ;;
  roles <- choose_indices nodes ;;
  ap_node <- orraise IndexError (py_norm (length nodes) (fst roles)) ;;
  sta_node <- orraise IndexError (py_norm (length nodes) (snd roles)) ;;
  ret (ap_node, sta_node).

(** [ddwrt_discover]: the survey's first line is skipped. *)
Definition ddwrt_discover (cn : nat) (prefix : string) : M (list node) (list string) :=
  nd <- node_at cn ;;
  p <- ddwrt_do_cmd (n_conn nd) SiteSurvey ;;
  let '(result, err) := p in
  if match result with [] => true | _ => false end && negb (bool_decide (err = ""))
  then exit ExitSurveyFailed
  else ret (List.filter (String.prefix prefix) (map survey_ssid (tail result))).

(** The loop of [ddwrt_wget], counting down: [left] is [tries - passes]
    before the pass, so that [passes > tries] reads [left = 0]. *)
Fixpoint wget_loop (left : nat) (conn : string) (u : url)
  : M (list node) (list string * string) :=
  p <- ddwrt_do_cmd conn (Wget u) ;;
  found <- (if Nat.ltb 1 (length (fst p)) then ret true
            else r0 <- orraise IndexError (py_index (fst p) 0) ;;
                 ret (negb (bool_decide (r0 = "")))) ;;
  match left with
  | 0 => ret p
  | S left' => if (found : bool) then ret p else sleep 2000 ;;; wget_loop left' conn u
  end.

Definition ddwrt_wget (cn : nat) (u : url) (tries : nat)
  : M (list node) (list string * string) :=
  nd <- node_at cn ;;
  wget_loop tries (n_conn nd) u.

(** ** HTTP utilities *)

(** The [for i in range( 5 )] of [get_url]; [tm] in seconds. *)
Fixpoint get_url_tries {St} (n : nat) (tm : Z) (u : url) : M St (option json) :=
  match n with
  | 0 => ret None
  | S n' =>
      contents <- ask (EvHttp u) (fun t => o_http o t u) ;;
      if truthy_opt contents then ret contents
      else sleep (1000 * tm) ;;; get_url_tries n' tm u
  end.

Definition get_url {St} (tm : Z) (u : url) : M St (option json) :=
  get_url_tries 5 tm u.

Definition status_url (address : string) : url := UStatus address.

Definition get_settings_url (address : string) (rec : dict) : url :=
  USettings address (rec !! "DeviceName") (rec !! "LatLng") (rec !! "TZ").

Definition set_settings_url (address : string) (ssid pw : json)
    (static_ip ip_mask gateway : option json) : url :=
  if truthy_opt static_ip
  then UJoinStatic address ssid pw static_ip ip_mask
         (if truthy_opt gateway then gateway else None)
  else UJoinDhcp address ssid pw.

Definition ota_url (addr fw : string) : url :=
  if bool_decide (fw = "LATEST") then UOtaUpdate addr else UOtaUrl addr fw.

Definition get_status {St} (addr : string) (tm : Z) : M St (option json) :=
  get_url tm (status_url addr).

Definition ota_flash {St} (addr : string) (tm : Z) (fw : string) (dry_run : bool)
  : M St bool :=
  if dry_run then ret false
  else r <- get_url tm (ota_url addr fw) ;; ret (truthy_opt r).

(** ** Firmware update *)

(** The places where [flash_device] returns, with what it returns. *)
Inductive flash_path :=
| OtaNoContact       (* "Could not get current firmware version": False *)
| OtaSkip            (* SKIP, "Device is already up-to-date": True *)
| OtaAbort           (* ABORT, 'Device already shows "updating"': False *)
| OtaNotSent         (* "Could not flash firmware" or dry run: False *)
| OtaUnchecked       (* ota_timeout == 0: True *)
| OtaLostContact     (* a poll got no answer: False *)
| OtaSuccess         (* SUCCESS, "Success. Device ... updated": True *)
| OtaMismatch        (* FAILURE, "unexpected build, not matching manifest": False *)
| OtaUnchanged       (* FAILURE, left the loop by [break], "still has": False *)
| OtaNeverUpdating   (* TIMEOUT, 'has never shown status "updating"': False *)
| OtaWallTimeout.    (* TIMEOUT, the while condition failed, "still has": False *)

Definition flash_returns (p : flash_path) : bool :=
  match p with
  | OtaSkip | OtaUnchecked | OtaSuccess => true
  | _ => false
  end.

(** [not new_version] *)
Definition no_version (new_version : option string) : bool :=
  match new_version with
  | None => true
  | Some v => bool_decide (v = "")
  end.

(** [v == new_version] *)
Definition eq_version (v : json) (new_version : option string) : bool :=
  match new_version with
  | Some nv => eq_str v nv
  | None => match v with JNull => true | _ => false end
  end.

(** The [while time.time( ) < start_time + ota_timeout] of [flash_device];
    [new_result] is [None] as long as the variable is unbound. *)
Fixpoint flash_poll {St} (fuel : nat) (addr : string) (pause_time deadline : Z)
    (new_version : option string) (old_version : string)
    (seen_updating : bool) (passes : nat) (new_result : option json)
  : M St flash_path :=
  match fuel with
  | 0 => diverge
  | S fuel' =>
      now <- time_time o ;;
      if Z.ltb now deadline then
        let passes := S passes in
        sleep (1000 * pause_time) ;;;
        r <- get_url pause_time (UOta addr) ;;
        match r with
        | None => ret OtaLostContact
        | Some new_result =>
            status <- jget new_result "status" ;;
            if eq_str status "updating" then
              (if seen_updating then ret tt
               else v <- jget new_result "old_version" ;; jstr v ;;; ret tt) ;;;
              flash_poll fuel' addr pause_time deadline new_version old_version
                true passes (Some new_result)
            else if seen_updating then
              if no_version new_version then
                v <- jget new_result "old_version" ;; jstr v ;;; ret OtaSuccess
              else
                v <- jget new_result "old_version" ;;
                if negb (eq_str v old_version) then
                  if eq_version v new_version then ret OtaSuccess
                  else jstr v ;;; ret OtaMismatch
                else ret OtaUnchanged
            else if Nat.ltb 10 passes then ret OtaNeverUpdating
            else
              jstr status ;;;
              v <- jget new_result "old_version" ;; jstr v ;;;
              flash_poll fuel' addr pause_time deadline new_version old_version
                false passes (Some new_result)
        end
      else
        match new_result with
        | None => raise UnboundLocalError
        | Some new_result =>
            v <- jget new_result "old_version" ;; jstr v ;;; ret OtaWallTimeout
        end
  end.

Definition flash_device {St} (fuel : nat) (addr : string) (pause_time : Z)
    (ota : string) (ota_timeout : Z) (new_version : option string) (dry_run : bool)
  : M St flash_path :=
  r <- get_url pause_time (UOta addr) ;;
  match r with
  | None => ret OtaNoContact
  | Some result =>
      status <- jget result "status" ;;
      status <- jstr status ;;
      old_version <- jget result "old_version" ;;
      old_version <- jstr old_version ;;
      if bool_decide (new_version = Some old_version) then ret OtaSkip
      else if bool_decide (status = "updating") then ret OtaAbort
      else
        sent <- ota_flash addr pause_time ota dry_run ;;
        if (sent : bool) then
          if Z.eqb ota_timeout 0 then ret OtaUnchecked
          else
            start_time <- time_time o ;;
            flash_poll fuel addr pause_time (start_time + 1000 * ota_timeout)
              new_version old_version false 0 None
        else ret OtaNotSent
  end.

(** ** Library functions *)

(** [not group] *)
Definition no_group (group : option string) : bool :=
  match group with
  | None => true
  | Some g => bool_decide (g = "")
  end.

(** ['Group' in rec and rec[ 'Group' ] == group], for a group that is a string *)
Definition in_group (rec : dict) (group : option string) : bool :=
  match rec !! "Group", group with
  | Some v, Some g => eq_str v g
  | _, _ => false
  end.

(** Some record passes the test of the loop of [check_for_device_queue]. *)
Definition queue_ready (dq : list dict) (group : option string)
    (include_complete : bool) : bool :=
  existsb (fun rec =>
             (include_complete || negb (has_key rec "CompletedTime"))
             && (no_group group || in_group rec group)) dq.

Definition check_for_device_queue {St} (dq : list dict) (group : option string)
    (include_complete : bool) : M St unit :=
  if Nat.eqb (length dq) 0 then exit ExitQueueEmpty
  else if queue_ready dq group include_complete then ret tt
  else exit ExitNothingReady.

(** ** Operations on the stores *)

Definition on_nodes {A} (m : M (list node) A) : M world A := lift nodes set_nodes m.

(** [rec] of the loop of [provision_list]: the record object at position [i]. *)
Definition get_rec (i : nat) : M world dict :=
  w <- get ;; orraise IndexError (device_queue w !! i).

(** [rec[ k ] = v] *)
Definition set_field (i : nat) (k : string) (v : json) : M world unit :=
  w <- get ;; put (set_device_queue (alter (insert k v) i (device_queue w)) w).

(** [write_json_file( args.device_queue, device_queue )] *)
Definition write_queue : M world unit :=
  ok <- ask EvWriteQueue (o_ok o) ;;
  if (ok : bool) then w <- get ;; put (push_queue_file w) else exit ExitWriteFailed.

(** [write_json_file( args.device_db, device_db )] *)
Definition write_db : M world unit :=
  ok <- ask EvWriteDb (o_ok o) ;;
  if (ok : bool) then w <- get ;; put (push_db_file w) else exit ExitWriteFailed.

(** [device_db[ mac ] = rec] *)
Definition db_store (mac : string) (i : nat) : M world unit :=
  w <- get ;; put (set_device_db (<[mac := DbRec i]> (device_db w)) w).

Definition print_label {St} : M St unit :=
  ok <- ask EvLabel (o_ok o) ;;
  if (ok : bool) then ret tt else raise HookFailure.

(** [toggle_device], as one interaction. *)
Definition toggle_device {St} : M St unit := emit EvToggle.

Definition finish_up_device (fuel : nat) (device : string) (i : nat) (operation : string)
    (args : options) (new_version : option string)
    (initial_status configured_settings : option json) : M world unit :=
  t <- time_time o ;;
  set_field i "ConfirmedTime" (JNum t) ;;;
  rec <- get_rec i ;;
  configured_settings <-
    (if truthy_opt configured_settings then ret configured_settings
     else get_url (a_pause_time args) (get_settings_url device rec)) ;;
  set_field i "status" (default JNull initial_status) ;;;
  set_field i "settings"
    (if truthy_opt configured_settings then default JNull configured_settings
     else JObj ∅) ;;;
  set_field i "Origin" (JStr operation) ;;;
  initial_status <- orraise TypeError initial_status ;;
  mac <- jget initial_status "mac" ;;
  set_field i "ID" mac ;;;
  wifi_sta <- jget initial_status "wifi_sta" ;;
  ip <- jget wifi_sta "ip" ;;
  set_field i "IP" ip ;;;
  mac <- jstr mac ;;
  db_store mac i ;;;
  write_db ;;;
  (if negb (bool_decide (a_ota args = "")) then
     p <- flash_device fuel device (a_pause_time args) (a_ota args)
            (a_ota_timeout args) new_version (a_dry_run args) ;;
     if flash_returns p then
       new_status <- get_status device (a_pause_time args) ;;
       set_field i "status" (default (JObj ∅) new_status) ;;;
       db_store mac i ;;;
       write_db
     else ret tt
   else ret tt) ;;;
  (if a_print_using args then print_label else ret tt) ;;;
  (if a_toggle args then
     cs <- orraise TypeError configured_settings ;;
     dev <- jget cs "device" ;;
     jget dev "type" ;;;
     toggle_device
   else ret tt).

(** ** provision-list *)

(** "wait for site_survey to drop the device": the loop
    [while misses < 3 and passes < 60]; returns [(misses, passes)]. *)
Fixpoint drop_wait (fuel : nat) (ap_node : nat) (prefix ssid : string)
    (misses passes : nat) : M (list node) (nat * nat) :=
  if Nat.ltb misses 3 && Nat.ltb passes 60 then
    match fuel with
    | 0 => diverge
    | S fuel' =>
        sleep 1000 ;;;
        let passes := S passes in
        check_ssids <- ddwrt_discover ap_node prefix ;;
        if bool_decide (ssid ∈ check_ssids)
        then drop_wait fuel' ap_node prefix ssid 0 passes
        else drop_wait fuel' ap_node prefix ssid (S misses) passes
    end
  else ret (misses, passes).

(** [misses >= 3]: the factory SSID is taken to have left the survey. *)
Definition departed (w : nat * nat) : bool := Nat.leb 3 (fst w).

(** [cn[ 'router' ][ 'et0macaddr' ]]; a connection object only exists once
    this field compared equal to a string. *)
Definition node_mac (cn : nat) : M (list node) string :=
  nd <- node_at cn ;; m <- dget (n_router nd) "et0macaddr" ;; jstr m.

(** The inner [while True] of [provision_list]: program the routers, push
    the join request, wait for the factory SSID to drop. *)
Fixpoint attempts_loop (fuel : nat) (args : options) (ap_node sta_node : nat)
    (rec : dict) (ssid : string) (attempts : nat) : M (list node) unit :=
  match fuel with
  | 0 => diverge
  | S fuel' =>
      let attempts := S attempts in
      ap_mac <- node_mac ap_node ;;
      sta_mac <- node_mac sta_node ;;
      (if negb (bool_decide (ap_mac = sta_mac)) then
         target <- dget rec "SSID" ;;
         password <- dget rec "Password" ;;
         ddwrt_set_ap_mode ap_node target password
       else ret tt) ;;;
      ddwrt_set_sta_mode sta_node (JStr ssid) ;;;
      p <- ddwrt_wget sta_node (status_url factory_device_addr) 10 ;;
      r0 <- orraise IndexError (py_index (fst p) 0) ;;
      orraise JSONDecodeError (json_loads r0) ;;;
      u <- (if has_key rec "StaticIP" then
              target <- dget rec "SSID" ;;
              password <- dget rec "Password" ;;
              static_ip <- dget rec "StaticIP" ;;
              net_mask <- dget rec "NetMask" ;;
              gateway <- dget rec "Gateway" ;;
              ret (set_settings_url factory_device_addr target password
                     (Some static_ip) (Some net_mask) (Some gateway))
            else
              target <- dget rec "SSID" ;;
              password <- dget rec "Password" ;;
              ret (set_settings_url factory_device_addr target password
                     None None None)) ;;
      ddwrt_wget sta_node u 5 ;;;
      w <- drop_wait fuel ap_node (a_prefix args) ssid 0 0 ;;
      if departed w then ret tt
      else if Nat.leb 10 attempts then exit ExitAttemptsExhausted
      else attempts_loop fuel' args ap_node sta_node rec ssid attempts
  end.

(** The outer [while True] of [provision_list] for the record at position
    [i]; returns the new [success_count]. *)
Fixpoint provision_rec (fuel : nat) (args : options) (new_version : option string)
    (ap_node sta_node : nat) (i : nat) (success_count : nat) : M world nat :=
  match fuel with
  | 0 => diverge
  | S fuel' =>
      device_ssids <- on_nodes (ddwrt_discover sta_node (a_prefix args)) ;;
      match device_ssids with
      | ssid :: _ =>
          set_field i "factory_ssid" (JStr ssid) ;;;
          t <- time_time o ;;
          set_field i "InProgressTime" (JNum t) ;;;
          write_queue ;;;
          rec <- get_rec i ;;
          on_nodes (attempts_loop fuel args ap_node sta_node rec ssid 0) ;;;
          ap_mac <- on_nodes (node_mac ap_node) ;;
          sta_mac <- on_nodes (node_mac sta_node) ;;
          (if bool_decide (ap_mac = sta_mac) then
             target <- dget rec "SSID" ;;
             password <- dget rec "Password" ;;
             on_nodes (ddwrt_set_ap_mode ap_node target password)
           else ret tt) ;;;
          ip_address <- (if has_key rec "StaticIP" then dget rec "StaticIP"
                         else ret (JStr ssid)) ;;
          t <- time_time o ;;
          set_field i "CompletedTime" (JNum t) ;;;
          ip_address <- jstr ip_address ;;
          rec <- get_rec i ;;
          p <- on_nodes (ddwrt_wget ap_node (get_settings_url ip_address rec) 40) ;;
          r0 <- orraise IndexError (py_index (fst p) 0) ;;
          configured_settings <- orraise JSONDecodeError (json_loads r0) ;;
          if eq_str configured_settings "" then exit ExitDeviceNotFound
          else
            let success_count := S success_count in
            write_queue ;;;
            new_status <- get_status ip_address (a_pause_time args) ;;
            finish_up_device fuel ip_address i "provision-list" args new_version
              new_status (Some configured_settings) ;;;
            ret success_count
      | [] =>
          sleep (1000 * a_wait_time args) ;;;
          provision_rec fuel' args new_version ap_node sta_node i success_count
      end
  end.

(** [for rec in device_queue] over the positions still to visit; returns
    [(success_count, setup_count)], the two numbers of the final message. *)
Fixpoint provision_loop (fuel : nat) (args : options) (new_version : option string)
    (ap_node sta_node : nat) (todo : list nat) (setup_count success_count : nat)
  : M world (nat * nat) :=
  match todo with
  | [] => ret (success_count, setup_count)
  | i :: todo' =>
      rec <- get_rec i ;;
      if has_key rec "CompletedTime"
         || (negb (no_group (a_group args)) && negb (in_group rec (a_group args)))
      then provision_loop fuel args new_version ap_node sta_node todo'
             setup_count success_count
      else if negb (has_key rec "SSID")
      then provision_loop fuel args new_version ap_node sta_node todo'
             setup_count success_count
      else
        (if Nat.ltb 0 setup_count && a_cue args then emit EvCue else ret tt) ;;;
        let setup_count := S setup_count in
        success_count <- provision_rec fuel args new_version ap_node sta_node i
                           success_count ;;
        provision_loop fuel args new_version ap_node sta_node todo'
          setup_count success_count
  end.

Definition provision_list (fuel : nat) (args : options) (router_db : dict)
    (new_version : option string) : M world (nat * nat) :=
  w <- get ;;
  check_for_device_queue (device_queue w) (a_group args) false ;;;
  roles <- on_nodes (ddwrt_choose_roles router_db (a_ddwrt_name args)) ;;
  w <- get ;;
  provision_loop fuel args new_version (fst roles) (snd roles)
    (seq 0 (length (device_queue w))) 0 0.

End Engine.

(** * Vocabulary of the statements *)

(** ** Site surveys *)

(** The SSIDs [ddwrt_discover] returns for the answer [p] to the survey
    command. *)
Definition visible (survey_ssid : string -> string) (prefix : string)
    (p : list string * string) : list string :=
  List.filter (String.prefix prefix) (map survey_ssid (tail (fst p))).

(** The survey command printed nothing and reported an error:
    [ddwrt_discover] exits. *)
Definition survey_failed (p : list string * string) : bool :=
  match fst p with [] => true | _ => false end && negb (bool_decide (snd p = "")).

(** The interactions of [n] polls of the survey: a one-second sleep, then
    the survey command. *)
Definition poll_trace (conn : string) (n : nat) : list event :=
  concat (repeat [EvSleep 1000; EvCmd conn SiteSurvey] n).

(** ** Commands sent to a router *)

(** The commands that write, delete and commit configuration keys. *)
Definition is_prep (e : event) : bool :=
  match e with
  | EvCmd _ (NvramSet _ _) | EvCmd _ (NvramUnset _) | EvCmd _ NvramCommit => true
  | _ => false
  end.

(** The interactions of the full apply: the ApplyTake request, the pause,
    the resynchronisation of the session and the radio cycle. *)
Definition is_full_apply (e : event) : bool :=
  match e with
  | EvApply _ | EvSync _ | EvSleep _ | EvCmd _ RadioCycle => true
  | _ => false
  end.

(** ** Capabilities of a router *)

(** The router was learned in the mode; the connection is in AP mode. *)
Definition ap_capable (n : node) : bool := has_key (n_router n) "ap".
Definition sta_capable (n : node) : bool := has_key (n_router n) "sta".
Definition in_ap_mode (n : node) : bool := eq_str (n_current_mode n) "ap".

(** What [ddwrt_choose_roles] answers for given connection objects. *)
Definition assign (nodes : list node) : res (nat * nat) :=
  fst (fst ((roles <- choose_indices nodes ;;
             ap_node <- orraise IndexError (py_norm (length nodes) (fst roles)) ;;
             sta_node <- orraise IndexError (py_norm (length nodes) (snd roles)) ;;
             ret (ap_node, sta_node)) 0 nodes)).

(** ** Firmware update *)

(** The answer to a read of "/ota" is an object with the given status and
    version. *)
Definition reports (j : option json) (status version : string) : Prop :=
  exists m, j = Some (JObj m) /\ m !! "status" = Some (JStr status) /\
            m !! "old_version" = Some (JStr version).

(** The three interactions of one pass of the polling loop. *)
Definition poll_events (addr : string) (pause_time : Z) : list event :=
  [EvTime; EvSleep (1000 * pause_time); EvHttp (UOta addr)].

(** The update command. *)
Definition is_update (e : event) : bool :=
  match e with
  | EvHttp (UOtaUpdate _) | EvHttp (UOtaUrl _ _) => true
  | _ => false
  end.

(** What the loop does with a non-updating answer after "updating" was seen. *)
Definition verdict (new_version : option string) (old_version v : string) : flash_path :=
  if no_version new_version then OtaSuccess
  else if negb (bool_decide (v = old_version)) then
    if eq_version (JStr v) new_version then OtaSuccess else OtaMismatch
  else OtaUnchanged.

(** Pass [k] of the polling loop, counted from 0, with the loop entered
    at tick [t0]: the clock is before the deadline and the read answers
    with the given status and version. *)
Definition poll_ok (o : oracle) (addr : string) (deadline : Z) (t0 k : nat)
    (status version : string) : Prop :=
  (o_clock o (t0 + 3 * k) < deadline)%Z /\
  reports (o_http o (t0 + 3 * k + 2) (UOta addr)) status version.

(** ** Timestamps of an instruction *)

(** Successive readings of the clock do not decrease. *)
Definition clock_mono (o : oracle) : Prop :=
  forall a b, a <= b -> (o_clock o a <= o_clock o b)%Z.

(** The lifecycle timestamps of a record, read at a moment [now]: each
    field that is present is a number not after [now], is preceded by the
    field of the phase before, and is not before it. *)
Definition timeline (now : Z) (rec : dict) : Prop :=
  (forall z, rec !! "InsertTime" = Some (JNum z) -> (z <= now)%Z) /\
  (forall v, rec !! "InProgressTime" = Some v ->
     exists a, v = JNum a /\ (a <= now)%Z /\
               forall z, rec !! "InsertTime" = Some (JNum z) -> (z <= a)%Z) /\
  (forall v, rec !! "CompletedTime" = Some v ->
     exists a b, rec !! "InProgressTime" = Some (JNum a) /\ v = JNum b /\
                 (a <= b <= now)%Z) /\
  (forall v, rec !! "ConfirmedTime" = Some v ->
     exists b c, rec !! "CompletedTime" = Some (JNum b) /\ v = JNum c /\
                 (b <= c <= now)%Z).

(** The keys [timeline] reads. *)
Definition is_stamp (k : string) : bool :=
  bool_decide (k = "InsertTime") || bool_decide (k = "InProgressTime")
  || bool_decide (k = "CompletedTime") || bool_decide (k = "ConfirmedTime").

(** The loop of [provision_list] processes a record: it is not marked
    complete, it is in the requested group and it names an SSID. *)
Definition selected (args : options) (rec : dict) : bool :=
  negb (has_key rec "CompletedTime"
        || (negb (no_group (a_group args)) && negb (in_group rec (a_group args))))
  && has_key rec "SSID".


(** The record at position [i] of a queue has no CompletedTime. *)
Definition lacks_completed (i : nat) (q : list dict) : Prop :=
  forall rec, q !! i = Some rec -> rec !! "CompletedTime" = None.

(** The record at position [i] of a queue has the field [k]. *)
Definition has_field (i : nat) (k : string) (q : list dict) : Prop :=
  exists rec, q !! i = Some rec /\ is_Some (rec !! k).


(** * Relations on runs *)

(** How a computation ended, without the returned value. *)
Inductive kind :=
| KRet
| KExit (x : exit_site)
| KRaise (e : exn)
| KDiverge.

Definition kind_of {A} (r : res A) : kind :=
  match r with
  | Ret _ => KRet
  | Exit x => KExit x
  | Raise e => KRaise e
  | Diverge => KDiverge
  end.

(** A relation between the store before, the trace, the store after and the
    way the computation ended, that holds of the empty run and composes
    along sequencing. *)
Class Stepwise {St} (R : St -> list event -> St -> kind -> Prop) := {
  step_refl : forall s, R s [] s KRet;
  step_trans : forall s tr1 s1 tr2 s2 k,
      R s tr1 s1 KRet -> R s1 tr2 s2 k -> R s (tr1 ++ tr2)%list s2 k;
}.

(** Every run of [m] is in the relation [R]. *)
Definition sat {St A} (R : St -> list event -> St -> kind -> Prop) (m : M St A) : Prop :=
  forall t s r tr s', m t s = (r, tr, s') -> R s tr s' (kind_of r).

(** The store is left as it was. *)
Definition keep {St} (s : St) (tr : list event) (s' : St) (k : kind) : Prop := s' = s.

(** Computations that neither interact nor touch the store nor read the
    tick. *)
Definition is_pure {St A} (m : M St A) : Prop :=
  exists r, forall t s, m t s = (r, [], s).

(** Only commands that write, delete or commit configuration keys were
    issued, and the store of connection objects is as before. *)
Definition prep_only (s : list node) (tr : list event) (s' : list node) (k : kind) : Prop :=
  s' = s /\ Forall (fun e => is_prep e = true) tr.

(** [Q] holds of the way [m] ends, of the tick it ends at and of the store
    it leaves. *)
Definition wp {St A} (m : M St A) (Q : res A -> nat -> St -> Prop) (t : nat) (s : St) : Prop :=
  match m t s with (r, tr, s') => Q r (t + length tr) s' end.

(** What is left to show after the first part of a sequence. *)
Definition wp_next {St A B} (k : A -> M St B) (Q : res B -> nat -> St -> Prop)
    (r : res A) (t : nat) (s : St) : Prop :=
  match r with
  | Ret a => wp (k a) Q t s
  | Exit x => Q (Exit x) t s
  | Raise e => Q (Raise e) t s
  | Diverge => Q Diverge t s
  end.

(** The computation can only leave through the listed [sys.exit()] sites. *)
Definition exits_in {St} (X : list exit_site) (s : St) (tr : list event) (s' : St)
    (k : kind) : Prop :=
  forall x, k = KExit x -> x ∈ X.

(** ** Phases of an instruction being provisioned *)

(** How far the record being provisioned has got. *)
Inductive phase :=
| PhOpen          (* not marked complete, in memory or in a written queue file *)
| PhClaimed       (* InProgressTime set, not marked complete anywhere *)
| PhDone          (* CompletedTime set in memory only *)
| PhSaved         (* CompletedTime set *)
| PhConfirmed.    (* ConfirmedTime set *)

(** The state of a run that started provisioning record [i] in world [w0],
    seen at tick [t] in phase [ph]: every record satisfies [T t], the other
    records are as they were, and [new] are the queue files written since. *)
Definition phase_inv (T : nat -> dict -> Prop) (i : nat) (w0 : world) (ph : phase)
    (t : nat) (w : world) : Prop :=
  Forall (T t) (device_queue w) /\
  length (device_queue w) = length (device_queue w0) /\
  (forall j, j <> i -> device_queue w !! j = device_queue w0 !! j) /\
  exists new, queue_file w = (new ++ queue_file w0)%list /\
    match ph with
    | PhOpen => lacks_completed i (device_queue w) /\ Forall (lacks_completed i) new
    | PhClaimed => has_field i "InProgressTime" (device_queue w) /\
                   lacks_completed i (device_queue w) /\ Forall (lacks_completed i) new
    | PhDone => has_field i "CompletedTime" (device_queue w) /\
                Forall (lacks_completed i) new
    | PhSaved => has_field i "CompletedTime" (device_queue w)
    | PhConfirmed => has_field i "ConfirmedTime" (device_queue w)
    end.

(** A step that keeps the run in its phase, for the phases in [P]. *)
Definition steady_on (T : nat -> dict -> Prop) (i : nat) (w0 : world)
    (P : phase -> Prop) (w : world) (tr : list event) (w' : world) (k : kind) : Prop :=
  forall ph t, P ph -> phase_inv T i w0 ph t w -> phase_inv T i w0 ph t w'.

(** What a property of records must satisfy to be kept by provisioning. *)
Record stamping (o : oracle) (T : nat -> dict -> Prop) : Prop := {
  st_later : forall t t' rec, t <= t' -> T t rec -> T t' rec;
  st_other : forall t rec k v, is_stamp k = false -> T t rec -> T t (<[k := v]> rec);
  st_in_progress : forall t rec,
      T t rec -> rec !! "CompletedTime" = None ->
      T t (<["InProgressTime" := JNum (o_clock o t)]> rec);
  st_completed : forall t rec,
      T t rec -> is_Some (rec !! "InProgressTime") -> rec !! "CompletedTime" = None ->
      T t (<["CompletedTime" := JNum (o_clock o t)]> rec);
  st_confirmed : forall t rec,
      T t rec -> is_Some (rec !! "CompletedTime") ->
      T t (<["ConfirmedTime" := JNum (o_clock o t)]> rec);
}.

(** Two relations at once. *)
Definition rel_and {St} (R1 R2 : St -> list event -> St -> kind -> Prop)
    (s : St) (tr : list event) (s' : St) (k : kind) : Prop :=
  R1 s tr s' k /\ R2 s tr s' k.

(** How the provisioning of record [i] can end: returned with the record
    confirmed, or left from a phase that depends on the exit site. *)
Definition rec_post (T : nat -> dict -> Prop) (i : nat) (w0 : world)
    (success_count : nat) (r : res nat) (t : nat) (w : world) : Prop :=
  exists ph, phase_inv T i w0 ph t w /\
    match r with
    | Ret n => ph = PhConfirmed /\ n = S success_count
    | Exit ExitAttemptsExhausted => ph = PhOpen \/ ph = PhClaimed
    | Exit ExitDeviceNotFound => ph = PhDone
    | _ => True
    end.


(** * A laboratory: scripted routers and devices *)

Definition lab_status : json :=
  JObj (<["mac" := JStr "A4CF12F4D0E1"]>
        (<["wifi_sta" := JObj (<["ip" := JStr "10.0.0.7"]> ∅)]> ∅)).

Definition lab_settings : json :=
  JObj (<["device" := JObj (<["type" := JStr "SHSW-1"]> ∅)]> ∅).

(** The texts the laboratory's devices answer with, and what [json.loads]
    makes of them. *)
Definition lab_json_loads (s : string) : option json :=
  if bool_decide (s = "STATUS") then Some lab_status
  else if bool_decide (s = "SETTINGS") then Some lab_settings
  else if bool_decide (s = "{}") then Some (JObj ∅)
  else if bool_decide (s = "EMPTY") then Some (JStr "")
  else None.

(** A survey line of the laboratory is the SSID itself. *)
Definition lab_survey_ssid (line : string) : string := line.

Definition lab_factory_ssid : string := "shelly1-0001".

(** The routers answer every command without error and report [mode] as
    their wireless mode; the factory device is in the site survey at the
    ticks before [leave_at]; a device configured with the address "lost"
    is not found on the target network: the answer to the request for its
    settings is the empty JSON string. *)
Definition lab_cmd (mode : string) (leave_at : nat) (t : nat) (conn : string) (c : cmd)
  : list string * string :=
  match c with
  | NvramGet k =>
      if bool_decide (k = "et0macaddr") then (["mac-of-" +:+ conn], "")
      else if bool_decide (k = "wl_mode") then ([mode], "")
      else ([""], "")
  | SiteSurvey =>
      (if Nat.ltb t leave_at then ["survey header"; lab_factory_ssid]
       else ["survey header"], "")
  | Wget (UStatus _) => (["STATUS"; ""], "")
  | Wget (USettings address _ _ _) =>
      if bool_decide (address = "lost") then (["EMPTY"; ""], "")
      else (["SETTINGS"; ""], "")
  | Wget _ => (["{}"; ""], "")
  | _ => ([""], "")
  end.

Definition lab_http (t : nat) (u : url) : option json :=
  match u with
  | UStatus _ => Some lab_status
  | USettings _ _ _ _ => Some lab_settings
  | _ => Some (JBool true)
  end.

(** The clock advances by one millisecond per interaction. *)
Definition lab_oracle (mode : string) (leave_at : nat) : oracle :=
  {| o_cmd := lab_cmd mode leave_at;
     o_http := lab_http;
     o_clock := fun t => (1000 + Z.of_nat t)%Z;
     o_ok := fun _ => true |}.

Definition lab_profile (ifname : bool) : json :=
  JObj (<["wl0_hw_rxchain" := JStr "3"]>
        (<["wl0_hw_txchain" := JStr "3"]>
         (<["wan_hwaddr" := JStr "00:11:22:33:44:55"]>
          (if ifname then <["sta_ifname" := JStr "eth2"]> ∅ else ∅)))).

(** The entry of [router_db] for a router learned in the given modes. *)
Definition lab_router (address : string) (ap sta : bool) : dict :=
  <["address" := JStr address]>
  (<["password" := JStr "secret"]>
   (<["et0macaddr" := JStr ("mac-of-" +:+ address)]>
    ((if ap then <["ap" := lab_profile false]> else id)
       ((if sta then <["sta" := lab_profile true]> else id) ∅)))).

Definition lab_router_db : dict :=
  <["both" := JObj (lab_router "192.168.1.1" true true)]>
  (<["both2" := JObj (lab_router "192.168.1.4" true true)]>
  (<["aponly" := JObj (lab_router "192.168.1.2" true false)]>
   (<["staonly" := JObj (lab_router "192.168.1.3" false true)]> ∅))).

(** The connection object of a laboratory router. *)
Definition lab_node (address : string) (ap sta : bool) (mode : string) : node :=
  {| n_conn := address; n_router := lab_router address ap sta;
     n_current_mode := JStr mode |}.

Definition lab_instruction (ssid password : string) (inserted : Z) : dict :=
  <["SSID" := JStr ssid]> (<["Password" := JStr password]>
    (<["InsertTime" := JNum inserted]> ∅)).


Definition lab_world (ns : list node) (queue : list dict) : world :=
  {| nodes := ns; device_queue := queue; device_db := ∅;
     queue_file := []; db_file := [] |}.

Definition lab_args (names : list string) : options :=
  {| a_group := None; a_ddwrt_name := names; a_prefix := "shelly";
     a_wait_time := 0; a_pause_time := 3; a_ota := ""; a_ota_timeout := 300;
     a_dry_run := false; a_cue := false; a_print_using := false; a_toggle := false |}.

(** A run of [provision_list] in the laboratory. *)
Definition lab_run (mode : string) (leave_at : nat) (names : list string)
    (queue : list dict) : res (nat * nat) * list event * world :=
  provision_list (lab_oracle mode leave_at) lab_json_loads lab_survey_ssid 100
    (lab_args names) lab_router_db None 0 (lab_world [] queue).

(** A router whose successive site surveys show the given SSIDs, the first
    survey being the interaction at tick 1 and every second interaction
    from there a survey. *)
Definition scan_oracle (scans : list (list string)) : oracle :=
  {| o_cmd := fun t _ c =>
       match c with
       | SiteSurvey => ("survey header" :: default [] (scans !! ((t - 1) / 2)), "")
       | _ => ([""], "")
       end;
     o_http := fun _ _ => None;
     o_clock := fun _ => 0%Z;
     o_ok := fun _ => true |}.

(** The answer of a device to a read of "/ota". *)
Definition ota_answer (p : string * string) : json :=
  JObj (<["status" := JStr (fst p)]> (<["old_version" := JStr (snd p)]> ∅)).

(** A device whose successive reads of "/ota" answer the given status and
    version pairs, for a [flash_device] started at tick 0: the first read is
    the interaction at tick 0, the later ones every third interaction from
    tick 5.  The update command is accepted and the clock stands still. *)
Definition ota_oracle (answers : list (string * string)) : oracle :=
  {| o_cmd := fun _ _ _ => ([""], "");
     o_http := fun t u =>
       match u with
       | UOta _ => ota_answer <$> answers !! (if Nat.eqb t 0 then 0 else (t - 2) / 3)
       | _ => Some (JBool true)
       end;
     o_clock := fun _ => 0%Z;
     o_ok := fun _ => true |}.

(** * More of the tool

    Functions of automagic.py around the engine: the retries of the HTTP
    and wget helpers, the loop of [toggle_device], the import of
    instructions, the reading of the tool's files, the learning of a
    router and the parsing of conditions.  Where a function leaves
    through a [sys.exit()] of its own, its result type names the site. *)

(** ** Vocabulary *)


(** The interactions of [n] unanswered requests of [ddwrt_wget]: the wget
    command, then a pause of two seconds. *)
Definition failed_wgets (conn : string) (u : url) (n : nat) : list event :=
  concat (repeat [EvCmd conn (Wget u); EvSleep 2000] n).

(** The router answers a command with at most two lines and no error
    text: what [ddwrt_get_single_line_result] accepts. *)
Definition single_line (p : list string * string) (line : string) : Prop :=
  snd p = "" /\ length (fst p) <= 2 /\ head (fst p) = Some line.

(** The first [m] polls of the loop of [flash_device] entered at tick
    [t0] take place before the deadline and are answered: the first [j]
    of them with another status than "updating", the later ones with
    "updating". *)
Definition ota_progress (o : oracle) (addr : string) (deadline : Z) (t0 j m : nat)
  : Prop :=
  forall k, k < m ->
    exists st v, poll_ok o addr deadline t0 k st v /\ (st = "updating" <-> j <= k).

(** The connection object with its current mode replaced. *)
Definition with_mode (nd : node) (mode : json) : node :=
  {| n_conn := n_conn nd; n_router := n_router nd; n_current_mode := mode |}.

(** The command that restarts the wireless services. *)
Definition is_restart (e : event) : bool :=
  match e with
  | EvCmd _ RestartWireless => true
  | _ => false
  end.

(** One round of the wait for a factory device: the site survey, then a
    pause of [wait_time] seconds. *)
Definition wait_round (conn : string) (wait_time : Z) : list event :=
  [EvCmd conn SiteSurvey; EvSleep (1000 * wait_time)].

(** What the record is left with when [finish_up_device] fails for want
    of a status. *)
Definition unconfirmed (rec : dict) (now : Z) (settings : json) (operation : string)
  : dict :=
  <["Origin" := JStr operation]>
  (<["settings" := settings]>
   (<["status" := JNull]>
    (<["ConfirmedTime" := JNum now]> rec))).

(** ** toggle_device in detail

    The loop of [toggle_device], which the engine above takes as one
    interaction.  The device is asked through its own HTTP surface, so
    the loop has its own interactions and its own history; a
    KeyboardInterrupt, which the caller catches, is not modelled. *)

(** The two device types the loop tries: 'light' and 'relay'. *)
Inductive toggle_type := Light | Relay.

Inductive toggle_event :=
| TgRead (ty : toggle_type)     (* url_read( get_toggle_url( ip_address, ty ) ) *)
| TgSleep.                      (* time.sleep( 0.5 ) *)

(** The local variables of the loop that live across passes. *)
Record toggle_state := {
  success_cnt : nat;
  fail_cnt : nat;
  use_type : option toggle_type;
}.

(** [not use_type or use_type == ty] *)
Definition tries_type (use : option toggle_type) (ty : toggle_type) : bool :=
  match use, ty with
  | None, _ | Some Light, Light | Some Relay, Relay => true
  | _, _ => false
  end.

(** One pass of the [while True], up to its last line.  [answer t ty] is
    the body read by the request at position [t] of the history: the
    empty string for an empty body as well as for an exception. *)
Definition toggle_round (answer : nat -> toggle_type -> string) (t : nat)
    (st : toggle_state) : list toggle_event * toggle_state :=
  let use0 := use_type st in
  let tr2 := if tries_type use0 Light then [TgRead Light] else [] in
  let result2 := if tries_type use0 Light then answer t Light else "" in
  let use1 := match use0 with
              | None => if negb (bool_decide (result2 = "")) then Some Light else None
              | _ => use0
              end in
  let tr1 := if tries_type use1 Relay then [TgRead Relay] else [] in
  let result1 := if tries_type use1 Relay then answer (t + length tr2) Relay else "" in
  let use2 := match use1 with
              | None => if negb (bool_decide (result1 = "")) then Some Relay else None
              | _ => use1
              end in
  let ok := negb (bool_decide (result1 = "")) || negb (bool_decide (result2 = "")) in
  ((tr2 ++ tr1 ++ [TgSleep])%list,
   {| success_cnt := if ok then S (success_cnt st) else success_cnt st;
      fail_cnt := if ok then 0 else S (fail_cnt st);
      use_type := use2 |}).

(** [success_cnt > 0 and fail_cnt > 1 or fail_cnt > 5] *)
Definition toggle_done (st : toggle_state) : bool :=
  Nat.ltb 0 (success_cnt st) && Nat.ltb 1 (fail_cnt st) || Nat.ltb 5 (fail_cnt st).

(** The [while True]; the first component tells whether the loop was left
    ([break]) or the fuel ran out. *)
Fixpoint toggle_loop (fuel : nat) (answer : nat -> toggle_type -> string) (t : nat)
    (st : toggle_state) : bool * list toggle_event * toggle_state :=
  match fuel with
  | 0 => (false, [], st)
  | S fuel' =>
      let '(tr, st') := toggle_round answer t st in
      if toggle_done st' then (true, tr, st')
      else
        let '(ended, tr', st'') := toggle_loop fuel' answer (t + length tr) st' in
        (ended, (tr ++ tr')%list, st'')
  end.

(** [toggle_device]; the final message is printed when the returned
    [success_cnt] is 0. *)
Definition toggle_device_requests (fuel : nat) (answer : nat -> toggle_type -> string)
  : bool * list toggle_event * toggle_state :=
  toggle_loop fuel answer 0 {| success_cnt := 0; fail_cnt := 0; use_type := None |}.

(** ** The import of instructions

    [append_list] on rows that are dicts: what [csv.DictReader] yields,
    and what an import file that is a list of JSON objects holds.  The
    two regular expressions are parameters. *)

Definition required_keys : list string := ["SSID"; "Password"].

Definition optional_keys : list string :=
  ["StaticIP"; "NetMask"; "Gateway"; "Group"; "Label"; "ProbeIP"; "Tags"; "DeviceName";
   "LatLng"; "TZ"; "Access"].

(** Why a row is refused: the [sys.exit()] sites of [append_list] by
    their message, and the TypeError of [re.match] on a value that is not
    a string. *)
Inductive import_stop :=
| MissingKey (k : string)   (* "Required key ... missing at record ..." *)
| NoNetMask                 (* "... contains StaticIP but not NetMask" *)
| BadLatLng                 (* "... contains improper LatLng" *)
| BadTZ                     (* "... contains improper TZ" *)
| BadAccess                 (* "... contains improper Access value" *)
| NotAString.               (* re.match: TypeError *)

(** Sequencing of checks that can stop. *)
Definition and_then {E A B} (x : E + A) (f : A -> E + B) : E + B :=
  match x with
  | inl e => inl e
  | inr a => f a
  end.

(** [for k in ks: ...] over the record [r] being built. *)
Fixpoint for_keys (f : string -> dict -> import_stop + dict) (ks : list string) (r : dict)
  : import_stop + dict :=
  match ks with
  | [] => inr r
  | k :: ks' => and_then (f k r) (for_keys f ks')
  end.

(** The body of [for k in required_keys]. *)
Definition copy_required (row : dict) (k : string) (r : dict) : import_stop + dict :=
  if negb (has_key row k) && negb (has_key row "ProbeIP") then inl (MissingKey k)
  else inr (match row !! k with
            | Some v => <[k := v]> r
            | None => r
            end).

(** [if not re.match( pattern, v ): ... sys.exit( )] *)
Definition must_match (ok : string -> bool) (v : json) (e : import_stop)
  : import_stop + unit :=
  match v with
  | JStr s => if ok s then inr tt else inl e
  | _ => inl NotAString
  end.

(** The body of [for k in optional_keys]. *)
Definition copy_optional (latlng_ok tz_ok : string -> bool) (row : dict) (k : string)
    (r : dict) : import_stop + dict :=
  match row !! k with
  | None => inr r
  | Some v =>
      and_then
        (if bool_decide (k = "StaticIP") && truthy v then
           if negb (has_key row "NetMask") || negb (truthy_opt (row !! "NetMask"))
           then inl NoNetMask
           else inr (<["IP" := v]> r)
         else inr r)
        (fun r =>
      and_then
        (if bool_decide (k = "LatLng") && truthy v then must_match latlng_ok v BadLatLng
         else inr tt)
        (fun _ =>
      and_then
        (if bool_decide (k = "TZ") && truthy v then must_match tz_ok v BadTZ
         else inr tt)
        (fun _ =>
      and_then
        (if bool_decide (k = "Access") && truthy v then
           if negb (eq_str v "Continuous" || eq_str v "Periodic") then inl BadAccess
           else inr tt
         else inr tt)
        (fun _ => inr (<[k := v]> r)))))
  end.

(** The record built from a row, before its InsertTime is set. *)
Definition import_row (latlng_ok tz_ok : string -> bool) (row : dict)
  : import_stop + dict :=
  and_then (for_keys (copy_required row) required_keys ∅)
           (for_keys (copy_optional latlng_ok tz_ok row) optional_keys).

(** [append_list], on the store [device_queue]; the result is [None] when
    the function returns and the site when it leaves through
    [sys.exit()]. *)
Fixpoint append_list (o : oracle) (latlng_ok tz_ok : string -> bool) (l : list dict)
  : M (list dict) (option import_stop) :=
  match l with
  | [] => ret None
  | row :: l' =>
      match import_row latlng_ok tz_ok row with
      | inl NotAString => raise TypeError
      | inl e => ret (Some e)
      | inr r =>
          now <- time_time o ;;
          device_queue <- get ;;
          put (device_queue ++ [<["InsertTime" := JNum now]> r])%list ;;;
          append_list o latlng_ok tz_ok l'
      end
  end.

(** [import_csv], given the rows the reader yields: the queue file is
    written once all rows are appended. *)
Definition import_csv (o : oracle) (latlng_ok tz_ok : string -> bool) (rows : list dict)
  : M world (option import_stop) :=
  e <- lift device_queue set_device_queue (append_list o latlng_ok tz_ok rows) ;;
  match e with
  | Some x => ret (Some x)
  | None => write_queue o ;;; ret None
  end.

(** ** Reading a file of the tool *)

(** The [validate] argument of [read_json_file]. *)
Inductive validate_arg :=
| NoValidate                       (* False, the default *)
| ValidateFormat                   (* True *)
| ValidateKeys (ks : list string). (* a list of keys *)

Inductive read_outcome :=
| ReadRet (j : json)               (* return *)
| ReadExit                         (* sys.exit( ) *)
| ReadRaise (e : exn).             (* an exception that is not an IOError *)

(** [type( a ) == type( b )] *)
Definition same_type (a b : json) : bool :=
  match a, b with
  | JNull, JNull | JBool _, JBool _ | JNum _, JNum _ | JStr _, JStr _
  | JArr _, JArr _ | JObj _, JObj _ => true
  | _, _ => false
  end.

(** [v in x] for a string [v]; [None]: TypeError. *)
Definition py_in (v : string) (x : json) : option bool :=
  match x with
  | JObj m => Some (has_key m v)
  | JStr s => Some (match String.index 0 v s with Some _ => true | None => false end)
  | JArr l => Some (existsb (fun e => eq_str e v) l)
  | _ => None
  end.

(** [for v in validate: if v in first: valid = True], from [valid]. *)
Fixpoint any_key_in (ks : list string) (first : json) (valid : bool) : option bool :=
  match ks with
  | [] => Some valid
  | v :: ks' =>
      match py_in v first with
      | None => None
      | Some b => any_key_in ks' first (b || valid)
      end
  end.

(** [if validate:] *)
Definition validates (validate : validate_arg) : bool :=
  match validate with
  | NoValidate => false
  | ValidateFormat => true
  | ValidateKeys ks => match ks with [] => false | _ => true end
  end.

(** [read_json_file]; [file] is the text of the file, [None] when it
    cannot be opened, and [json_load] is the parser of the library. *)
Definition read_json_file (json_load : string -> option json) (file : option string)
    (empty : json) (validate : validate_arg) : read_outcome :=
  match file with
  | None => if eq_str empty "fail" then ReadExit else ReadRet empty
  | Some text =>
      match json_load text with
      | None => ReadRaise JSONDecodeError
      | Some result =>
          if validates validate then
            if negb (same_type empty result) then ReadExit
            else
              match result with
              | JObj m =>
                  if negb (has_key m "format")
                     || negb (default false ((fun f => eq_str f "automagic") <$> m !! "format"))
                  then ReadExit else ReadRet result
              | JArr (first :: _) =>
                  match validate with
                  | ValidateKeys ks =>
                      match any_key_in ks first false with
                      | None => ReadRaise TypeError
                      | Some true => ReadRet result
                      | Some false => ReadExit
                      end
                  | _ => ReadRaise TypeError
                  end
              | _ => ReadRet result
              end
          else ReadRet result
      end
  end.

(** ** What the import keeps *)

(** A row can be imported. *)
Definition importable (latlng_ok tz_ok : string -> bool) (row : dict) : Prop :=
  (has_key row "ProbeIP" = true \/ has_key row "SSID" = true /\ has_key row "Password" = true) /\
  (truthy_opt (row !! "StaticIP") = true -> truthy_opt (row !! "NetMask") = true) /\
  (truthy_opt (row !! "LatLng") = true ->
     exists s, row !! "LatLng" = Some (JStr s) /\ latlng_ok s = true) /\
  (truthy_opt (row !! "TZ") = true ->
     exists s, row !! "TZ" = Some (JStr s) /\ tz_ok s = true) /\
  (truthy_opt (row !! "Access") = true ->
     row !! "Access" = Some (JStr "Continuous") \/ row !! "Access" = Some (JStr "Periodic")).

(** The record is the row cut down to the keys the tool knows, with IP
    set from a StaticIP that is given. *)
Definition cut_down (row r : dict) : Prop :=
  forall k, r !! k =
    if bool_decide (k ∈ (required_keys ++ optional_keys)%list) then row !! k
    else if bool_decide (k = "IP") then
      (if truthy_opt (row !! "StaticIP") then row !! "StaticIP" else None)
    else None.

(** The queue is empty or its first record has one of the keys
    [read_json_file] looks for in a queue file. *)
Definition queue_valid (dq : list dict) : Prop :=
  match dq with
  | [] => True
  | first :: _ => has_key first "SSID" = true \/ has_key first "ProbeIP" = true
  end.

(** The checks of [copy_optional] pass for the key [k]. *)
Definition key_ok (latlng_ok tz_ok : string -> bool) (row : dict) (k : string) : Prop :=
  forall v, row !! k = Some v -> truthy v = true ->
    (k = "StaticIP" -> truthy_opt (row !! "NetMask") = true) /\
    (k = "LatLng" -> exists s, v = JStr s /\ latlng_ok s = true) /\
    (k = "TZ" -> exists s, v = JStr s /\ tz_ok s = true) /\
    (k = "Access" -> v = JStr "Continuous" \/ v = JStr "Periodic").

(** The record under construction once the keys [done] were visited. *)
Definition copied (row : dict) (done : list string) (r : dict) : Prop :=
  ("IP" ∉ done) /\
  forall k, r !! k =
    if bool_decide (k ∈ done) then row !! k
    else if bool_decide (k = "IP") then
      (if bool_decide ("StaticIP" ∈ done) && truthy_opt (row !! "StaticIP")
       then row !! "StaticIP" else None)
    else None.

(** ** Learning a router

    [ddwrt_learn] on a store of its own: [router_db] and the contents
    written to the router file.  The write of the file is not an
    interaction of the history; whether it succeeds is a parameter. *)

(** How [ddwrt_learn] ends when no exception is raised. *)
Inductive learn_outcome :=
| Learned            (* the function returns *)
| NameTaken          (* sys.exit( ): "Name ... is already used for another device" *)
| RouterFileError.   (* sys.exit( ) of write_json_file *)

Record learn_store := {
  known : dict;                 (* router_db *)
  router_file : list dict;      (* contents written to the router file, latest first *)
}.

(** The settings read from the router, in the order they are read. *)
Definition learn_terms : list string :=
  ["sta_ifname"; "wan_hwaddr"; "wl0_mode"; "wl0_hw_txchain"; "wl0_hw_rxchain"].

(** [for term in ( ... ): ddwrt_info[term] = ddwrt_get_single_line_result( ... )] *)
Fixpoint learn_info {St} (o : oracle) (conn : string) (terms : list string)
    (ddwrt_info : dict) : M St dict :=
  match terms with
  | [] => ret ddwrt_info
  | term :: terms' =>
      result <- ddwrt_get_single_line_result o conn (NvramGet term) ;;
      learn_info o conn terms' (<[term := JStr result]> ddwrt_info)
  end.

(** The entry made for a name that is not in [router_db]. *)
Definition new_entry (ddwrt_name ddwrt_address ddwrt_password et0macaddr mode : string)
    (ddwrt_info : dict) : dict :=
  <[mode := JObj ddwrt_info]>
  (<["et0macaddr" := JStr et0macaddr]>
   (<["password" := JStr ddwrt_password]>
    (<["address" := JStr ddwrt_address]>
     (<["name" := JStr ddwrt_name]> ∅)))).

Definition ddwrt_learn (o : oracle) (write_ok : bool)
    (ddwrt_name ddwrt_address ddwrt_password : string) : M learn_store learn_outcome :=
  conn <- ddwrt_establish_connection o ddwrt_address ;;
  et0macaddr <- ddwrt_get_single_line_result o conn (NvramGet "et0macaddr") ;;
  ddwrt_info <- learn_info o conn learn_terms ∅ ;;
  s <- get ;;
  entry <-
    match known s !! ddwrt_name with
    | Some old_info =>
        old_mac <- jget old_info "et0macaddr" ;;
        if negb (eq_str old_mac et0macaddr) then
          jstr old_mac ;;; ret None
        else
          mode <- dget ddwrt_info "wl0_mode" ;;
          mode <- jstr mode ;;
          match old_info with
          | JObj m => ret (Some (<[mode := JObj ddwrt_info]> m))
          | _ => raise TypeError
          end
    | None =>
        mode <- dget ddwrt_info "wl0_mode" ;;
        mode <- jstr mode ;;
        ret (Some (new_entry ddwrt_name ddwrt_address ddwrt_password et0macaddr mode
                     ddwrt_info))
    end ;;
  match entry with
  | None => ret NameTaken
  | Some e =>
      now <- time_time o ;;
      let db := <[ddwrt_name := JObj (<["InsertTime" := JNum now]> e)]> (known s) in
      if write_ok then
        put {| known := db; router_file := db :: router_file s |} ;;; ret Learned
      else
        put {| known := db; router_file := router_file s |} ;;; ret RouterFileError
  end.

(** The router at [address] lets itself be learned from tick [t] on: the
    session opens, and it reports [mac] as et0macaddr and [info] as its
    settings, [mode] being its wl0_mode. *)
Definition learnable (o : oracle) (address : string) (t : nat) (mac mode : string)
    (info : dict) : Prop :=
  o_ok o t = true /\
  single_line (o_cmd o (t + 2) address (NvramGet "et0macaddr")) mac /\
  (forall St (s : St),
     learn_info o address learn_terms ∅ (t + 3) s =
       (Ret info, (fun term => EvCmd address (NvramGet term)) <$> learn_terms, s)) /\
  info !! "wl0_mode" = Some (JStr mode).

(** The interactions of a run of [ddwrt_learn] up to the look at
    [router_db]. *)
Definition learn_events (address : string) : list event :=
  ([EvTelnetOpen address; EvSync address; EvCmd address (NvramGet "et0macaddr")]
     ++ ((fun term => EvCmd address (NvramGet term)) <$> learn_terms))%list.

(** ** Conditions and settings given on the command line *)

(** [s.split( c )] for a separator of one character. *)
Fixpoint py_split (c : ascii) (s : string) : list string :=
  match s with
  | EmptyString => [""]
  | String a s' =>
      if Ascii.eqb a c then "" :: py_split c s'
      else match py_split c s' with
           | p :: ps => String a p :: ps
           | [] => [String a ""]
           end
  end.

(** [get_name_value_pairs]; [None] is the [sys.exit()] on a term that is
    not of the form name=value.  The argument is [None] when the option
    was not given. *)
Definition get_name_value_pairs (query_conditions : option string)
  : option (list (list string)) :=
  let result :=
    match query_conditions with
    | Some s => if bool_decide (s = "") then []
                else map (py_split "=") (py_split "," s)
    | None => []
    end in
  if forallb (fun q => negb (Nat.ltb (length q) 2)) result then Some result else None.

(** The character occurs in the string. *)
Fixpoint has_char (c : ascii) (s : string) : bool :=
  match s with
  | EmptyString => false
  | String a s' => Ascii.eqb a c || has_char c s'
  end.

(** A condition as it is typed: name=value. *)
Definition as_term (p : string * string) : string := fst p +:+ "=" +:+ snd p.

(** Names and values in which the separators do not occur. *)
Definition plain (p : string * string) : Prop :=
  has_char "," (fst p) = false /\ has_char "=" (fst p) = false /\
  has_char "," (snd p) = false /\ has_char "=" (snd p) = false.

(** ** More of the laboratory *)

(** A device and a router that answer nothing before tick [k]: a read
    gives no content and a wget a single empty line. *)
Definition late_oracle (k : nat) : oracle :=
  {| o_cmd := fun t _ _ => if Nat.ltb t k then ([""], "") else (["{}"; ""], "");
     o_http := fun t _ => if Nat.ltb t k then None else Some (JBool true);
     o_clock := fun _ => 0%Z;
     o_ok := fun _ => true |}.

(** The laboratory with the router at 192.168.1.1 in AP mode and every
    other router in STA mode. *)
Definition lab_mixed_oracle : oracle :=
  {| o_cmd := fun t conn c =>
       lab_cmd (if bool_decide (conn = "192.168.1.1") then "ap" else "sta") 0 t conn c;
     o_http := lab_http;
     o_clock := fun t => (1000 + Z.of_nat t)%Z;
     o_ok := fun _ => true |}.

(** A router db as the tool writes it: the marker of the file format, and
    an entry whose stored et0macaddr is not the one the router at that
    address reports. *)
Definition lab_stale_db : dict :=
  <["format" := JStr "automagic"]>
  (<["moved" := JObj (<["et0macaddr" := JStr "00:00:00:00:00:00"]>
                       (lab_router "192.168.1.9" true true))]> ∅).

(** A device as [ota_oracle], with a clock that advances by [ms]
    milliseconds per interaction. *)
Definition ota_clock_oracle (answers : list (string * string)) (ms : Z) : oracle :=
  {| o_cmd := o_cmd (ota_oracle answers);
     o_http := o_http (ota_oracle answers);
     o_clock := fun t => (ms * Z.of_nat t)%Z;
     o_ok := fun _ => true |}.


(** A row of an import file with a column the tool does not know, and a
    row without password. *)
Definition lab_row : dict :=
  <["SSID" := JStr "TestNet"]>
  (<["Password" := JStr "abc12cd34"]>
   (<["Color" := JStr "red"]>
    (<["StaticIP" := JStr "10.0.0.9"]>
     (<["NetMask" := JStr "255.255.255.0"]> ∅)))).

Definition lab_bad_row : dict := <["SSID" := JStr "TestNet"]> ∅.

(** The laboratory with routers that report [mode] as wl0_mode as well. *)
Definition lab_learn_oracle (mode : string) : oracle :=
  {| o_cmd := fun t conn c =>
       match c with
       | NvramGet k => if bool_decide (k = "wl0_mode") then ([mode], "")
                       else lab_cmd mode 0 t conn c
       | _ => lab_cmd mode 0 t conn c
       end;
     o_http := lab_http;
     o_clock := fun t => (1000 + Z.of_nat t)%Z;
     o_ok := fun _ => true |}.

(** What the laboratory's routers report as their settings. *)
Definition lab_info (mode : string) : dict :=
  <["wl0_hw_rxchain" := JStr ""]>
  (<["wl0_hw_txchain" := JStr ""]>
   (<["wl0_mode" := JStr mode]>
    (<["wan_hwaddr" := JStr ""]>
     (<["sta_ifname" := JStr ""]> ∅)))).

(** * Composing relations along a run *)

Section Sat.
Context {St : Type} {R : St -> list event -> St -> kind -> Prop} `{!Stepwise R}.

Lemma bind_inv {A B} (m : M St A) (k : A -> M St B) t s r tr s' :
  bind m k t s = (r, tr, s') ->
  (exists a tr1 s1 tr2,
      m t s = (Ret a, tr1, s1) /\ k a (t + length tr1) s1 = (r, tr2, s') /\
      tr = (tr1 ++ tr2)%list) \/
  (exists r0, m t s = (r0, tr, s') /\ kind_of r0 <> KRet /\ kind_of r = kind_of r0).
Proof.
  unfold bind. destruct (m t s) as [[r0 tr0] s0]. destruct r0 as [a|x|e|].
  - unfold prepend. destruct (k a (t + length tr0) s0) as [[r1 tr1] s1] eqn:K.
    intros H. injection H as <- <- <-. left. eauto 10.
  - intros H. injection H as <- <- <-. right. exists (Exit x). cbn. done.
  - intros H. injection H as <- <- <-. right. exists (Raise e). cbn. done.
  - intros H. injection H as <- <- <-. right. exists Diverge. cbn. done.
Qed.

Lemma sat_bind {A B} (m : M St A) (k : A -> M St B) :
  sat R m -> (forall a, sat R (k a)) -> sat R (bind m k).
Proof.
  intros Hm Hk t s r tr s' H.
  apply bind_inv in H as [(a & tr1 & s1 & tr2 & H1 & H2 & ->)|(r0 & H1 & _ & ->)].
  - eapply step_trans; [exact (Hm _ _ _ _ _ H1)|exact (Hk _ _ _ _ _ _ H2)].
  - exact (Hm _ _ _ _ _ H1).
Qed.

Lemma sat_ret {A} (a : A) : sat R (ret a).
Proof. intros t s r tr s' H. injection H as <- <- <-. apply step_refl. Qed.

Lemma sat_get : sat R get.
Proof. intros t s r tr s' H. injection H as <- <- <-. apply step_refl. Qed.

Lemma sat_exit {A} x : (forall s, R s [] s (KExit x)) -> sat R (@exit St A x).
Proof. intros Hx t s r tr s' H. injection H as <- <- <-. apply Hx. Qed.

Lemma sat_raise {A} e : (forall s, R s [] s (KRaise e)) -> sat R (@raise St A e).
Proof. intros Hx t s r tr s' H. injection H as <- <- <-. apply Hx. Qed.

Lemma sat_diverge {A} : (forall s, R s [] s KDiverge) -> sat R (@diverge St A).
Proof. intros Hx t s r tr s' H. injection H as <- <- <-. apply Hx. Qed.

Lemma sat_emit e : (forall s, R s [e] s KRet) -> sat R (emit e).
Proof. intros Hx t s r tr s' H. injection H as <- <- <-. apply Hx. Qed.

Lemma sat_ask {A} e (f : nat -> A) : (forall s, R s [e] s KRet) -> sat R (ask e f).
Proof. intros Hx t s r tr s' H. injection H as <- <- <-. apply Hx. Qed.

Lemma sat_put s0 : (forall s, R s [] s0 KRet) -> sat R (put s0).
Proof. intros Hx t s r tr s' H. injection H as <- <- <-. apply Hx. Qed.

Lemma sat_orraise {A} e (x : option A) :
  (forall s, R s [] s (KRaise e)) -> sat R (orraise e x).
Proof. intros He. destruct x; [apply sat_ret|apply sat_raise, He]. Qed.

Lemma sat_for_each {A} (l : list A) (f : A -> M St unit) :
  (forall x, sat R (f x)) -> sat R (for_each l f).
Proof.
  intros Hf. induction l as [|x l IH]; cbn [for_each].
  - apply sat_ret.
  - apply sat_bind; [apply Hf|intros _; exact IH].
Qed.

Lemma bind_inv_sat {A B} (m : M St A) (k : A -> M St B) t s r tr s' :
  sat R m ->
  bind m k t s = (r, tr, s') ->
  (exists a tr1 s1 tr2,
      R s tr1 s1 KRet /\ k a (t + length tr1) s1 = (r, tr2, s') /\
      tr = (tr1 ++ tr2)%list) \/
  (kind_of r <> KRet /\ R s tr s' (kind_of r)).
Proof.
  intros Hm H.
  apply bind_inv in H as [(a & tr1 & s1 & tr2 & H1 & H2 & ->)|(r0 & H1 & Hk & Hr)].
  - left. exists a, tr1, s1, tr2. split; [exact (Hm _ _ _ _ _ H1)|done].
  - right. rewrite Hr. split; [done|exact (Hm _ _ _ _ _ H1)].
Qed.

End Sat.

Lemma bind_run {St A B} (m : M St A) (k : A -> M St B) t s a tr1 s1 :
  m t s = (Ret a, tr1, s1) ->
  bind m k t s = prepend tr1 (k a (t + length tr1) s1).
Proof. intros H. unfold bind. rewrite H. reflexivity. Qed.

Lemma prepend_nil {St A} (x : res A * list event * St) : prepend [] x = x.
Proof. destruct x as [[r tr] s]. reflexivity. Qed.

Lemma prepend_prepend {St A} (tr1 tr2 : list event) (x : res A * list event * St) :
  prepend tr1 (prepend tr2 x) = prepend (tr1 ++ tr2) x.
Proof. destruct x as [[r tr] s]. cbn. rewrite app_assoc. reflexivity. Qed.

Lemma prepend_inv {St A} (tr1 : list event) (x : res A * list event * St) r tr s :
  prepend tr1 x = (r, tr, s) -> exists tr2, x = (r, tr2, s) /\ tr = (tr1 ++ tr2)%list.
Proof. destruct x as [[r' tr'] s']. cbn. intros H. injection H as <- <- <-. eauto. Qed.

(** Side conditions are passed to [side]; loops need their own lemma. *)
Ltac sat_go side :=
  repeat first
    [ apply sat_ret
    | apply sat_get
    | apply sat_exit; side
    | apply sat_raise; side
    | apply sat_diverge; side
    | apply sat_emit; side
    | apply sat_ask; side
    | apply sat_put; side
    | apply sat_orraise; side
    | apply sat_for_each; intros ?
    | match goal with
      | |- sat _ (bind _ _) => apply sat_bind; [|intros ?]
      | |- sat _ (match ?x with _ => _ end) => destruct x
      end
    | progress (unfold io_ok, sleep, time_time, ddwrt_do_cmd,
                ddwrt_get_single_line_result, ddwrt_sync_connection,
                ddwrt_establish_connection, ddwrt_apply, dget, jget, jstr) ].

#[export] Instance keep_stepwise {St} : Stepwise (@keep St).
Proof. split; unfold keep; congruence. Qed.

Ltac keep_side := intros; reflexivity.

Lemma is_pure_ret {St A} (a : A) : is_pure (@ret St A a).
Proof. exists (Ret a). reflexivity. Qed.

Lemma is_pure_exit {St A} x : is_pure (@exit St A x).
Proof. exists (Exit x). reflexivity. Qed.

Lemma is_pure_raise {St A} e : is_pure (@raise St A e).
Proof. exists (Raise e). reflexivity. Qed.

Lemma is_pure_orraise {St A} e (x : option A) : is_pure (@orraise St A e x).
Proof. destruct x; [apply is_pure_ret|apply is_pure_raise]. Qed.

Lemma is_pure_bind {St A B} (m : M St A) (k : A -> M St B) :
  is_pure m -> (forall a, is_pure (k a)) -> is_pure (bind m k).
Proof.
  intros [r Hr] Hk. destruct r as [a|x|e|].
  - destruct (Hk a) as [r' Hr']. exists r'. intros t s.
    unfold bind. rewrite Hr, Hr'. reflexivity.
  - exists (Exit x). intros t s. unfold bind. rewrite Hr. reflexivity.
  - exists (Raise e). intros t s. unfold bind. rewrite Hr. reflexivity.
  - exists Diverge. intros t s. unfold bind. rewrite Hr. reflexivity.
Qed.

Lemma is_pure_run {St A} (m : M St A) t s t' s' :
  is_pure m -> m t s = (fst (fst (m t' s')), [], s).
Proof. intros [r Hr]. rewrite !Hr. reflexivity. Qed.

Ltac pure_go :=
  repeat first
    [ apply is_pure_ret | apply is_pure_exit | apply is_pure_raise
    | apply is_pure_orraise
    | match goal with
      | |- is_pure (bind _ _) => apply is_pure_bind; [|intros ?]
      | |- is_pure (match ?x with _ => _ end) => destruct x
      end ].

(** * Programming a router *)

#[local] Instance prep_only_stepwise : Stepwise prep_only.
Proof.
  split.
  - intros s. split; [done|constructor].
  - intros s tr1 s1 tr2 s2 k [-> H1] [-> H2]. split; [done|]. apply Forall_app; done.
Qed.

Section Program.
Variable o : oracle.

Lemma single_line_inv {St} conn c t (s : St) r tr s' :
  ddwrt_get_single_line_result o conn c t s = (r, tr, s') ->
  tr = [EvCmd conn c] /\ s' = s.
Proof.
  unfold ddwrt_get_single_line_result, ddwrt_do_cmd, ask, bind, prepend, orraise, raise, ret.
  destruct (o_cmd o t conn c) as [result err]. cbn.
  repeat case_match; intros E; simplify_eq; done.
Qed.

Lemma sat_jstr {St} {R : St -> list event -> St -> kind -> Prop} `{!Stepwise R} (j : json) :
  (forall e s, R s [] s (KRaise e)) -> sat R (@jstr St j).
Proof.
  intros He. destruct j; cbn; try (apply sat_raise; intros; apply He). apply sat_ret.
Qed.

Lemma sat_dget {St} {R : St -> list event -> St -> kind -> Prop} `{!Stepwise R}
    (d : dict) (k : string) :
  (forall e s, R s [] s (KRaise e)) -> sat R (@dget St d k).
Proof. intros He. apply sat_orraise. intros; apply He. Qed.

Lemma sat_jget {St} {R : St -> list event -> St -> kind -> Prop} `{!Stepwise R}
    (j : json) (k : string) :
  (forall e s, R s [] s (KRaise e)) -> sat R (@jget St j k).
Proof.
  intros He. destruct j; cbn; try (apply sat_raise; intros; apply He).
  apply sat_dget, He.
Qed.

Lemma prep_only_raise e s : prep_only s [] s (KRaise e).
Proof. split; [done|constructor]. Qed.

Lemma sat_prep_cmd (conn : string) (c : cmd) :
  is_prep (EvCmd conn c) = true ->
  sat prep_only (bind (ddwrt_get_single_line_result o conn c)
                      (fun _ : string => ret tt)).
Proof.
  intros Hc. apply sat_bind; [|intros; apply sat_ret].
  intros t s r tr s' H. apply single_line_inv in H as [-> ->].
  split; [done|]. repeat constructor. exact Hc.
Qed.

Lemma node_at_run (cn : nat) (nd : node) t (st : list node) :
  st !! cn = Some nd -> node_at cn t st = (Ret nd, [], st).
Proof. intros H. unfold node_at, bind, get, orraise. cbn. rewrite H. reflexivity. Qed.

(** The run of [ddwrt_program_mode] when the requested mode is the
    connection's current mode. *)
Lemma program_mode_same (cn : nat) (nd : node) (pgm : list (string * json))
    (from_db deletes : list string) (mode : json) t (st : list node) r tr st' :
  st !! cn = Some nd ->
  literal_get pgm "wl_mode" = Some mode ->
  same_mode (n_current_mode nd) mode = true ->
  ddwrt_program_mode o cn pgm from_db deletes t st = (r, tr, st') ->
  st' = st /\
  Forall (fun e => is_full_apply e = false) tr /\
  (kind_of r = KRet ->
   exists prep, tr = (prep ++ [EvCmd (n_conn nd) RestartWireless])%list /\
                Forall (fun e => is_prep e = true) prep).
Proof.
  intros Hnd Hmode Hsame H.
  assert (Hfull : forall l, Forall (fun e => is_prep e = true) l ->
                            Forall (fun e => is_full_apply e = false) l).
  { intros l Hl. eapply Forall_impl; [exact Hl|]. intros [] He; try discriminate; try reflexivity.
    destruct c; try discriminate; reflexivity. }
  assert (Habort : forall (k : kind) tr0 s0,
             k <> KRet -> prep_only st tr0 s0 k ->
             s0 = st /\ Forall (fun e => is_full_apply e = false) tr0 /\
             (k = KRet -> exists prep,
                 tr0 = (prep ++ [EvCmd (n_conn nd) RestartWireless])%list /\
                 Forall (fun e => is_prep e = true) prep)).
  { intros k tr0 s0 Hk [-> Hp]. split; [done|]. split; [auto|]. intros; done. }
  unfold ddwrt_program_mode in H.
  rewrite (bind_run _ _ _ _ _ _ _ (node_at_run _ _ _ _ Hnd)) in H.
  cbn [length app] in H. rewrite Hmode in H.
  destruct (bind _ _ _ _) as [[r0 tr0] s0] eqn:E. injection H as <- <- <-.
  apply (bind_inv_sat (R := prep_only)) in E
    as [(_ & tr1 & s1 & tr2 & [-> H1] & E & ->)|[Hk HR]]; [|by apply Habort|].
  2:{ apply sat_for_each. intros [k v]. cbn [fst snd].
      apply sat_bind; [apply sat_jstr, prep_only_raise|]. intros v'.
      apply sat_prep_cmd. reflexivity. }
  apply bind_inv in E as [(mode' & tr1' & s1' & tr3 & Em & E & ->)|(r1 & Em & Hk1 & _)];
    [|cbn in Em; injection Em as <- _ _; cbn in Hk1; done].
  cbn in Em. injection Em as <- <- <-. cbn [app length] in *. rewrite Hsame in E.
  apply (bind_inv_sat (R := prep_only)) in E
    as [(_ & tr4 & s4 & tr5 & [-> H4] & E & ->)|[Hk [-> HR]]].
  3:{ apply sat_for_each. intros k.
      apply sat_bind.
      - unfold from_profile. destruct mode; try (apply sat_raise, prep_only_raise).
        apply sat_bind; [apply sat_dget, prep_only_raise|]. intros p.
        apply sat_bind; [apply sat_jget, prep_only_raise|]. intros v.
        apply sat_jstr, prep_only_raise.
      - intros v. apply sat_prep_cmd. reflexivity. }
  2:{ apply Habort; [done|]. split; [done|]. apply Forall_app; done. }
  apply (bind_inv_sat (R := prep_only)) in E
    as [(_ & tr6 & s6 & tr7 & [-> H6] & E & ->)|[Hk [-> HR]]].
  3:{ apply sat_for_each. intros k. apply sat_prep_cmd. reflexivity. }
  2:{ apply Habort; [done|]. split; [done|]. rewrite !Forall_app; done. }
  apply bind_inv in E as [(x & tr8 & s8 & tr9 & Ec & E & ->)|(r1 & Ec & Hk & Hr)].
  2:{ apply single_line_inv in Ec as [-> ->]. apply Habort; [congruence|].
      split; [done|]. rewrite !Forall_app. repeat split; try done. repeat constructor. }
  apply single_line_inv in Ec as [-> ->].
  apply bind_inv in E as [(y & tr10 & s10 & tr11 & Er & E & ->)|(r1 & Er & Hk & Hr)].
  - apply single_line_inv in Er as [-> ->]. injection E as <- <- <-.
    split; [done|]. split.
    + rewrite !Forall_app. repeat split; auto; repeat constructor.
    + intros _. eexists (tr1 ++ tr4 ++ tr6 ++ [_])%list.
      split; [by rewrite <- !app_assoc|].
      rewrite !Forall_app. repeat split; auto; repeat constructor.
  - apply single_line_inv in Er as [-> ->].
    split; [done|]. split.
    + rewrite !Forall_app. repeat split; auto; repeat constructor.
    + intros Hr'. congruence.
Qed.

Lemma set_current_mode_run (cn : nat) (nd : node) (mode : json) t (st : list node) :
  st !! cn = Some nd ->
  set_current_mode cn mode t st =
    (Ret tt, [], <[cn := {| n_conn := n_conn nd; n_router := n_router nd;
                            n_current_mode := mode |}]> st).
Proof. intros H. unfold set_current_mode, bind, get, orraise, put. cbn. rewrite H. reflexivity. Qed.

(** After [ddwrt_program_mode] returned, the connection's current mode is
    the requested one. *)
Lemma program_mode_ret (cn : nat) (nd : node) (pgm : list (string * json))
    (from_db deletes : list string) (m : string) t (st : list node) tr st' :
  st !! cn = Some nd ->
  literal_get pgm "wl_mode" = Some (JStr m) ->
  ddwrt_program_mode o cn pgm from_db deletes t st = (Ret tt, tr, st') ->
  exists nd', st' !! cn = Some nd' /\ n_conn nd' = n_conn nd /\
              n_router nd' = n_router nd /\
              same_mode (n_current_mode nd') (JStr m) = true.
Proof.
  intros Hnd Hmode H.
  unfold ddwrt_program_mode in H.
  rewrite (bind_run _ _ _ _ _ _ _ (node_at_run _ _ _ _ Hnd)) in H.
  cbn [length app] in H. rewrite Hmode in H.
  destruct (bind _ _ _ _) as [[r0 tr0] s0] eqn:E. injection H as -> <- <-.
  apply (bind_inv_sat (R := keep)) in E
    as [(_ & tr1 & s1 & tr2 & -> & E & ->)|[Hk _]]; [|done|].
  2:{ sat_go keep_side. }
  apply bind_inv in E as [(mode' & tr1' & s1' & tr3 & Em & E & ->)|(r1 & _ & Hk1 & Hk2)];
    [|cbn in Hk2; congruence].
  cbn in Em. injection Em as <- <- <-.
  apply (bind_inv_sat (R := keep)) in E
    as [(_ & tr4 & s4 & tr5 & -> & E & ->)|[Hk _]]; [|done|].
  2:{ sat_go keep_side. unfold from_profile. sat_go keep_side. }
  apply (bind_inv_sat (R := keep)) in E
    as [(_ & tr6 & s6 & tr7 & -> & E & ->)|[Hk _]]; [|done|].
  2:{ sat_go keep_side. }
  apply (bind_inv_sat (R := keep)) in E
    as [(_ & tr8 & s8 & tr9 & -> & E & ->)|[Hk _]]; [|done|].
  2:{ sat_go keep_side. }
  destruct (same_mode (n_current_mode nd) (JStr m)) eqn:Hsame.
  - assert (sat keep (bind (ddwrt_get_single_line_result (St := list node) o
                              (n_conn nd) RestartWireless) (fun _ => ret tt))) as Hs
      by sat_go keep_side.
    apply Hs in E. unfold keep in E. subst s0. eauto.
  - rewrite (bind_run _ _ _ _ _ _ _ (set_current_mode_run _ _ _ _ _ Hnd)) in E.
    destruct (bind _ _ _ _) as [[r1 tr1'] s1] eqn:E1. injection E as -> <- <-.
    assert (sat keep (address <- dget (St := list node) (n_router nd) "address" ;;
                      address <- jstr address ;;
                      dget (n_router nd) "password" ;;;
                      ddwrt_apply o address ;;;
                      sleep 5000 ;;;
                      ddwrt_sync_connection (n_conn nd) ;;;
                      ddwrt_get_single_line_result o (n_conn nd) RadioCycle ;;; ret tt)) as Hs
      by sat_go keep_side.
    apply Hs in E1. unfold keep in E1. subst s1.
    eexists. split; [apply list_lookup_insert_eq; eapply lookup_lt_Some; exact Hnd|].
    cbn. rewrite bool_decide_eq_true_2; done.
Qed.
End Program.

(** * Waiting for the factory SSID to drop *)

Section Run.
Variable o : oracle.
Variable json_loads : string -> option json.
Variable survey_ssid : string -> string.

Lemma ddwrt_discover_run (cn : nat) (prefix : string) (t : nat) (st : list node) (nd : node) :
  st !! cn = Some nd ->
  ddwrt_discover o survey_ssid cn prefix t st =
    (if survey_failed (o_cmd o t (n_conn nd) SiteSurvey) then Exit ExitSurveyFailed
     else Ret (visible survey_ssid prefix (o_cmd o t (n_conn nd) SiteSurvey)),
     [EvCmd (n_conn nd) SiteSurvey], st).
Proof.
  intros H. unfold ddwrt_discover, node_at, bind, get, orraise, ddwrt_do_cmd, ask, ret.
  rewrite H. cbn. rewrite Nat.add_0_r.
  unfold survey_failed, visible.
  destruct (o_cmd o t (n_conn nd) SiteSurvey) as [result err]; cbn.
  destruct (_ && _); reflexivity.
Qed.

Lemma drop_wait_step (fuel ap : nat) (prefix ssid : string) (misses passes t : nat) (st : list node) (nd : node) :
  st !! ap = Some nd ->
  drop_wait o survey_ssid (S fuel) ap prefix ssid misses passes t st =
    if Nat.ltb misses 3 && Nat.ltb passes 60 then
      let p := o_cmd o (t + 1) (n_conn nd) SiteSurvey in
      if survey_failed p then (Exit ExitSurveyFailed, [EvSleep 1000; EvCmd (n_conn nd) SiteSurvey], st)
      else
        match drop_wait o survey_ssid fuel ap prefix ssid
                (if bool_decide (ssid ∈ visible survey_ssid prefix p) then 0 else S misses)
                (S passes) (t + 2) st with
        | (r, tr, st') => (r, EvSleep 1000 :: EvCmd (n_conn nd) SiteSurvey :: tr, st')
        end
    else (Ret (misses, passes), [], st).
Proof.
  intros H. cbn [drop_wait].
  destruct (_ && _); [|reflexivity].
  unfold bind at 1. unfold sleep, emit. cbn [length].
  unfold bind at 1. rewrite (ddwrt_discover_run _ _ _ _ _ H).
  cbn zeta.
  destruct (survey_failed _); [reflexivity|].
  cbn [length]. replace (t + 1 + 1) with (t + 2) by lia.
  destruct (bool_decide _);
    destruct (drop_wait _ _ _ _ _ _ _ _ _ _) as [[r tr] st']; reflexivity.
Qed.

Lemma present_not_failed (prefix ssid : string) (p : list string * string) :
  ssid ∈ visible survey_ssid prefix p -> survey_failed p = false.
Proof.
  unfold visible, survey_failed. destruct (fst p); cbn; [|reflexivity].
  intros H. inversion H.
Qed.

Lemma drop_wait_inv (ap : nat) (nd : node) (prefix ssid : string) (st : list node) :
  st !! ap = Some nd ->
  forall fuel m0 p0 t m p tr st',
    drop_wait o survey_ssid fuel ap prefix ssid m0 p0 t st = (Ret (m, p), tr, st') ->
    st' = st /\ p0 <= p /\ tr = poll_trace (n_conn nd) (p - p0) /\
    (p0 <= 60 -> p <= 60) /\ (m0 <= 3 -> m <= 3) /\ m <= m0 + (p - p0) /\
    (3 <= m \/ 60 <= p) /\
    (forall j, j < m -> j < p - p0 ->
       ssid ∉ visible survey_ssid prefix
                (o_cmd o (t + 2 * (p - p0 - j) - 1) (n_conn nd) SiteSurvey)).
Proof.
  intros Hnd. induction fuel as [|fuel IH]; intros m0 p0 t m p tr st' H.
  - cbn [drop_wait] in H. destruct (Nat.ltb m0 3 && Nat.ltb p0 60) eqn:E; [discriminate|].
    injection H as <- <- <- <-. rewrite Nat.sub_diag.
    apply andb_false_iff in E. rewrite !Nat.ltb_ge in E.
    repeat split; try lia; try reflexivity; intros; lia.
  - rewrite (drop_wait_step _ _ _ _ _ _ _ _ _ Hnd) in H.
    destruct (Nat.ltb m0 3 && Nat.ltb p0 60) eqn:E.
    + apply andb_true_iff in E. rewrite !Nat.ltb_lt in E. cbn zeta in H.
      destruct (survey_failed _); [discriminate|].
      destruct (drop_wait _ _ _ _ _ _ _ _ _ _) as [[r tr'] st''] eqn:R.
      injection H as -> <- ->.
      apply IH in R as (-> & Hp & -> & H60 & H3 & Hm & Hend & Habs).
      split; [reflexivity|]. split; [lia|].
      split. { replace (p - p0) with (S (p - S p0)) by lia. reflexivity. }
      split; [lia|]. split.
      { intros _. apply H3. destruct (bool_decide _); lia. }
      split. { destruct (bool_decide _); lia. }
      split; [exact Hend|].
      intros j Hj Hjp.
      destruct (decide (j < p - S p0)) as [Hlt|Hge].
      * specialize (Habs j Hj Hlt).
        replace (t + 2 * (p - p0 - j) - 1) with (t + 2 + 2 * (p - S p0 - j) - 1) by lia.
        exact Habs.
      * assert (j = p - S p0) as -> by lia.
        replace (t + 2 * (p - p0 - (p - S p0)) - 1) with (t + 1) by lia.
        destruct (bool_decide _) eqn:B.
        -- exfalso. lia.
        -- apply bool_decide_eq_false in B. exact B.
    + injection H as <- <- <- <-. rewrite Nat.sub_diag.
      apply andb_false_iff in E. rewrite !Nat.ltb_ge in E.
      repeat split; try lia; try reflexivity; intros; lia.
Qed.

Lemma drop_wait_present (ap : nat) (nd : node) (prefix ssid : string) (st : list node) :
  st !! ap = Some nd ->
  forall fuel p0 t,
    60 <= fuel + p0 -> p0 <= 60 ->
    (forall k, 1 <= k <= 60 - p0 ->
       ssid ∈ visible survey_ssid prefix (o_cmd o (t + 2 * k - 1) (n_conn nd) SiteSurvey)) ->
    drop_wait o survey_ssid fuel ap prefix ssid 0 p0 t st =
      (Ret (0, 60), poll_trace (n_conn nd) (60 - p0), st).
Proof.
  intros Hnd. induction fuel as [|fuel IH]; intros p0 t Hf Hp Hall.
  - assert (p0 = 60) as -> by lia. reflexivity.
  - rewrite (drop_wait_step _ _ _ _ _ _ _ _ _ Hnd).
    destruct (Nat.ltb p0 60) eqn:E; cbn [andb Nat.ltb Nat.leb].
    + apply Nat.ltb_lt in E. cbn zeta.
      pose proof (Hall 1 ltac:(lia)) as H1. replace (t + 2 * 1 - 1) with (t + 1) in H1 by lia.
      rewrite (present_not_failed _ _ _ H1).
      rewrite (bool_decide_eq_true_2 _ H1).
      rewrite (IH (S p0) (t + 2)); [|lia|lia|].
      * replace (60 - p0) with (S (60 - S p0)) by lia. reflexivity.
      * intros k Hk. specialize (Hall (S k) ltac:(lia)).
        replace (t + 2 + 2 * k - 1) with (t + 2 * S k - 1) by lia. exact Hall.
    + apply Nat.ltb_ge in E. assert (p0 = 60) as -> by lia. reflexivity.
Qed.

Lemma drop_wait_total (ap : nat) (nd : node) (prefix ssid : string) (st : list node) :
  st !! ap = Some nd ->
  forall fuel m0 p0 t,
    60 <= fuel + p0 ->
    fst (fst (drop_wait o survey_ssid fuel ap prefix ssid m0 p0 t st)) <> Diverge.
Proof.
  intros Hnd. induction fuel as [|fuel IH]; intros m0 p0 t Hf.
  - cbn [drop_wait]. replace (Nat.ltb p0 60) with false by (symmetry; apply Nat.ltb_ge; lia).
    rewrite andb_false_r. discriminate.
  - rewrite (drop_wait_step _ _ _ _ _ _ _ _ _ Hnd).
    destruct (_ && _); [|discriminate]. cbn zeta.
    destruct (survey_failed _); [discriminate|].
    specialize (IH (if bool_decide (ssid ∈ visible survey_ssid prefix
                     (o_cmd o (t + 1) (n_conn nd) SiteSurvey)) then 0 else S m0)
                   (S p0) (t + 2) ltac:(lia)).
    destruct (drop_wait _ _ _ _ _ _ _ _ _ _) as [[r tr] st']. exact IH.
Qed.
End Run.

(** * Choosing the roles *)

Section Roles.
Variable o : oracle.

Lemma choose_roles_after_connect router_db names t st tr nodes :
  connect_all o router_db names t st = (Ret tt, tr, nodes) ->
  ddwrt_choose_roles o router_db names t st = (assign nodes, tr, nodes).
Proof.
  intros H. unfold ddwrt_choose_roles. rewrite (bind_run _ _ _ _ _ _ _ H).
  unfold bind at 1. unfold get. rewrite prepend_nil. unfold assign.
  rewrite (is_pure_run _ _ _ 0 nodes).
  - cbn. rewrite app_nil_r. reflexivity.
  - unfold choose_indices. pure_go.
Qed.

Lemma choose_roles_split (router_db : dict) (names : list string) t st tr nodes (a s : node) :
  connect_all o router_db names t st = (Ret tt, tr, nodes) ->
  ap_capable a = true -> sta_capable a = false ->
  ap_capable s = false -> sta_capable s = true ->
  (nodes = [a; s] ->
     ddwrt_choose_roles o router_db names t st = (Ret (0, 1), tr, nodes)) /\
  (nodes = [s; a] ->
     ddwrt_choose_roles o router_db names t st = (Ret (1, 0), tr, nodes)).
Proof.
  unfold ap_capable, sta_capable. intros H Ha1 Ha2 Hs1 Hs2.
  rewrite (choose_roles_after_connect _ _ _ _ _ _ H).
  split; intros ->; unfold assign, choose_indices; cbn [positions length];
    rewrite Ha1, Ha2, Hs1, Hs2; reflexivity.
Qed.

Lemma choose_roles_single (router_db : dict) (names : list string) t st tr (d : node) :
  connect_all o router_db names t st = (Ret tt, tr, [d]) ->
  ap_capable d = true -> sta_capable d = true ->
  ddwrt_choose_roles o router_db names t st = (Ret (0, 0), tr, [d]).
Proof.
  unfold ap_capable, sta_capable. intros H Ha1 Ha2.
  rewrite (choose_roles_after_connect _ _ _ _ _ _ H).
  unfold assign, choose_indices; cbn [positions length];
    rewrite Ha1, Ha2; reflexivity.
Qed.

Lemma choose_roles_no_current_ap (router_db : dict) (names : list string) t st tr (a b : node) :
  connect_all o router_db names t st = (Ret tt, tr, [a; b]) ->
  ap_capable a = true -> sta_capable a = true ->
  ap_capable b = true -> sta_capable b = true ->
  in_ap_mode a = false -> in_ap_mode b = false ->
  ddwrt_choose_roles o router_db names t st = (Raise IndexError, tr, [a; b]).
Proof.
  unfold ap_capable, sta_capable, in_ap_mode. intros H Ha1 Ha2 Hb1 Hb2 Ha Hb.
  rewrite (choose_roles_after_connect _ _ _ _ _ _ H).
  unfold assign, choose_indices; cbn [positions length];
    rewrite Ha1, Ha2, Hb1, Hb2, Ha, Hb; reflexivity.
Qed.

Lemma positions_none {A} (p : A -> bool) (l : list A) (i : Z) :
  Forall (fun x => p x = false) l -> positions p l i = [].
Proof.
  intros H. revert i. induction H as [|x l Hx _ IH]; intros i; cbn; [done|].
  rewrite Hx. apply IH.
Qed.

Lemma positions_some {A} (p : A -> bool) (l : list A) (i : Z) :
  Exists (fun x => p x = true) l -> length (positions p l i) <> 0.
Proof.
  intros H. revert i. induction H as [x l Hx|x l _ IH]; intros i; cbn.
  - rewrite Hx. cbn. lia.
  - destruct (p x); cbn; [lia|apply IH].
Qed.

Lemma choose_roles_incapable (router_db : dict) (names : list string) t st tr nodes :
  connect_all o router_db names t st = (Ret tt, tr, nodes) ->
  (Forall (fun n => ap_capable n = false) nodes ->
     ddwrt_choose_roles o router_db names t st = (Exit ExitNoApCapable, tr, nodes)) /\
  (Exists (fun n => ap_capable n = true) nodes ->
   Forall (fun n => sta_capable n = false) nodes ->
     ddwrt_choose_roles o router_db names t st = (Exit ExitNoStaCapable, tr, nodes)).
Proof.
  intros H. rewrite (choose_roles_after_connect _ _ _ _ _ _ H). split.
  - intros Hap. unfold assign, choose_indices, bind at 1.
    rewrite (positions_none _ _ _ Hap). reflexivity.
  - intros Hap Hsta. unfold assign, choose_indices, bind at 1.
    rewrite (positions_none (fun n => has_key (n_router n) "sta") _ _ Hsta).
    apply (positions_some _ _ 0%Z) in Hap. apply Nat.eqb_neq in Hap.
    unfold ap_capable in Hap. rewrite Hap. reflexivity.
Qed.
End Roles.

(** * Firmware update *)

Section Ota.
Variable o : oracle.

Lemma reports_truthy j st v : reports j st v -> truthy_opt j = true.
Proof.
  intros (m & -> & Hs & _). cbn. destruct (size m) eqn:E; [|reflexivity].
  apply map_size_empty_iff in E. subst m. rewrite lookup_empty in Hs. done.
Qed.

Lemma get_url_first {St} (tm : Z) (u : url) t (s : St) :
  truthy_opt (o_http o t u) = true ->
  get_url o tm u t s = (Ret (o_http o t u), [EvHttp u], s).
Proof.
  intros H. unfold get_url. cbn [get_url_tries]. unfold bind, ask. cbn.
  rewrite H. reflexivity.
Qed.

Lemma jget_run {St} (m : dict) (k : string) (v : json) t (s : St) :
  m !! k = Some v -> jget (JObj m) k t s = (Ret v, [], s).
Proof. intros H. unfold jget, dget, orraise. rewrite H. reflexivity. Qed.

Lemma flash_poll_step {St} (fuel : nat) (addr : string) (pause_time deadline : Z)
    (new_version : option string) (old_version : string) (seen : bool) (passes : nat)
    (last : option json) t (s : St) (st v : string) :
  (o_clock o t < deadline)%Z ->
  reports (o_http o (t + 2) (UOta addr)) st v ->
  flash_poll o (S fuel) addr pause_time deadline new_version old_version seen passes last t s =
    if bool_decide (st = "updating") then
      prepend (poll_events addr pause_time)
        (flash_poll o fuel addr pause_time deadline new_version old_version true
           (S passes) (o_http o (t + 2) (UOta addr)) (t + 3) s)
    else if seen then
      (Ret (verdict new_version old_version v), poll_events addr pause_time, s)
    else if Nat.ltb 10 (S passes) then
      (Ret OtaNeverUpdating, poll_events addr pause_time, s)
    else
      prepend (poll_events addr pause_time)
        (flash_poll o fuel addr pause_time deadline new_version old_version false
           (S passes) (o_http o (t + 2) (UOta addr)) (t + 3) s).
Proof.
  intros Hclock Hrep. pose proof (reports_truthy _ _ _ Hrep) as Htr.
  destruct Hrep as (m & Hm & Hst & Hv).
  cbn [flash_poll].
  erewrite bind_run by reflexivity. cbn [length].
  apply Z.ltb_lt in Hclock. rewrite Hclock.
  erewrite bind_run by reflexivity. cbn [length].
  replace (t + 1 + 1) with (t + 2) by lia.
  rewrite (bind_run _ _ _ _ _ _ _ (get_url_first _ _ _ _ Htr)). cbn [length].
  replace (t + 2 + 1) with (t + 3) by lia.
  rewrite Hm.
  rewrite (bind_run _ _ _ _ _ _ _ (jget_run _ _ _ _ _ Hst)). cbn [length eq_str].
  replace (t + 3 + 0) with (t + 3) by lia.
  rewrite !prepend_prepend. cbn [app].
  destruct (bool_decide (st = "updating")) eqn:Eu.
  - destruct seen.
    + erewrite bind_run by reflexivity. cbn [length].
      replace (t + 3 + 0) with (t + 3) by lia.
      rewrite !prepend_prepend. reflexivity.
    + erewrite (bind_run (bind _ _)).
      2:{ rewrite (bind_run _ _ _ _ _ _ _ (jget_run _ _ _ _ _ Hv)). cbn [jstr].
          erewrite bind_run by reflexivity. reflexivity. }
      cbn [length app]. replace (t + 3 + 0) with (t + 3) by lia.
      rewrite !prepend_prepend. reflexivity.
  - destruct seen.
    + unfold verdict. destruct (no_version new_version).
      * rewrite (bind_run _ _ _ _ _ _ _ (jget_run _ _ _ _ _ Hv)). cbn [jstr].
        erewrite bind_run by reflexivity. reflexivity.
      * rewrite (bind_run _ _ _ _ _ _ _ (jget_run _ _ _ _ _ Hv)). cbn [eq_str length].
        destruct (bool_decide (v = old_version)); cbn [negb]; [reflexivity|].
        destruct (eq_version (JStr v) new_version); [reflexivity|].
        cbn [jstr]. erewrite bind_run by reflexivity. reflexivity.
    + destruct (Nat.ltb 10 (S passes)); [reflexivity|].
      cbn [jstr]. erewrite bind_run by reflexivity.
      rewrite (bind_run _ _ _ _ _ _ _ (jget_run _ _ _ _ _ Hv)). cbn [jstr].
      erewrite bind_run by reflexivity. cbn [length app].
      replace (t + 3 + 0 + 0 + 0) with (t + 3) by lia.
      rewrite !prepend_prepend. reflexivity.
Qed.

Lemma get_url_tries_inv {St} (n : nat) (tm : Z) (u : url) t (s : St) r tr s' :
  get_url_tries o n tm u t s = (r, tr, s') ->
  s' = s /\ Forall (fun e => e = EvHttp u \/ exists ms, e = EvSleep ms) tr /\
  exists c, r = Ret c.
Proof.
  revert t tr. induction n as [|n IH]; intros t tr H; cbn [get_url_tries] in H.
  - injection H as <- <- <-. eauto.
  - erewrite bind_run in H by reflexivity. cbn [length] in H.
    destruct (truthy_opt (o_http o t u)).
    + cbn in H. injection H as <- <- <-.
      split; [done|]. split; [|eauto]. repeat constructor.
    + erewrite bind_run in H by reflexivity. rewrite prepend_prepend in H.
      apply prepend_inv in H as (tr2 & H & ->). apply IH in H as (-> & Htr & Hc).
      split; [done|]. split; [|done].
      constructor; [by left|]. constructor; [right; eauto|]. exact Htr.
Qed.

Lemma update_free (u : url) (tr : list event) :
  (forall a, u <> UOtaUpdate a) -> (forall a fw, u <> UOtaUrl a fw) ->
  Forall (fun e => e = EvHttp u \/ exists ms, e = EvSleep ms) tr ->
  Forall (fun e => is_update e = false) tr.
Proof.
  intros H1 H2 H. eapply Forall_impl; [exact H|]. intros e [->|[ms ->]]; [|reflexivity].
  destruct u; try reflexivity; [destruct (H1 address)|destruct (H2 address fw)]; done.
Qed.

(** The pre-check of [flash_device], once the first read has answered. *)
Lemma flash_device_precheck {St} (fuel : nat) (addr : string) (pause_time : Z)
    (ota : string) (ota_timeout : Z) (new_version : option string) (dry_run : bool)
    t (s : St) (m : dict) tr s' (status version : string) :
  get_url o pause_time (UOta addr) t s = (Ret (Some (JObj m)), tr, s') ->
  m !! "status" = Some (JStr status) ->
  m !! "old_version" = Some (JStr version) ->
  flash_device o fuel addr pause_time ota ota_timeout new_version dry_run t s =
    if bool_decide (new_version = Some version) then (Ret OtaSkip, tr, s')
    else if bool_decide (status = "updating") then (Ret OtaAbort, tr, s')
    else
      prepend tr
        ((sent <- ota_flash o addr pause_time ota dry_run ;;
          if (sent : bool) then
            if Z.eqb ota_timeout 0 then ret OtaUnchecked
            else
              start_time <- time_time o ;;
              flash_poll o fuel addr pause_time (start_time + 1000 * ota_timeout)
                new_version version false 0 None
          else ret OtaNotSent) (t + length tr) s').
Proof.
  intros Hread Hst Hv. unfold flash_device.
  rewrite (bind_run _ _ _ _ _ _ _ Hread).
  rewrite (bind_run _ _ _ _ _ _ _ (jget_run _ _ _ _ _ Hst)). cbn [jstr].
  erewrite bind_run by reflexivity.
  rewrite (bind_run _ _ _ _ _ _ _ (jget_run _ _ _ _ _ Hv)). cbn [jstr].
  erewrite bind_run by reflexivity. cbn [length].
  rewrite !prepend_prepend. cbn [app]. rewrite !Nat.add_0_r.
  rewrite !app_nil_r.
  destruct (bool_decide (new_version = Some version)); [cbn; by rewrite app_nil_r|].
  destruct (bool_decide (status = "updating")); [cbn; by rewrite app_nil_r|].
  reflexivity.
Qed.

(** The way into the polling loop: the first read answers, the device is
    neither up to date nor updating, and the update command is accepted. *)
Lemma flash_device_start {St} (fuel : nat) (addr : string) (pause_time : Z)
    (ota : string) (ota_timeout : Z) (new_version : option string)
    t (s : St) (status version : string) :
  reports (o_http o t (UOta addr)) status version ->
  new_version <> Some version ->
  status <> "updating" ->
  truthy_opt (o_http o (t + 1) (ota_url addr ota)) = true ->
  ota_timeout <> 0%Z ->
  flash_device o fuel addr pause_time ota ota_timeout new_version false t s =
    prepend [EvHttp (UOta addr); EvHttp (ota_url addr ota); EvTime]
      (flash_poll o fuel addr pause_time (o_clock o (t + 2) + 1000 * ota_timeout)
         new_version version false 0 None (t + 3) s).
Proof.
  intros Hrep Hnv Hst Hsent Htm.
  pose proof (reports_truthy _ _ _ Hrep) as Htr. destruct Hrep as (m & Hm & Hs & Hv).
  pose proof (get_url_first pause_time (UOta addr) t s Htr) as Hread. rewrite Hm in Hread.
  rewrite (flash_device_precheck _ _ _ _ _ _ _ _ _ _ _ _ _ _ Hread Hs Hv).
  rewrite bool_decide_eq_false_2 by done. rewrite bool_decide_eq_false_2 by done.
  cbn [length]. unfold ota_flash.
  erewrite (bind_run (bind _ _)).
  2:{ rewrite (bind_run _ _ _ _ _ _ _ (get_url_first _ _ _ _ Hsent)). reflexivity. }
  rewrite Hsent. apply Z.eqb_neq in Htm. rewrite Htm.
  cbn [length app]. erewrite bind_run by reflexivity. cbn [length].
  replace (t + 1 + 1) with (t + 2) by lia. replace (t + 2 + 1) with (t + 3) by lia.
  rewrite !prepend_prepend. reflexivity.
Qed.

Lemma never_updating {St} (addr : string) (pause_time deadline : Z)
    (new_version : option string) (old_version : string) (s : St) (t0 : nat) :
  (forall k, k <= 10 -> exists st v, st <> "updating" /\ poll_ok o addr deadline t0 k st v) ->
  forall n fuel last, n <= 10 -> n < fuel ->
    flash_poll o fuel addr pause_time deadline new_version old_version false (10 - n) last
      (t0 + 3 * (10 - n)) s =
    (Ret OtaNeverUpdating, concat (repeat (poll_events addr pause_time) (S n)), s).
Proof.
  intros Hall. induction n as [|n IH]; intros fuel last Hn Hf.
  - destruct fuel as [|fuel]; [lia|].
    destruct (Hall 10 ltac:(lia)) as (st & v & Hst & Hclock & Hrep).
    replace (t0 + 3 * 10 + 2) with (t0 + 3 * (10 - 0) + 2) in Hrep by lia.
    replace (t0 + 3 * 10) with (t0 + 3 * (10 - 0)) in Hclock by lia.
    rewrite (flash_poll_step _ _ _ _ _ _ _ _ _ _ _ _ _ Hclock Hrep).
    rewrite bool_decide_eq_false_2 by done. reflexivity.
  - destruct fuel as [|fuel]; [lia|].
    destruct (Hall (10 - S n) ltac:(lia)) as (st & v & Hst & Hclock & Hrep).
    rewrite (flash_poll_step _ _ _ _ _ _ _ _ _ _ _ _ _ Hclock Hrep).
    rewrite bool_decide_eq_false_2 by done.
    replace (Nat.ltb 10 (S (10 - S n))) with false by (symmetry; apply Nat.ltb_ge; lia).
    replace (S (10 - S n)) with (10 - n) by lia.
    replace (t0 + 3 * (10 - S n) + 3) with (t0 + 3 * (10 - n)) by lia.
    rewrite IH by lia. reflexivity.
Qed.
End Ota.

(** * Postconditions of runs *)

Lemma wp_bind {St A B} (m : M St A) (k : A -> M St B) Q t s :
  wp m (wp_next k Q) t s -> wp (bind m k) Q t s.
Proof.
  unfold wp, bind, wp_next.
  destruct (m t s) as [[r tr] s1].
  destruct r as [a|x|e|]; try (intros H; exact H).
  unfold wp, prepend. destruct (k a (t + length tr) s1) as [[r' tr'] s2].
  rewrite length_app, Nat.add_assoc. intros H; exact H.
Qed.

Lemma wp_conseq {St A} (m : M St A) (Q Q' : res A -> nat -> St -> Prop) t s :
  wp m Q t s -> (forall r t' s', Q r t' s' -> Q' r t' s') -> wp m Q' t s.
Proof. unfold wp. destruct (m t s) as [[r tr] s1]. auto. Qed.

Lemma wp_run {St A} (m : M St A) Q t s r tr s' :
  m t s = (r, tr, s') -> wp m Q t s -> Q r (t + length tr) s'.
Proof. unfold wp. intros ->. done. Qed.

Lemma wp_ret {St A} (a : A) (Q : res A -> nat -> St -> Prop) t s :
  Q (Ret a) t s -> wp (ret a) Q t s.
Proof. unfold wp, ret. cbn. rewrite Nat.add_0_r. done. Qed.

Lemma wp_exit {St A} x (Q : res A -> nat -> St -> Prop) t s :
  Q (Exit x) t s -> wp (exit x) Q t s.
Proof. unfold wp, exit. cbn. rewrite Nat.add_0_r. done. Qed.

Lemma wp_raise {St A} e (Q : res A -> nat -> St -> Prop) t s :
  Q (Raise e) t s -> wp (raise e) Q t s.
Proof. unfold wp, raise. cbn. rewrite Nat.add_0_r. done. Qed.

Lemma wp_diverge {St A} (Q : res A -> nat -> St -> Prop) t s :
  Q Diverge t s -> wp diverge Q t s.
Proof. unfold wp, diverge. cbn. rewrite Nat.add_0_r. done. Qed.

Lemma wp_get {St} (Q : res St -> nat -> St -> Prop) t s :
  Q (Ret s) t s -> wp get Q t s.
Proof. unfold wp, get. cbn. rewrite Nat.add_0_r. done. Qed.

Lemma wp_put {St} (s0 : St) (Q : res unit -> nat -> St -> Prop) t s :
  Q (Ret tt) t s0 -> wp (put s0) Q t s.
Proof. unfold wp, put. cbn. rewrite Nat.add_0_r. done. Qed.

Lemma wp_ask {St A} e (f : nat -> A) (Q : res A -> nat -> St -> Prop) t s :
  Q (Ret (f t)) (t + 1) s -> wp (ask e f) Q t s.
Proof. unfold wp, ask. cbn. done. Qed.

Lemma wp_emit {St} e (Q : res unit -> nat -> St -> Prop) t s :
  Q (Ret tt) (t + 1) s -> wp (emit e) Q t s.
Proof. unfold wp, emit. cbn. done. Qed.

Lemma wp_orraise {St A} e (x : option A) (Q : res A -> nat -> St -> Prop) t s :
  (forall a, x = Some a -> Q (Ret a) t s) -> (x = None -> Q (Raise e) t s) ->
  wp (orraise e x) Q t s.
Proof. intros H1 H2. destruct x; [apply wp_ret|apply wp_raise]; auto. Qed.

(** A computation known through a composable relation. *)
Lemma wp_sat {St A} (R : St -> list event -> St -> kind -> Prop) (m : M St A)
    (Q : res A -> nat -> St -> Prop) t s :
  sat R m ->
  (forall r t' s' tr, t <= t' -> R s tr s' (kind_of r) -> Q r t' s') ->
  wp m Q t s.
Proof.
  intros Hm HQ. unfold wp. destruct (m t s) as [[r tr] s'] eqn:E.
  eapply HQ; [lia|]. exact (Hm _ _ _ _ _ E).
Qed.

#[export] Instance exits_in_stepwise {St} (X : list exit_site) : Stepwise (@exits_in St X).
Proof.
  split.
  - intros s x Hx. discriminate.
  - intros s tr1 s1 tr2 s2 k _ H. exact H.
Qed.

(** * Timelines *)

Lemma timeline_mono (now now' : Z) (rec : dict) :
  (now <= now')%Z -> timeline now rec -> timeline now' rec.
Proof.
  intros Hle (H1 & H2 & H3 & H4). repeat split.
  - intros z Hz. specialize (H1 z Hz). lia.
  - intros v Hv. destruct (H2 v Hv) as (a & -> & Ha & Hi). exists a. repeat split; [lia|done].
  - intros v Hv. destruct (H3 v Hv) as (a & b & Ha & -> & Hb). exists a, b. repeat split; [done|lia..].
  - intros v Hv. destruct (H4 v Hv) as (b & c & Hb & -> & Hc). exists b, c. repeat split; [done|lia..].
Qed.





(** * The exits a computation can take *)

Lemma sat_weaken {St A} (R R' : St -> list event -> St -> kind -> Prop) (m : M St A) :
  sat R m -> (forall s tr s' k, R s tr s' k -> R' s tr s' k) -> sat R' m.
Proof. intros H HR t s r tr s' E. apply HR. exact (H _ _ _ _ _ E). Qed.

Ltac exits_solve :=
  intros;
  match goal with
  | |- exits_in _ _ _ _ _ =>
      let x := fresh in let E := fresh in
      intros x E; first [discriminate E | injection E as <-; set_solver]
  end.

Section Exits.
Variable o : oracle.
Variable json_loads : string -> option json.
Variable survey_ssid : string -> string.
Context {St : Type}.
Variable X : list exit_site.

Lemma exits_get_url_tries (n : nat) (tm : Z) (u : url) :
  sat (exits_in X) (get_url_tries (St := St) o n tm u).
Proof.
  induction n as [|n IH]; cbn [get_url_tries]; sat_go exits_solve. exact IH.
Qed.

Lemma exits_get_url (tm : Z) (u : url) : sat (exits_in X) (get_url (St := St) o tm u).
Proof. apply exits_get_url_tries. Qed.

Lemma exits_flash_poll (fuel : nat) addr pause deadline nv old seen passes last :
  sat (exits_in X) (flash_poll (St := St) o fuel addr pause deadline nv old seen passes last).
Proof.
  revert seen passes last. induction fuel as [|fuel IH]; intros seen passes last;
    cbn [flash_poll]; sat_go exits_solve; try apply exits_get_url; try apply IH.
Qed.

Lemma exits_flash_device (fuel : nat) addr pause ota tmo nv dry :
  sat (exits_in X) (flash_device (St := St) o fuel addr pause ota tmo nv dry).
Proof.
  unfold flash_device, ota_flash.
  sat_go exits_solve; try apply exits_get_url; try apply exits_flash_poll.
Qed.
End Exits.

Section NodeExits.
Variable o : oracle.
Variable json_loads : string -> option json.
Variable survey_ssid : string -> string.
Variable X : list exit_site.

Lemma exits_node_at cn : sat (exits_in X) (node_at cn).
Proof. unfold node_at. sat_go exits_solve. Qed.

Lemma exits_program_mode cn pgm from_db deletes :
  sat (exits_in X) (ddwrt_program_mode o cn pgm from_db deletes).
Proof.
  unfold ddwrt_program_mode, from_profile, set_current_mode.
  sat_go exits_solve; try apply exits_node_at.
  all: unfold from_profile; sat_go exits_solve.
Qed.

Lemma exits_wget_loop left conn u : sat (exits_in X) (wget_loop o left conn u).
Proof.
  induction left as [|left IH]; cbn [wget_loop]; sat_go exits_solve. exact IH.
Qed.

Lemma exits_wget cn u tries : sat (exits_in X) (ddwrt_wget o cn u tries).
Proof.
  unfold ddwrt_wget. sat_go exits_solve; [apply exits_node_at|apply exits_wget_loop].
Qed.

Lemma exits_node_mac cn : sat (exits_in X) (node_mac cn).
Proof. unfold node_mac. sat_go exits_solve. apply exits_node_at. Qed.

Lemma exits_discover cn prefix :
  ExitSurveyFailed ∈ X -> sat (exits_in X) (ddwrt_discover o survey_ssid cn prefix).
Proof.
  intros HX. unfold ddwrt_discover. sat_go exits_solve. apply exits_node_at.
Qed.

Lemma exits_drop_wait fuel ap prefix ssid misses passes :
  ExitSurveyFailed ∈ X ->
  sat (exits_in X) (drop_wait o survey_ssid fuel ap prefix ssid misses passes).
Proof.
  intros HX. revert misses passes. induction fuel as [|fuel IH]; intros misses passes;
    cbn [drop_wait]; sat_go exits_solve; try (apply exits_discover; exact HX); apply IH.
Qed.

Lemma exits_attempts_loop fuel args ap sta rec ssid attempts :
  ExitSurveyFailed ∈ X -> ExitAttemptsExhausted ∈ X ->
  sat (exits_in X)
    (attempts_loop o json_loads survey_ssid fuel args ap sta rec ssid attempts).
Proof.
  intros H1 H2. revert attempts.
  induction fuel as [|fuel IH]; intros attempts; cbn [attempts_loop].
  - sat_go exits_solve.
  - unfold ddwrt_set_ap_mode, ddwrt_set_sta_mode.
    sat_go exits_solve;
      try apply exits_node_mac; try apply exits_program_mode; try apply exits_wget;
      try (apply exits_drop_wait; exact H1); try apply IH.
Qed.
End NodeExits.

(** * Provisioning one instruction *)


Lemma stamping_trivial (o : oracle) : stamping o (fun _ _ => True).
Proof. split; done. Qed.

#[export] Instance steady_on_stepwise T i w0 P : Stepwise (steady_on T i w0 P).
Proof.
  split.
  - intros s ph t _ H. exact H.
  - intros s tr1 s1 tr2 s2 k H1 H2 ph t HP H. apply H2; [done|]. apply H1; done.
Qed.

#[export] Instance rel_and_stepwise {St} (R1 R2 : St -> list event -> St -> kind -> Prop)
  `{!Stepwise R1, !Stepwise R2} : Stepwise (rel_and R1 R2).
Proof.
  split.
  - intros s. split; apply step_refl.
  - intros s tr1 s1 tr2 s2 k [H1 H2] [H3 H4]. split; eapply step_trans; eauto.
Qed.

Lemma sat_and {St A} (R1 R2 : St -> list event -> St -> kind -> Prop) (m : M St A) :
  sat R1 m -> sat R2 m -> sat (rel_and R1 R2) m.
Proof. intros H1 H2 t s r tr s' E. split; [exact (H1 _ _ _ _ _ E)|exact (H2 _ _ _ _ _ E)]. Qed.

Section Phases.
Variable o : oracle.
Variable json_loads : string -> option json.
Variable survey_ssid : string -> string.
Variable T : nat -> dict -> Prop.
Hypothesis HT : stamping o T.
Variable i : nat.
Variable w0 : world.

Abbreviation inv := (phase_inv T i w0).
Abbreviation steady := (steady_on T i w0).
Abbreviation post := (rec_post T i w0).

Lemma inv_later ph t t' w : t <= t' -> inv ph t w -> inv ph t' w.
Proof.
  intros Ht (H1 & H2 & H3 & H4). split; [|done].
  eapply Forall_impl; [exact H1|]. intros rec. apply (st_later _ _ HT), Ht.
Qed.

(** Computations that leave the store alone keep every phase. *)
Lemma keep_steady {A} (m : M world A) P : sat keep m -> sat (steady P) m.
Proof.
  intros H. eapply sat_weaken; [exact H|].
  intros s tr s' k -> ph t _ Hi. exact Hi.
Qed.

(** So do computations on the connection objects. *)
Lemma on_nodes_steady {A} (m : M (list node) A) P : sat (steady P) (on_nodes m).
Proof.
  intros t w r tr w' E ph t' _ Hi. unfold on_nodes, lift in E.
  destruct (m t (nodes w)) as [[r0 tr0] ns]. injection E as <- <- <-. exact Hi.
Qed.

Lemma on_nodes_exits {A} (m : M (list node) A) X :
  sat (exits_in X) m -> sat (exits_in X) (on_nodes m).
Proof.
  intros H t w r tr w' E. unfold on_nodes, lift in E.
  destruct (m t (nodes w)) as [[r0 tr0] ns] eqn:E0. injection E as <- <- <-.
  exact (H _ _ _ _ _ E0).
Qed.

Lemma has_field_other k k' v q :
  k <> k' -> has_field i k q -> has_field i k (alter (insert k' v) i q).
Proof.
  intros Hk (rec & Hq & Hr). exists (<[k' := v]> rec). split.
  - rewrite list_lookup_alter_eq, Hq. reflexivity.
  - rewrite lookup_insert_ne by done. exact Hr.
Qed.

Lemma lacks_completed_other k v q :
  k <> "CompletedTime" -> lacks_completed i q ->
  lacks_completed i (alter (insert k v) i q).
Proof.
  intros Hk H rec Hq. rewrite list_lookup_alter_eq in Hq.
  destruct (q !! i) as [rec0|] eqn:E; [|done]. injection Hq as <-.
  rewrite lookup_insert_ne by done. apply H. exact E.
Qed.

(** [rec[ k ] = v] for a key that is not a lifecycle timestamp. *)
Lemma set_field_steady k v P : is_stamp k = false -> sat (steady P) (set_field i k v).
Proof.
  intros Hk t w r tr w' E ph t' _ (H1 & H2 & H3 & new & Hnew & Hph).
  unfold set_field in E. cbn -[alter] in E. injection E as <- <- <-.
  unfold phase_inv. cbn [device_queue queue_file set_device_queue].
  assert (k <> "InProgressTime" /\ k <> "CompletedTime" /\ k <> "ConfirmedTime")
    as (K1 & K2 & K3).
  { unfold is_stamp in Hk. rewrite !orb_false_iff, !bool_decide_eq_false in Hk. tauto. }
  split; [|split; [|split]].
  - apply Forall_alter; [exact H1|]. intros rec _. apply (st_other _ _ HT), Hk.
  - rewrite length_alter. exact H2.
  - intros j Hj. rewrite list_lookup_alter_ne by done. apply H3, Hj.
  - exists new. split; [exact Hnew|].
    destruct ph; repeat match goal with H : _ /\ _ |- _ => destruct H end;
      repeat split; auto using has_field_other, lacks_completed_other.
Qed.

Lemma db_store_steady mac P : sat (steady P) (db_store mac i).
Proof.
  intros t w r tr w' E ph t' _ Hi. unfold db_store in E. cbn in E.
  injection E as <- <- <-. exact Hi.
Qed.

Lemma write_db_steady P : sat (steady P) (write_db o).
Proof.
  intros t w r tr w' E ph t' _ Hi. unfold write_db, bind, ask in E. cbn in E.
  destruct (o_ok o t); cbn in E; injection E as <- <- <-; exact Hi.
Qed.

(** Writing the queue file keeps every phase but [PhDone], which it ends. *)
Lemma write_queue_steady :
  sat (steady (fun ph => ph <> PhDone)) (write_queue o).
Proof.
  intros t w r tr w' E ph t' Hph (H1 & H2 & H3 & new & Hnew & Hp).
  unfold write_queue, bind, ask in E. cbn in E.
  destruct (o_ok o t); cbn in E; injection E as <- <- <-.
  - split; [exact H1|]. split; [exact H2|]. split; [exact H3|]. cbn.
    exists (device_queue w :: new). split; [by rewrite Hnew|].
    destruct ph; try done;
      repeat match goal with H : _ /\ _ |- _ => destruct H end;
      repeat split; auto.
  - split; [exact H1|]. split; [exact H2|]. split; [exact H3|]. eauto.
Qed.

Lemma write_queue_exits X : ExitWriteFailed ∈ X -> sat (exits_in X) (write_queue o).
Proof. intros HX. unfold write_queue. sat_go exits_solve. Qed.

Lemma write_db_exits X : ExitWriteFailed ∈ X -> sat (exits_in X) (write_db o).
Proof. intros HX. unfold write_db. sat_go exits_solve. Qed.

Lemma keep_get_url_tries {St} n tm u : sat keep (get_url_tries (St := St) o n tm u).
Proof. induction n as [|n IH]; cbn [get_url_tries]; sat_go keep_side. exact IH. Qed.

Lemma keep_get_url {St} tm u : sat keep (get_url (St := St) o tm u).
Proof. apply keep_get_url_tries. Qed.

Lemma keep_flash_poll {St} fuel addr pause deadline nv old seen passes last :
  sat keep (flash_poll (St := St) o fuel addr pause deadline nv old seen passes last).
Proof.
  revert seen passes last. induction fuel as [|fuel IH]; intros seen passes last;
    cbn [flash_poll]; sat_go keep_side; try apply keep_get_url; try apply IH.
Qed.

Lemma keep_flash_device {St} fuel addr pause ota tmo nv dry :
  sat keep (flash_device (St := St) o fuel addr pause ota tmo nv dry).
Proof.
  unfold flash_device, ota_flash.
  sat_go keep_side; try apply keep_get_url; try apply keep_flash_poll.
Qed.

(** The relation every step between two timestamps satisfies. *)
Abbreviation calm X := (rel_and (steady (fun _ => True)) (exits_in X)).

Lemma calm_keep {A} (m : M world A) X :
  sat keep m -> sat (exits_in X) m -> sat (calm X) m.
Proof. intros H1 H2. apply sat_and; [apply keep_steady, H1|exact H2]. Qed.

Lemma calm_set_field k v X : is_stamp k = false -> sat (calm X) (set_field i k v).
Proof.
  intros Hk. apply sat_and; [apply set_field_steady, Hk|].
  unfold set_field. sat_go exits_solve.
Qed.

Lemma calm_get_rec X : sat (calm X) (get_rec i).
Proof. apply calm_keep; unfold get_rec; [sat_go keep_side|sat_go exits_solve]. Qed.

Lemma calm_on_nodes {A} (m : M (list node) A) X :
  sat (exits_in X) m -> sat (calm X) (on_nodes m).
Proof. intros H. apply sat_and; [apply on_nodes_steady|apply on_nodes_exits, H]. Qed.

Ltac calm_side :=
  intros; split; [intros ? ? ? ?; assumption|exits_solve].

Ltac calm_leaf :=
  first
    [ apply calm_get_rec
    | apply calm_set_field; reflexivity
    | apply calm_keep; [apply keep_get_url|apply exits_get_url]
    | apply calm_keep; [apply keep_flash_device|apply exits_flash_device]
    | apply sat_and; [apply db_store_steady|unfold db_store; sat_go exits_solve]
    | apply sat_and; [apply write_db_steady|apply write_db_exits; set_solver] ].

(** What [finish_up_device] does after it has set ConfirmedTime. *)
Lemma finish_rest_calm (fuel : nat) (device : string) (operation : string)
    (args : options) (new_version : option string)
    (initial_status configured_settings : option json) X :
  ExitWriteFailed ∈ X ->
  sat (calm X)
    (rec <- get_rec i ;;
     configured_settings <-
       (if truthy_opt configured_settings then ret configured_settings
        else get_url o (a_pause_time args) (get_settings_url device rec)) ;;
     set_field i "status" (default JNull initial_status) ;;;
     set_field i "settings"
       (if truthy_opt configured_settings then default JNull configured_settings
        else JObj ∅) ;;;
     set_field i "Origin" (JStr operation) ;;;
     initial_status <- orraise TypeError initial_status ;;
     mac <- jget initial_status "mac" ;;
     set_field i "ID" mac ;;;
     wifi_sta <- jget initial_status "wifi_sta" ;;
     ip <- jget wifi_sta "ip" ;;
     set_field i "IP" ip ;;;
     mac <- jstr mac ;;
     db_store mac i ;;;
     write_db o ;;;
     (if negb (bool_decide (a_ota args = "")) then
        p <- flash_device o fuel device (a_pause_time args) (a_ota args)
               (a_ota_timeout args) new_version (a_dry_run args) ;;
        if flash_returns p then
          new_status <- get_status o device (a_pause_time args) ;;
          set_field i "status" (default (JObj ∅) new_status) ;;;
          db_store mac i ;;;
          write_db o
        else ret tt
      else ret tt) ;;;
     (if a_print_using args then print_label o else ret tt) ;;;
     (if a_toggle args then
        cs <- orraise TypeError configured_settings ;;
        dev <- jget cs "device" ;;
        jget dev "type" ;;;
        toggle_device
      else ret tt)).
Proof.
  intros HX. unfold get_status, print_label, toggle_device.
  repeat first [ calm_leaf | progress sat_go calm_side ].
Qed.

Lemma stamp_in_progress t w :
  inv PhOpen t w -> is_Some (device_queue w !! i) ->
  inv PhClaimed (t + 1)
    (set_device_queue
       (alter (insert "InProgressTime" (JNum (o_clock o t))) i (device_queue w)) w).
Proof.
  intros (H1 & H2 & H3 & new & Hnew & Hl & Hn) [rec Hrec].
  apply (inv_later _ t); [lia|]. unfold phase_inv.
  cbn [device_queue queue_file set_device_queue].
  split; [|split; [|split]].
  - apply Forall_alter; [exact H1|]. intros rec' Hr' Ht.
    apply (st_in_progress _ _ HT); [exact Ht|apply Hl, Hr'].
  - rewrite length_alter. exact H2.
  - intros j Hj. rewrite list_lookup_alter_ne by done. apply H3, Hj.
  - exists new. split; [exact Hnew|]. split; [|split; [|exact Hn]].
    + exists (<["InProgressTime" := JNum (o_clock o t)]> rec). split.
      * rewrite list_lookup_alter_eq, Hrec. reflexivity.
      * rewrite lookup_insert_eq. eauto.
    + apply lacks_completed_other; done.
Qed.

Lemma stamp_completed t w :
  inv PhClaimed t w ->
  inv PhDone (t + 1)
    (set_device_queue
       (alter (insert "CompletedTime" (JNum (o_clock o t))) i (device_queue w)) w).
Proof.
  intros (H1 & H2 & H3 & new & Hnew & (rec & Hrec & Hp) & Hl & Hn).
  apply (inv_later _ t); [lia|]. unfold phase_inv.
  cbn [device_queue queue_file set_device_queue].
  split; [|split; [|split]].
  - apply Forall_alter; [exact H1|]. intros rec' Hr' Ht.
    assert (rec' = rec) as -> by congruence.
    apply (st_completed _ _ HT); [exact Ht|exact Hp|apply Hl, Hr'].
  - rewrite length_alter. exact H2.
  - intros j Hj. rewrite list_lookup_alter_ne by done. apply H3, Hj.
  - exists new. split; [exact Hnew|]. split; [|exact Hn].
    exists (<["CompletedTime" := JNum (o_clock o t)]> rec). split.
    + rewrite list_lookup_alter_eq, Hrec. reflexivity.
    + rewrite lookup_insert_eq. eauto.
Qed.

Lemma stamp_confirmed t w :
  inv PhSaved t w ->
  inv PhConfirmed (t + 1)
    (set_device_queue
       (alter (insert "ConfirmedTime" (JNum (o_clock o t))) i (device_queue w)) w).
Proof.
  intros (H1 & H2 & H3 & new & Hnew & (rec & Hrec & Hp)).
  apply (inv_later _ t); [lia|]. unfold phase_inv.
  cbn [device_queue queue_file set_device_queue].
  split; [|split; [|split]].
  - apply Forall_alter; [exact H1|]. intros rec' Hr' Ht.
    assert (rec' = rec) as -> by congruence.
    apply (st_confirmed _ _ HT); [exact Ht|exact Hp].
  - rewrite length_alter. exact H2.
  - intros j Hj. rewrite list_lookup_alter_ne by done. apply H3, Hj.
  - exists new. split; [exact Hnew|].
    exists (<["ConfirmedTime" := JNum (o_clock o t)]> rec). split.
    + rewrite list_lookup_alter_eq, Hrec. reflexivity.
    + rewrite lookup_insert_eq. eauto.
Qed.

Lemma set_field_wp k v (Q : res unit -> nat -> world -> Prop) t w :
  Q (Ret tt) t (set_device_queue (alter (insert k v) i (device_queue w)) w) ->
  wp (set_field i k v) Q t w.
Proof. intros H. unfold wp, set_field. cbn -[alter]. rewrite Nat.add_0_r. exact H. Qed.

Lemma write_queue_wp (Q : res unit -> nat -> world -> Prop) t w :
  (o_ok o t = true -> Q (Ret tt) (t + 1) (push_queue_file w)) ->
  (o_ok o t = false -> Q (Exit ExitWriteFailed) (t + 1) w) ->
  wp (write_queue o) Q t w.
Proof.
  intros H1 H2. unfold wp, write_queue, bind, ask. cbn.
  destruct (o_ok o t); cbn; auto.
Qed.

Lemma inv_saved t w : inv PhDone t w -> inv PhSaved t (push_queue_file w).
Proof.
  intros (H1 & H2 & H3 & new & Hnew & Hp & _). repeat split; try done.
  exists (device_queue w :: new). cbn. by rewrite Hnew.
Qed.

Lemma finish_up_device_wp (fuel : nat) (device : string) (operation : string)
    (args : options) (new_version : option string)
    (initial_status configured_settings : option json) t w :
  inv PhSaved t w ->
  wp (finish_up_device o fuel device i operation args new_version initial_status
        configured_settings)
     (fun r t' w' => inv PhConfirmed t' w' /\
                     forall x, r = Exit x -> x = ExitWriteFailed) t w.
Proof.
  intros Hinv. unfold finish_up_device.
  apply wp_bind. apply wp_ask. cbn [wp_next].
  apply wp_bind. apply set_field_wp. cbn [wp_next].
  apply stamp_confirmed in Hinv.
  apply (wp_sat (calm [ExitWriteFailed])).
  - apply finish_rest_calm. set_solver.
  - intros r t' w' tr Ht [Hs Hx]. split.
    + apply (inv_later _ (t + 1)); [lia|]. apply Hs; done.
    + intros x ->. specialize (Hx x eq_refl). apply list_elem_of_singleton in Hx. exact Hx.
Qed.

Lemma rec_post_abort {A} sc ph (P : phase -> Prop) X (r0 : res A) (r : res nat)
    t t' w w' tr :
  kind_of r = kind_of r0 -> kind_of r0 <> KRet ->
  inv ph t w -> t <= t' -> P ph ->
  rel_and (steady P) (exits_in X) w tr w' (kind_of r0) ->
  (ExitAttemptsExhausted ∈ X -> ph = PhOpen \/ ph = PhClaimed) ->
  (ExitDeviceNotFound ∈ X -> ph = PhDone) ->
  post sc r t' w'.
Proof.
  intros Hk Hr Hinv Ht HP [Hs Hx] HA HD. exists ph. split.
  - apply (inv_later _ t); [lia|]. apply Hs; done.
  - destruct r as [a|x|e|]; [cbn in Hk; congruence| |exact I|exact I].
    specialize (Hx x (eq_sym Hk)). destruct x; auto.
Qed.

(** One step that keeps the phase [ph]; on return the invariant is stated
    at the new tick and store. *)
Lemma wp_calm {A} sc ph (P : phase -> Prop) X (m : M world A)
    (k : A -> M world nat) t w :
  inv ph t w -> P ph ->
  sat (rel_and (steady P) (exits_in X)) m ->
  (ExitAttemptsExhausted ∈ X -> ph = PhOpen \/ ph = PhClaimed) ->
  (ExitDeviceNotFound ∈ X -> ph = PhDone) ->
  (forall a t' w', t <= t' -> inv ph t' w' ->
     (is_Some (device_queue w !! i) -> is_Some (device_queue w' !! i)) ->
     wp (k a) (post sc) t' w') ->
  wp (bind m k) (post sc) t w.
Proof.
  intros Hinv HP Hm HA HD Hk. apply wp_bind.
  apply (wp_sat (rel_and (steady P) (exits_in X))); [exact Hm|].
  intros r t' w' tr Ht HR. destruct r as [a|x|e|]; cbn [wp_next].
  - destruct HR as [Hs _]. apply Hk; [exact Ht| |].
    + apply (inv_later _ t); [lia|]. apply Hs; done.
    + intros Hsome. pose proof (Hs ph t HP Hinv) as (_ & Hlen & _).
      destruct Hinv as (_ & Hlen0 & _).
      apply lookup_lt_is_Some. apply lookup_lt_is_Some in Hsome. lia.
  - eapply (rec_post_abort sc ph P X (Exit x)); eauto; done.
  - eapply (rec_post_abort sc ph P X (Raise e)); eauto; done.
  - eapply (rec_post_abort sc ph P X Diverge); eauto; done.
Qed.

Ltac phase_side :=
  let H := fresh in
  intros H;
  first [ by left | by right | reflexivity
        | exfalso; clear -H;
          repeat (apply elem_of_cons in H; destruct H as [H|H]; [discriminate H|]);
          apply elem_of_nil in H; exact H ].

Ltac calm_step ph X :=
  eapply (wp_calm _ ph (fun _ => True) X);
  [ eassumption | exact I | | phase_side | phase_side | ].

Lemma provision_rec_wp (args : options) (new_version : option string)
    (ap_node sta_node : nat) (success_count : nat) (fuel : nat) t w :
  inv PhOpen t w -> is_Some (device_queue w !! i) ->
  wp (provision_rec o json_loads survey_ssid fuel args new_version ap_node sta_node i
        success_count)
     (post success_count) t w.
Proof.
  revert t w. induction fuel as [|fuel IH]; intros t w Hinv Hsome.
  { cbn [provision_rec]. apply wp_diverge. exists PhOpen. done. }
  cbn [provision_rec].
  calm_step PhOpen [ExitSurveyFailed].
  { apply calm_on_nodes, exits_discover. apply list_elem_of_here. }
  intros device_ssids ta wa Hta Hinva Hsa. clear Hinv.
  destruct device_ssids as [|ssid others].
  { apply wp_bind. apply wp_emit. cbn [wp_next].
    apply IH; [apply (inv_later _ ta); [lia|done]|auto]. }
  calm_step PhOpen (@nil exit_site).
  { apply calm_set_field. reflexivity. }
  intros _ tb wb Htb Hinvb Hsb. clear Hinva.
  apply wp_bind. apply wp_ask. cbn [wp_next].
  apply wp_bind. apply set_field_wp. cbn [wp_next].
  apply stamp_in_progress in Hinvb; [|auto].
  eapply (wp_calm _ PhClaimed (fun ph => ph <> PhDone) [ExitWriteFailed]);
    [exact Hinvb|done| |phase_side|phase_side|].
  { apply sat_and; [apply write_queue_steady|apply write_queue_exits, list_elem_of_here]. }
  intros _ tc wc Htc Hinvc _. clear Hinvb.
  calm_step PhClaimed (@nil exit_site).
  { apply calm_get_rec. }
  intros rec td wd Htd Hinvd _. clear Hinvc.
  calm_step PhClaimed [ExitSurveyFailed; ExitAttemptsExhausted].
  { apply calm_on_nodes, exits_attempts_loop;
      [apply list_elem_of_here|apply list_elem_of_further, list_elem_of_here]. }
  intros _ te we Hte Hinve _. clear Hinvd.
  calm_step PhClaimed (@nil exit_site).
  { apply calm_on_nodes, exits_node_mac. }
  intros ap_mac tf wf Htf Hinvf _. clear Hinve.
  calm_step PhClaimed (@nil exit_site).
  { apply calm_on_nodes, exits_node_mac. }
  intros sta_mac tg wg Htg Hinvg _. clear Hinvf.
  calm_step PhClaimed (@nil exit_site).
  { sat_go calm_side. apply calm_on_nodes, exits_program_mode. }
  intros _ th wh Hth Hinvh _. clear Hinvg.
  calm_step PhClaimed (@nil exit_site).
  { sat_go calm_side. }
  intros ip_address tj wj Htj Hinvj _. clear Hinvh.
  apply wp_bind. apply wp_ask. cbn [wp_next].
  apply wp_bind. apply set_field_wp. cbn [wp_next].
  apply stamp_completed in Hinvj.
  calm_step PhDone (@nil exit_site).
  { sat_go calm_side. }
  intros ip tk wk Htk Hinvk _. clear Hinvj.
  calm_step PhDone (@nil exit_site).
  { apply calm_get_rec. }
  intros rec' tl wl Htl Hinvl _. clear Hinvk.
  calm_step PhDone (@nil exit_site).
  { apply calm_on_nodes, exits_wget. }
  intros p tm wm Htm Hinvm _. clear Hinvl.
  calm_step PhDone (@nil exit_site).
  { sat_go calm_side. }
  intros r0 tn wn Htn Hinvn _. clear Hinvm.
  calm_step PhDone (@nil exit_site).
  { sat_go calm_side. }
  intros configured_settings tp wp0 Htp Hinvp _. clear Hinvn.
  destruct (eq_str _ "").
  { apply wp_exit. exists PhDone. done. }
  apply wp_bind. apply write_queue_wp; intros Hok; cbn [wp_next].
  2:{ exists PhDone. split; [|done]. apply (inv_later _ tp); [lia|done]. }
  assert (inv PhSaved (tp + 1) (push_queue_file wp0)) as Hsaved.
  { apply (inv_later _ tp); [lia|]. apply inv_saved. done. }
  clear Hinvp.
  calm_step PhSaved (@nil exit_site).
  { apply calm_keep; [apply keep_get_url|apply exits_get_url]. }
  intros new_status tq wq Htq Hinvq _. clear Hsaved.
  apply wp_bind. eapply wp_conseq; [apply finish_up_device_wp; eassumption|].
  intros r t' w' [Hc Hx]. destruct r as [[]|x|e|]; cbn [wp_next].
  - apply wp_ret. exists PhConfirmed. done.
  - exists PhConfirmed. split; [done|]. rewrite (Hx x eq_refl). exact I.
  - exists PhConfirmed. done.
  - exists PhConfirmed. done.
Qed.

End Phases.

(** * The loop over the queue *)

Section Loop.
Variable o : oracle.
Variable json_loads : string -> option json.
Variable survey_ssid : string -> string.
Variable T : nat -> dict -> Prop.
Hypothesis HT : stamping o T.
Variable args : options.
Variable new_version : option string.
Variable ap_node sta_node : nat.
Variable fuel : nat.

Lemma inv_open i t w rec :
  Forall (T t) (device_queue w) ->
  device_queue w !! i = Some rec -> has_key rec "CompletedTime" = false ->
  phase_inv T i w PhOpen t w.
Proof.
  intros HF Hrec Hc. split; [exact HF|]. split; [done|]. split; [done|].
  exists []. split; [done|]. split; [|constructor].
  intros rec' Hr'. assert (rec' = rec) as -> by congruence.
  unfold has_key in Hc. apply bool_decide_eq_false in Hc.
  destruct (rec !! "CompletedTime") eqn:E; [|done]. destruct Hc. eauto.
Qed.

Lemma selected_true rec :
  selected args rec = true ->
  has_key rec "CompletedTime"
  || (negb (no_group (a_group args)) && negb (in_group rec (a_group args))) = false /\
  has_key rec "SSID" = true /\ has_key rec "CompletedTime" = false.
Proof.
  unfold selected. intros H. apply andb_true_iff in H as [H1 H2].
  apply negb_true_iff in H1. split; [exact H1|]. split; [exact H2|].
  apply orb_false_iff in H1 as [H1 _]. exact H1.
Qed.

Lemma selected_false rec :
  selected args rec = false ->
  has_key rec "CompletedTime"
  || (negb (no_group (a_group args)) && negb (in_group rec (a_group args))) = true \/
  has_key rec "SSID" = false.
Proof.
  unfold selected. intros H. apply andb_false_iff in H as [H|H]; [left|right; exact H].
  apply negb_false_iff in H. exact H.
Qed.

End Loop.

(** * provision-list as a whole *)

Section List.
Variable o : oracle.
Variable json_loads : string -> option json.
Variable survey_ssid : string -> string.

Lemma check_ready {St} (dq : list dict) (group : option string) t (s : St) :
  dq <> [] -> queue_ready dq group false = true ->
  check_for_device_queue dq group false t s = (Ret tt, [], s).
Proof.
  intros Hne Hr. unfold check_for_device_queue. rewrite Hr.
  destruct dq; [done|]. reflexivity.
Qed.

Lemma complete_not_ready (dq : list dict) (group : option string) :
  Forall (fun rec => has_key rec "CompletedTime" = true) dq ->
  queue_ready dq group false = false.
Proof.
  unfold queue_ready. induction 1 as [|rec dq Hrec _ IH]; [reflexivity|].
  cbn [existsb]. rewrite Hrec, IH. reflexivity.
Qed.

Lemma check_not_ready {St} (dq : list dict) (group : option string) t (s : St) :
  Forall (fun rec => has_key rec "CompletedTime" = true) dq ->
  check_for_device_queue dq group false t s =
    (Exit (if Nat.eqb (length dq) 0 then ExitQueueEmpty else ExitNothingReady), [], s).
Proof.
  intros Hall. unfold check_for_device_queue.
  destruct (Nat.eqb (length dq) 0); [reflexivity|].
  rewrite (complete_not_ready _ _ Hall). reflexivity.
Qed.

(** [provision_list] up to the end of role assignment. *)
Lemma provision_list_roles (fuel : nat) (args : options) (router_db : dict)
    (new_version : option string) t w r tr ns :
  device_queue w <> [] ->
  queue_ready (device_queue w) (a_group args) false = true ->
  ddwrt_choose_roles o router_db (a_ddwrt_name args) t (nodes w) = (r, tr, ns) ->
  provision_list o json_loads survey_ssid fuel args router_db new_version t w =
    match r with
    | Ret roles =>
        prepend tr
          (provision_loop o json_loads survey_ssid fuel args new_version
             (fst roles) (snd roles) (seq 0 (length (device_queue w))) 0 0
             (t + length tr) (set_nodes ns w))
    | Exit x => (Exit x, tr, set_nodes ns w)
    | Raise e => (Raise e, tr, set_nodes ns w)
    | Diverge => (Diverge, tr, set_nodes ns w)
    end.
Proof.
  intros Hne Hready Hroles. unfold provision_list.
  erewrite bind_run by reflexivity. cbn [length]. rewrite Nat.add_0_r, prepend_nil.
  rewrite (bind_run _ _ _ _ _ _ _ (check_ready _ _ _ _ Hne Hready)).
  cbn [length]. rewrite Nat.add_0_r, prepend_nil.
  unfold bind at 1. unfold on_nodes, lift. rewrite Hroles.
  destruct r as [roles|x|e|]; try reflexivity.
  erewrite bind_run by reflexivity. cbn [length]. rewrite Nat.add_0_r, prepend_nil.
  reflexivity.
Qed.

(** With every record already complete, [provision_list] leaves at the
    check of the queue and the loop, were it reached, would skip them all. *)
Lemma provision_list_all_complete (fuel : nat) (args : options) (router_db : dict)
    (new_version : option string) t w :
  Forall (fun rec => has_key rec "CompletedTime" = true) (device_queue w) ->
  provision_list o json_loads survey_ssid fuel args router_db new_version t w =
    (Exit (if Nat.eqb (length (device_queue w)) 0 then ExitQueueEmpty
           else ExitNothingReady), [], w).
Proof.
  intros Hall. unfold provision_list.
  erewrite bind_run by reflexivity. cbn [length]. rewrite Nat.add_0_r, prepend_nil.
  unfold bind. rewrite (check_not_ready _ _ _ _ Hall). reflexivity.
Qed.

Lemma provision_loop_all_complete (fuel : nat) (args : options)
    (new_version : option string) (ap sta : nat) (todo : list nat) t w :
  Forall (fun rec => has_key rec "CompletedTime" = true) (device_queue w) ->
  Forall (fun i => i < length (device_queue w)) todo ->
  provision_loop o json_loads survey_ssid fuel args new_version ap sta todo 0 0 t w =
    (Ret (0, 0), [], w).
Proof.
  intros Hall Htodo. induction Htodo as [|i todo Hi _ IH]; [reflexivity|].
  cbn [provision_loop]. apply lookup_lt_is_Some in Hi as [rec Hrec].
  assert (get_rec i t w = (Ret rec, [], w)) as Hget.
  { unfold get_rec, bind, get, orraise. cbn. rewrite Hrec. reflexivity. }
  rewrite (bind_run _ _ _ _ _ _ _ Hget). cbn [length]. rewrite Nat.add_0_r, prepend_nil.
  rewrite Forall_forall in Hall. rewrite (Hall rec); [exact IH|].
  eapply list_elem_of_lookup_2, Hrec.
Qed.

Lemma wp_on_nodes {A} (m : M (list node) A) (Q : res A -> nat -> world -> Prop) t w :
  (forall r t' ns, t <= t' -> Q r t' (set_nodes ns w)) -> wp (on_nodes m) Q t w.
Proof.
  intros H. unfold wp, on_nodes, lift. destruct (m t (nodes w)) as [[r tr] ns].
  apply H. lia.
Qed.



End List.

(** * The claims *)

Lemma run_eta {St A : Type} (x : res A * list event * St) (r : res A) :
  fst (fst x) = r -> x = (r, snd (fst x), snd x).
Proof. destruct x as [[r0 tr] s]. cbn. intros ->. reflexivity. Qed.

(** C1: the wait for the factory SSID to drop from the site survey, started
    with both counters at 0, always ends within 60 polls; each poll is a
    one-second sleep followed by one survey; the device is declared to have
    left ([departed]) only when the SSID was absent from each of the last
    three surveys, and otherwise all 60 polls were used; if the SSID is in
    every one of the 60 surveys the wait ends after 60 polls and reports
    that the device has not left.  For the surveys {X}, {X}, {}, {}, {}, {}
    departure is declared at the 5th poll. *)
Theorem C1_convergence_detection (o : oracle) (survey_ssid : string -> string)
    (ap : nat) (nd : node) (prefix ssid : string) (st : list node) (t : nat) :
  st !! ap = Some nd ->
  (forall fuel, 60 <= fuel ->
     fst (fst (drop_wait o survey_ssid fuel ap prefix ssid 0 0 t st)) <> Diverge) /\
  (forall fuel m p tr st',
     drop_wait o survey_ssid fuel ap prefix ssid 0 0 t st = (Ret (m, p), tr, st') ->
     st' = st /\ tr = poll_trace (n_conn nd) p /\ p <= 60 /\
     (departed (m, p) = true ->
        3 <= p /\
        forall j, j < 3 ->
          ssid ∉ visible survey_ssid prefix
                   (o_cmd o (t + 2 * (p - j) - 1) (n_conn nd) SiteSurvey)) /\
     (departed (m, p) = false -> p = 60)) /\
  (forall fuel, 60 <= fuel ->
     (forall k, 1 <= k <= 60 ->
        ssid ∈ visible survey_ssid prefix
                 (o_cmd o (t + 2 * k - 1) (n_conn nd) SiteSurvey)) ->
     drop_wait o survey_ssid fuel ap prefix ssid 0 0 t st =
       (Ret (0, 60), poll_trace (n_conn nd) 60, st) /\
     departed (0, 60) = false) /\
  (let x := lab_factory_ssid in
   let router := lab_node "192.168.1.1" true true "ap" in
   drop_wait (scan_oracle [[x]; [x]; []; []; []; []]) lab_survey_ssid 60 0 "shelly" x
     0 0 0 [router]
   = (Ret (3, 5), poll_trace "192.168.1.1" 5, [router]) /\
   departed (3, 5) = true).
Proof.
  intros Hnd. split; [|split; [|split]].
  - intros fuel Hf. apply (drop_wait_total o survey_ssid ap nd); [exact Hnd|lia].
  - intros fuel m p tr st' H.
    apply (drop_wait_inv o survey_ssid ap nd) in H
      as (-> & _ & -> & H60 & H3 & Hm & Hend & Habs); [|exact Hnd].
    rewrite Nat.sub_0_r in *. unfold departed. cbn [fst].
    split; [reflexivity|]. split; [reflexivity|]. split; [lia|]. split.
    + intros Hd. apply Nat.leb_le in Hd. split; [lia|].
      intros j Hj. exact (Habs j ltac:(lia) ltac:(lia)).
    + intros Hd. apply Nat.leb_gt in Hd. lia.
  - intros fuel Hf Hall. split; [|reflexivity].
    rewrite (drop_wait_present o survey_ssid ap nd prefix ssid st Hnd fuel 0 t);
      [reflexivity|lia|lia|].
    intros k Hk. apply Hall. lia.
  - split; reflexivity.
Qed.

(** The laboratory's surveys {X}, {X}, {}, {}, {}, {}: the wait returns,
    departure is declared, and the SSID was absent from surveys 5, 4 and 3. *)
Lemma C1_convergence_detection_witness :
  3 <= 5 /\
  forall j, j < 3 ->
    lab_factory_ssid ∉
      visible lab_survey_ssid "shelly"
        (o_cmd (scan_oracle [[lab_factory_ssid]; [lab_factory_ssid]; []; []; []; []])
           (0 + 2 * (5 - j) - 1) "192.168.1.1" SiteSurvey).
Proof.
  pose proof (C1_convergence_detection
                (scan_oracle [[lab_factory_ssid]; [lab_factory_ssid]; []; []; []; []])
                lab_survey_ssid 0 (lab_node "192.168.1.1" true true "ap") "shelly"
                lab_factory_ssid [lab_node "192.168.1.1" true true "ap"] 0 eq_refl)
    as (_ & H & _).
  refine (proj1 (proj2 (proj2 (proj2
            (H 60 3 5 (poll_trace "192.168.1.1" 5)
               [lab_node "192.168.1.1" true true "ap"] _)))) eq_refl).
  reflexivity.
Defined.

(** C5: once the connections exist, an AP-only router and a STA-only
    router, in either order and whatever their current modes, are assigned
    the AP slot and the STA slot respectively; a single router capable of
    both roles is returned, as one and the same connection object, for both
    slots. *)
Theorem C5_role_assignment (o : oracle) (router_db : dict) (names : list string)
    (t : nat) (st : list node) (tr : list event) (ns : list node) :
  connect_all o router_db names t st = (Ret tt, tr, ns) ->
  (forall a s,
     ap_capable a = true -> sta_capable a = false ->
     ap_capable s = false -> sta_capable s = true ->
     ns = [a; s] \/ ns = [s; a] ->
     exists ap sta,
       ddwrt_choose_roles o router_db names t st = (Ret (ap, sta), tr, ns) /\
       ns !! ap = Some a /\ ns !! sta = Some s) /\
  (forall d,
     ap_capable d = true -> sta_capable d = true -> ns = [d] ->
     exists cn,
       ddwrt_choose_roles o router_db names t st = (Ret (cn, cn), tr, ns) /\
       ns !! cn = Some d).
Proof.
  intros H. split.
  - intros a s Ha1 Ha2 Hs1 Hs2 Hns.
    destruct (choose_roles_split o router_db names t st tr ns a s H Ha1 Ha2 Hs1 Hs2)
      as [H1 H2].
    destruct Hns as [Hns|Hns].
    + exists 0, 1. rewrite (H1 Hns), Hns. done.
    + exists 1, 0. rewrite (H2 Hns), Hns. done.
  - intros d Hd1 Hd2 ->. exists 0.
    rewrite (choose_roles_single o router_db names t st tr d H Hd1 Hd2). done.
Qed.

(** The connections of a laboratory run, the routers reporting [mode]. *)
Lemma lab_connect (mode : string) (names : list string) (ns : list node) :
  snd (connect_all (lab_oracle mode 0) lab_router_db names 0 []) = ns ->
  fst (fst (connect_all (lab_oracle mode 0) lab_router_db names 0 [])) = Ret tt ->
  connect_all (lab_oracle mode 0) lab_router_db names 0 [] =
    (Ret tt, snd (fst (connect_all (lab_oracle mode 0) lab_router_db names 0 [])), ns).
Proof.
  destruct (connect_all _ _ _ _ _) as [[r tr] s]. cbn. intros -> ->. reflexivity.
Qed.

(** The STA-only router named first and the AP-only router second, both
    reporting STA mode; and the dual-capable router alone. *)
Lemma C5_role_assignment_witness :
  (exists ap sta tr,
     let ns := [lab_node "192.168.1.3" false true "sta";
                lab_node "192.168.1.2" true false "sta"] in
     ddwrt_choose_roles (lab_oracle "sta" 0) lab_router_db ["staonly"; "aponly"] 0 []
       = (Ret (ap, sta), tr, ns) /\
     ns !! ap = Some (lab_node "192.168.1.2" true false "sta") /\
     ns !! sta = Some (lab_node "192.168.1.3" false true "sta")) /\
  (exists cn tr,
     let ns := [lab_node "192.168.1.1" true true "ap"] in
     ddwrt_choose_roles (lab_oracle "ap" 0) lab_router_db ["both"] 0 []
       = (Ret (cn, cn), tr, ns) /\
     ns !! cn = Some (lab_node "192.168.1.1" true true "ap")).
Proof.
  split.
  - destruct (proj1 (C5_role_assignment (lab_oracle "sta" 0) lab_router_db
                       ["staonly"; "aponly"] 0 [] _ _
                       (lab_connect "sta" ["staonly"; "aponly"]
                          [lab_node "192.168.1.3" false true "sta";
                           lab_node "192.168.1.2" true false "sta"]
                          ltac:(reflexivity) ltac:(reflexivity)))
                    (lab_node "192.168.1.2" true false "sta")
                    (lab_node "192.168.1.3" false true "sta")
                    ltac:(reflexivity) ltac:(reflexivity)
                    ltac:(reflexivity) ltac:(reflexivity)
                    (or_intror eq_refl))
      as (ap & sta & H). exists ap, sta. eexists. exact H.
  - destruct (proj2 (C5_role_assignment (lab_oracle "ap" 0) lab_router_db
                       ["both"] 0 [] _ _
                       (lab_connect "ap" ["both"] [lab_node "192.168.1.1" true true "ap"]
                          ltac:(reflexivity) ltac:(reflexivity)))
                    (lab_node "192.168.1.1" true true "ap")
                    ltac:(reflexivity) ltac:(reflexivity) eq_refl)
      as (cn & H). exists cn. eexists. exact H.
Defined.

Lemma queue_not_empty (dq : list dict) : Nat.eqb (length dq) 0 = false -> dq <> [].
Proof. intros H ->. discriminate H. Qed.

Lemma capable_or_not (ns : list node) :
  Forall (fun n => ap_capable n = false) ns \/ Exists (fun n => ap_capable n = true) ns.
Proof.
  induction ns as [|n ns [IH|IH]].
  - left. constructor.
  - destruct (ap_capable n) eqn:E; [right; by constructor|left; by constructor].
  - right. by constructor 2.
Qed.

(** C6: when the connections exist and none of the routers is AP-capable,
    or none is STA-capable, role assignment leaves through [sys.exit()]
    after its message, and so does [provision_list]: its run ends there,
    with nothing but the connections made, the instruction queue, the device
    records and both files untouched. *)
Theorem C6_missing_role_is_fatal (o : oracle) (json_loads : string -> option json)
    (survey_ssid : string -> string) (fuel : nat) (args : options) (router_db : dict)
    (new_version : option string) (t : nat) (w : world) (tr : list event)
    (ns : list node) :
  Nat.eqb (length (device_queue w)) 0 = false ->
  queue_ready (device_queue w) (a_group args) false = true ->
  connect_all o router_db (a_ddwrt_name args) t (nodes w) = (Ret tt, tr, ns) ->
  Forall (fun n => ap_capable n = false) ns \/
  Forall (fun n => sta_capable n = false) ns ->
  exists x,
    (x = ExitNoApCapable \/ x = ExitNoStaCapable) /\
    (x = ExitNoApCapable <-> Forall (fun n => ap_capable n = false) ns) /\
    ddwrt_choose_roles o router_db (a_ddwrt_name args) t (nodes w) = (Exit x, tr, ns) /\
    provision_list o json_loads survey_ssid fuel args router_db new_version t w =
      (Exit x, tr, set_nodes ns w).
Proof.
  intros Hne Hready Hconn Hnone. apply queue_not_empty in Hne.
  destruct (choose_roles_incapable o router_db _ t _ tr ns Hconn) as [Hap Hsta].
  destruct (capable_or_not ns) as [Hno|Hsome].
  - exists ExitNoApCapable. split; [by left|]. split; [done|].
    split; [exact (Hap Hno)|].
    rewrite (provision_list_roles o json_loads survey_ssid fuel args router_db
               new_version t w _ tr ns Hne Hready (Hap Hno)).
    reflexivity.
  - destruct Hnone as [Hno|Hno].
    { exfalso. apply Exists_exists in Hsome as (n & Hin & Hn).
      rewrite Forall_forall in Hno. rewrite (Hno n Hin) in Hn. discriminate Hn. }
    exists ExitNoStaCapable. split; [by right|]. split.
    { split; [discriminate|]. intros Hall. exfalso.
      apply Exists_exists in Hsome as (n & Hin & Hn).
      rewrite Forall_forall in Hall. rewrite (Hall n Hin) in Hn. discriminate Hn. }
    split; [exact (Hsta Hsome Hno)|].
    rewrite (provision_list_roles o json_loads survey_ssid fuel args router_db
               new_version t w _ tr ns Hne Hready (Hsta Hsome Hno)).
    reflexivity.
Qed.

(** The STA-only router alone, with one instruction queued. *)
Lemma C6_missing_role_is_fatal_witness :
  exists x,
    (x = ExitNoApCapable \/ x = ExitNoStaCapable) /\
    (x = ExitNoApCapable <->
     Forall (fun n => ap_capable n = false) [lab_node "192.168.1.3" false true "sta"]) /\
    ddwrt_choose_roles (lab_oracle "sta" 0) lab_router_db ["staonly"] 0 [] =
      (Exit x, snd (fst (connect_all (lab_oracle "sta" 0) lab_router_db ["staonly"] 0 [])),
       [lab_node "192.168.1.3" false true "sta"]) /\
    lab_run "sta" 0 ["staonly"] [lab_instruction "TestNet" "abc12cd34" 5] =
      (Exit x, snd (fst (connect_all (lab_oracle "sta" 0) lab_router_db ["staonly"] 0 [])),
       set_nodes [lab_node "192.168.1.3" false true "sta"]
         (lab_world [] [lab_instruction "TestNet" "abc12cd34" 5])).
Proof.
  apply (C6_missing_role_is_fatal (lab_oracle "sta" 0) lab_json_loads lab_survey_ssid 100
           (lab_args ["staonly"]) lab_router_db None 0
           (lab_world [] [lab_instruction "TestNet" "abc12cd34" 5])).
  - reflexivity.
  - reflexivity.
  - apply (lab_connect "sta" ["staonly"]); reflexivity.
  - left. repeat constructor.
Defined.

(** C10: two routers, each capable of both roles and neither currently in
    AP mode: role assignment takes element 0 of the empty list of routers in
    AP mode, which raises IndexError; nothing in [provision_list] catches
    it. *)
Theorem C10_no_router_in_ap_mode (o : oracle) (json_loads : string -> option json)
    (survey_ssid : string -> string) (fuel : nat) (args : options) (router_db : dict)
    (new_version : option string) (t : nat) (w : world) (tr : list event)
    (a b : node) :
  connect_all o router_db (a_ddwrt_name args) t (nodes w) = (Ret tt, tr, [a; b]) ->
  ap_capable a = true -> sta_capable a = true ->
  ap_capable b = true -> sta_capable b = true ->
  in_ap_mode a = false -> in_ap_mode b = false ->
  ddwrt_choose_roles o router_db (a_ddwrt_name args) t (nodes w) =
    (Raise IndexError, tr, [a; b]) /\
  (Nat.eqb (length (device_queue w)) 0 = false ->
   queue_ready (device_queue w) (a_group args) false = true ->
   provision_list o json_loads survey_ssid fuel args router_db new_version t w =
     (Raise IndexError, tr, set_nodes [a; b] w)).
Proof.
  intros Hconn Ha1 Ha2 Hb1 Hb2 Ha Hb.
  pose proof (choose_roles_no_current_ap o router_db _ t _ tr a b Hconn
                Ha1 Ha2 Hb1 Hb2 Ha Hb) as Hroles.
  split; [exact Hroles|]. intros Hne Hready. apply queue_not_empty in Hne.
  rewrite (provision_list_roles o json_loads survey_ssid fuel args router_db
             new_version t w _ tr _ Hne Hready Hroles).
  reflexivity.
Qed.

(** Two dual-capable routers that both report STA mode. *)
Lemma C10_no_router_in_ap_mode_witness :
  fst (fst (ddwrt_choose_roles (lab_oracle "sta" 0) lab_router_db ["both"; "both2"] 0 []))
    = Raise IndexError /\
  fst (fst (lab_run "sta" 0 ["both"; "both2"] [lab_instruction "TestNet" "abc12cd34" 5]))
    = Raise IndexError.
Proof.
  destruct (C10_no_router_in_ap_mode (lab_oracle "sta" 0) lab_json_loads lab_survey_ssid
              100 (lab_args ["both"; "both2"]) lab_router_db None 0
              (lab_world [] [lab_instruction "TestNet" "abc12cd34" 5]) _
              (lab_node "192.168.1.1" true true "sta")
              (lab_node "192.168.1.4" true true "sta")
              (lab_connect "sta" ["both"; "both2"] _
                 ltac:(reflexivity) ltac:(reflexivity))
              ltac:(reflexivity) ltac:(reflexivity)
              ltac:(reflexivity) ltac:(reflexivity)
              ltac:(reflexivity) ltac:(reflexivity))
    as [H1 H2].
  split.
  - cbn [a_ddwrt_name lab_args nodes lab_world] in H1. rewrite H1. reflexivity.
  - unfold lab_run.
    rewrite (H2 ltac:(reflexivity) ltac:(reflexivity)). reflexivity.
Defined.

(** C9: over a queue in which every instruction carries CompletedTime,
    [provision_list] leaves at its first check, before any connection is
    made: no interaction takes place, so neither file is written, and the
    queue and the device records in memory are as before.  The loop over
    the queue, were it run on such a queue, would skip every instruction:
    it returns the counts (0, 0) with no interaction and the stores
    unchanged. *)
Theorem C9_rerun_processes_nothing (o : oracle) (json_loads : string -> option json)
    (survey_ssid : string -> string) (fuel : nat) (args : options) (router_db : dict)
    (new_version : option string) (t : nat) (w : world) :
  Forall (fun rec => has_key rec "CompletedTime" = true) (device_queue w) ->
  provision_list o json_loads survey_ssid fuel args router_db new_version t w =
    (Exit (if Nat.eqb (length (device_queue w)) 0 then ExitQueueEmpty
           else ExitNothingReady), [], w) /\
  forall ap_node sta_node,
    provision_loop o json_loads survey_ssid fuel args new_version ap_node sta_node
      (seq 0 (length (device_queue w))) 0 0 t w = (Ret (0, 0), [], w).
Proof.
  intros Hall. split.
  - apply provision_list_all_complete, Hall.
  - intros ap_node sta_node. apply provision_loop_all_complete; [exact Hall|].
    apply Forall_forall. intros i Hi. apply elem_of_seq in Hi. lia.
Qed.

(** A queue of two instructions completed by an earlier run. *)
Lemma C9_rerun_processes_nothing_witness :
  let done := <["CompletedTime" := JNum 900]>
                (<["InProgressTime" := JNum 800]> (lab_instruction "TestNet" "abc12cd34" 5)) in
  lab_run "ap" 0 ["both"] [done; done] =
    (Exit ExitNothingReady, [], lab_world [] [done; done]).
Proof.
  apply (C9_rerun_processes_nothing (lab_oracle "ap" 0) lab_json_loads lab_survey_ssid 100
           (lab_args ["both"]) lab_router_db None 0).
  repeat constructor.
Defined.

(** C4: once the first read of "/ota" has answered with a status and a
    version, [flash_device] returns at once when the version is the
    requested one (SKIP, the function returns True), and otherwise returns
    at once when the status is "updating" (ABORT, the function returns
    False); in both cases the only interactions are those of that read:
    the update command is not among them. *)
Theorem C4_ota_precheck (o : oracle) {St : Type} (fuel : nat) (addr : string)
    (pause_time : Z) (ota : string) (ota_timeout : Z) (new_version : option string)
    (dry_run : bool) (t : nat) (s s' : St) (m : dict) (tr : list event)
    (status version : string) :
  get_url o pause_time (UOta addr) t s = (Ret (Some (JObj m)), tr, s') ->
  m !! "status" = Some (JStr status) ->
  m !! "old_version" = Some (JStr version) ->
  Forall (fun e => is_update e = false) tr /\
  (new_version = Some version ->
   flash_device o fuel addr pause_time ota ota_timeout new_version dry_run t s =
     (Ret OtaSkip, tr, s')) /\
  (new_version <> Some version -> status = "updating" ->
   flash_device o fuel addr pause_time ota ota_timeout new_version dry_run t s =
     (Ret OtaAbort, tr, s')) /\
  flash_returns OtaSkip = true /\ flash_returns OtaAbort = false.
Proof.
  intros Hread Hst Hv.
  pose proof (flash_device_precheck o fuel addr pause_time ota ota_timeout new_version
                dry_run t s m tr s' status version Hread Hst Hv) as H.
  split; [|split; [|split; [|done]]].
  - apply get_url_tries_inv in Hread as (_ & Htr & _).
    eapply update_free; [| |exact Htr]; discriminate.
  - intros Hnv. rewrite H, bool_decide_eq_true_2 by exact Hnv. reflexivity.
  - intros Hnv Hup. rewrite H, bool_decide_eq_false_2 by exact Hnv.
    rewrite bool_decide_eq_true_2 by exact Hup. reflexivity.
Qed.

(** A device at version v1 asked for v1, and a device that already shows
    "updating" asked for v2. *)
Lemma C4_ota_precheck_witness :
  flash_device (ota_oracle [("idle", "v1")]) 100 "10.0.0.7" 3 "fw.zip" 300 (Some "v1")
    false 0 tt = (Ret OtaSkip, [EvHttp (UOta "10.0.0.7")], tt) /\
  flash_device (ota_oracle [("updating", "v1")]) 100 "10.0.0.7" 3 "fw.zip" 300 (Some "v2")
    false 0 tt = (Ret OtaAbort, [EvHttp (UOta "10.0.0.7")], tt).
Proof.
  split.
  - refine (proj1 (proj2 (C4_ota_precheck (ota_oracle [("idle", "v1")]) 100 "10.0.0.7" 3
                            "fw.zip" 300 (Some "v1") false 0 tt tt _ _ "idle" "v1"
                            _ _ _)) eq_refl); reflexivity.
  - refine (proj1 (proj2 (proj2
              (C4_ota_precheck (ota_oracle [("updating", "v1")]) 100 "10.0.0.7" 3
                 "fw.zip" 300 (Some "v2") false 0 tt tt _ _ "updating" "v1"
                 _ _ _))) _ eq_refl);
      [reflexivity..|discriminate].
Defined.

Lemma flash_poll_next {St : Type} (o : oracle) (fuel : nat) (addr : string)
    (pause_time deadline : Z) (new_version : option string) (old_version : string)
    (seen : bool) (k : nat) (last : option json) (t0 : nat) (s : St) (st v : string) :
  poll_ok o addr deadline t0 k st v ->
  flash_poll o (S fuel) addr pause_time deadline new_version old_version seen k last
    (t0 + 3 * k) s =
    if bool_decide (st = "updating") then
      prepend (poll_events addr pause_time)
        (flash_poll o fuel addr pause_time deadline new_version old_version true
           (S k) (o_http o (t0 + 3 * k + 2) (UOta addr)) (t0 + 3 * S k) s)
    else if seen then
      (Ret (verdict new_version old_version v), poll_events addr pause_time, s)
    else if Nat.ltb 10 (S k) then
      (Ret OtaNeverUpdating, poll_events addr pause_time, s)
    else
      prepend (poll_events addr pause_time)
        (flash_poll o fuel addr pause_time deadline new_version old_version false
           (S k) (o_http o (t0 + 3 * k + 2) (UOta addr)) (t0 + 3 * S k) s).
Proof.
  intros [Hclock Hrep].
  rewrite (flash_poll_step o fuel addr pause_time deadline new_version old_version seen k
             last (t0 + 3 * k) s st v Hclock Hrep).
  replace (t0 + 3 * k + 3) with (t0 + 3 * S k) by lia. reflexivity.
Qed.

(** C3: a device that answered the first read with a status other than
    "updating" and the version v1, and that accepted the update command,
    is polled before the deadline.  With no requested version (LATEST) the
    polls (updating,v1), (updating,v1), (idle,v2) end in SUCCESS.  With a
    requested version, which is not empty and not v1, the polls
    (updating,v1), (idle,v1) end in FAILURE (the version has not changed).
    When none of the first 11 polls shows "updating", the 11th poll ends
    in TIMEOUT (the device has never shown status "updating"). *)
Theorem C3_ota_poll_classification (o : oracle) {St : Type} (s : St) (fuel : nat)
    (addr ota : string) (pause_time ota_timeout : Z) (t : nat) (v1 idle : string) :
  idle <> "updating" -> ota_timeout <> 0%Z ->
  reports (o_http o t (UOta addr)) idle v1 ->
  truthy_opt (o_http o (t + 1) (ota_url addr ota)) = true ->
  let deadline := (o_clock o (t + 2) + 1000 * ota_timeout)%Z in
  let start := [EvHttp (UOta addr); EvHttp (ota_url addr ota); EvTime] in
  let polls := fun n => concat (repeat (poll_events addr pause_time) n) in
  (forall v2, 3 <= fuel ->
     poll_ok o addr deadline (t + 3) 0 "updating" v1 ->
     poll_ok o addr deadline (t + 3) 1 "updating" v1 ->
     poll_ok o addr deadline (t + 3) 2 idle v2 ->
     flash_device o fuel addr pause_time ota ota_timeout None false t s =
       (Ret OtaSuccess, (start ++ polls 3)%list, s)) /\
  (forall rv, rv <> "" -> rv <> v1 -> 2 <= fuel ->
     poll_ok o addr deadline (t + 3) 0 "updating" v1 ->
     poll_ok o addr deadline (t + 3) 1 idle v1 ->
     flash_device o fuel addr pause_time ota ota_timeout (Some rv) false t s =
       (Ret OtaUnchanged, (start ++ polls 2)%list, s)) /\
  (forall nv, nv <> Some v1 -> 11 <= fuel ->
     (forall k, k <= 10 ->
        exists st v, st <> "updating" /\ poll_ok o addr deadline (t + 3) k st v) ->
     flash_device o fuel addr pause_time ota ota_timeout nv false t s =
       (Ret OtaNeverUpdating, (start ++ polls 11)%list, s)) /\
  flash_returns OtaSuccess = true /\ flash_returns OtaUnchanged = false /\
  flash_returns OtaNeverUpdating = false.
Proof.
  intros Hidle Htm Hrep Hsent deadline start polls.
  assert (Hstart : forall nv, nv <> Some v1 ->
            flash_device o fuel addr pause_time ota ota_timeout nv false t s =
              prepend start
                (flash_poll o fuel addr pause_time deadline nv v1 false 0 None
                   (t + 3 + 3 * 0) s)).
  { intros nv Hnv. rewrite Nat.mul_0_r, Nat.add_0_r.
    apply (flash_device_start o fuel addr pause_time ota ota_timeout nv t s idle v1);
      assumption. }
  split; [|split; [|split; [|done]]].
  - intros v2 Hf H0 H1 H2. rewrite Hstart by discriminate.
    destruct fuel as [|[|[|fuel]]]; try lia.
    rewrite (flash_poll_next o _ _ _ _ _ _ _ _ _ _ _ _ _ H0).
    rewrite bool_decide_eq_true_2 by reflexivity.
    rewrite (flash_poll_next o _ _ _ _ _ _ _ _ _ _ _ _ _ H1).
    rewrite bool_decide_eq_true_2 by reflexivity.
    rewrite (flash_poll_next o _ _ _ _ _ _ _ _ _ _ _ _ _ H2).
    rewrite bool_decide_eq_false_2 by exact Hidle.
    reflexivity.
  - intros rv Hrv Hne Hf H0 H1. rewrite Hstart by congruence.
    destruct fuel as [|[|fuel]]; try lia.
    rewrite (flash_poll_next o _ _ _ _ _ _ _ _ _ _ _ _ _ H0).
    rewrite bool_decide_eq_true_2 by reflexivity.
    rewrite (flash_poll_next o _ _ _ _ _ _ _ _ _ _ _ _ _ H1).
    rewrite bool_decide_eq_false_2 by exact Hidle.
    unfold verdict, no_version. rewrite bool_decide_eq_false_2 by exact Hrv.
    rewrite bool_decide_eq_true_2 by reflexivity. reflexivity.
  - intros nv Hnv Hf Hall. rewrite Hstart by exact Hnv.
    pose proof (never_updating o addr pause_time deadline nv v1 s (t + 3) Hall
                  10 fuel None ltac:(lia) ltac:(lia)) as H.
    rewrite Nat.sub_diag in H. rewrite H. reflexivity.
Qed.

Lemma ota_poll (answers : list (string * string)) (addr : string) (deadline : Z)
    (k : nat) (st v : string) :
  (0 <? deadline)%Z = true ->
  answers !! S k = Some (st, v) ->
  poll_ok (ota_oracle answers) addr deadline 3 k st v.
Proof.
  intros Hd Hk. split; [apply Z.ltb_lt, Hd|].
  exists (<["status" := JStr st]> (<["old_version" := JStr v]> ∅)).
  split; [|done]. cbn [o_http ota_oracle].
  replace (Nat.eqb (3 + 3 * k + 2) 0) with false by (symmetry; apply Nat.eqb_neq; lia).
  replace ((3 + 3 * k + 2 - 2) / 3) with (S k)
    by (apply Nat.div_unique with 0; lia).
  rewrite Hk. reflexivity.
Qed.

(** The three sequences of answers, the first answer being that of the
    first read: (idle,v1), (updating,v1), (updating,v1), (idle,v2) with no
    requested version; (idle,v1), (updating,v1), (idle,v1) with v2
    requested; twelve times (idle,v1) with v2 requested. *)
Lemma C3_ota_poll_classification_witness :
  fst (fst (flash_device
              (ota_oracle [("idle", "v1"); ("updating", "v1"); ("updating", "v1");
                           ("idle", "v2")])
              100 "10.0.0.7" 3 "LATEST" 300 None false 0 tt)) = Ret OtaSuccess /\
  fst (fst (flash_device
              (ota_oracle [("idle", "v1"); ("updating", "v1"); ("idle", "v1")])
              100 "10.0.0.7" 3 "fw.zip" 300 (Some "v2") false 0 tt)) = Ret OtaUnchanged /\
  fst (fst (flash_device (ota_oracle (repeat ("idle", "v1") 12))
              100 "10.0.0.7" 3 "fw.zip" 300 (Some "v2") false 0 tt))
    = Ret OtaNeverUpdating.
Proof.
  split; [|split].
  - rewrite (proj1 (C3_ota_poll_classification
                      (ota_oracle [("idle", "v1"); ("updating", "v1"); ("updating", "v1");
                                   ("idle", "v2")])
                      tt 100 "10.0.0.7" "LATEST" 3 300 0 "v1" "idle"
                      ltac:(discriminate) ltac:(discriminate)
                      ltac:(eexists; split; [reflexivity|split; reflexivity])
                      ltac:(reflexivity))
                   "v2" ltac:(lia)
                   ltac:(apply ota_poll; reflexivity)
                   ltac:(apply ota_poll; reflexivity)
                   ltac:(apply ota_poll; reflexivity)).
    reflexivity.
  - rewrite (proj1 (proj2 (C3_ota_poll_classification
                      (ota_oracle [("idle", "v1"); ("updating", "v1"); ("idle", "v1")])
                      tt 100 "10.0.0.7" "fw.zip" 3 300 0 "v1" "idle"
                      ltac:(discriminate) ltac:(discriminate)
                      ltac:(eexists; split; [reflexivity|split; reflexivity])
                      ltac:(reflexivity)))
                   "v2" ltac:(discriminate) ltac:(discriminate) ltac:(lia)
                   ltac:(apply ota_poll; reflexivity)
                   ltac:(apply ota_poll; reflexivity)).
    reflexivity.
  - rewrite (proj1 (proj2 (proj2 (C3_ota_poll_classification
                      (ota_oracle (repeat ("idle", "v1") 12))
                      tt 100 "10.0.0.7" "fw.zip" 3 300 0 "v1" "idle"
                      ltac:(discriminate) ltac:(discriminate)
                      ltac:(eexists; split; [reflexivity|split; reflexivity])
                      ltac:(reflexivity))))
                   (Some "v2") ltac:(discriminate) ltac:(lia)).
    + reflexivity.
    + intros k Hk. exists "idle", "v1". split; [discriminate|].
      apply ota_poll; [reflexivity|].
      do 11 (destruct k as [|k]; [reflexivity|]). lia.
Defined.

(** Against a bound of 10 checks: the first read and the first ten polls
    answer (idle,v1), the eleventh poll answers (updating,v1) and the
    twelfth (idle,v2).  The device has not reported "updating" within ten
    checks, and the update is still declared a success. *)
Lemma C3_updating_at_eleventh_check :
  let answers := (repeat ("idle", "v1") 11 ++ [("updating", "v1"); ("idle", "v2")])%list in
  forallb (fun p => negb (bool_decide (fst p = "updating"))) (take 11 answers) = true /\
  fst (fst (flash_device (ota_oracle answers) 100 "10.0.0.7" 3 "LATEST" 300 None
              false 0 tt)) = Ret OtaSuccess /\
  flash_returns OtaSuccess = true.
Proof. vm_compute. repeat split; reflexivity. Qed.

(** C7: when the connection's current mode is the requested one,
    [ddwrt_program_mode] leaves the connection object as it is and issues
    none of the interactions of the full apply (the ApplyTake request, the
    pause, the resynchronisation, the radio cycle); when it returns, what it
    issued are the commands that write, delete and commit the
    configuration keys, followed by the one service-restart command.  In
    particular this is what a second [ddwrt_set_ap_mode] does on a
    connection on which a first one has returned. *)
Theorem C7_same_role_fast_path (o : oracle) (cn : nat) (nd : node) (st : list node) :
  st !! cn = Some nd ->
  (forall pgm from_db deletes mode t r tr st',
     literal_get pgm "wl_mode" = Some mode ->
     same_mode (n_current_mode nd) mode = true ->
     ddwrt_program_mode o cn pgm from_db deletes t st = (r, tr, st') ->
     st' = st /\
     Forall (fun e => is_full_apply e = false) tr /\
     (r = Ret tt ->
      exists prep, tr = (prep ++ [EvCmd (n_conn nd) RestartWireless])%list /\
                   Forall (fun e => is_prep e = true) prep)) /\
  (forall ssid pw ssid' pw' t tr1 st1 t' r tr2 st2,
     ddwrt_set_ap_mode o cn ssid pw t st = (Ret tt, tr1, st1) ->
     ddwrt_set_ap_mode o cn ssid' pw' t' st1 = (r, tr2, st2) ->
     st2 = st1 /\
     Forall (fun e => is_full_apply e = false) tr2 /\
     (r = Ret tt ->
      exists prep, tr2 = (prep ++ [EvCmd (n_conn nd) RestartWireless])%list /\
                   Forall (fun e => is_prep e = true) prep)).
Proof.
  intros Hnd. split.
  - intros pgm from_db deletes mode t r tr st' Hmode Hsame H.
    destruct (program_mode_same o cn nd pgm from_db deletes mode t st r tr st'
                Hnd Hmode Hsame H) as (H1 & H2 & H3).
    split; [exact H1|]. split; [exact H2|]. intros ->. apply H3. reflexivity.
  - intros ssid pw ssid' pw' t tr1 st1 t' r tr2 st2 H1 H2.
    unfold ddwrt_set_ap_mode in H1, H2.
    assert (forall s p, literal_get (ap_program s p) "wl_mode" = Some (JStr "ap"))
      as Hmode by reflexivity.
    destruct (program_mode_ret o cn nd _ _ _ "ap" t st tr1 st1 Hnd (Hmode ssid pw) H1)
      as (nd' & Hnd' & Hconn & _ & Hsame).
    destruct (program_mode_same o cn nd' _ _ _ (JStr "ap") t' st1 r tr2 st2
                Hnd' (Hmode ssid' pw') Hsame H2) as (G1 & G2 & G3).
    split; [exact G1|]. split; [exact G2|]. intros ->. rewrite <- Hconn.
    apply G3. reflexivity.
Qed.

(** A laboratory router in STA mode set to AP mode twice: the first call
    goes through the full apply, the second does not. *)
Lemma C7_same_role_fast_path_witness :
  let o := lab_oracle "sta" 0 in
  let st := [lab_node "192.168.1.1" true true "sta"] in
  let first := ddwrt_set_ap_mode o 0 (JStr "TestNet") (JStr "abc12cd34") 0 st in
  let second := ddwrt_set_ap_mode o 0 (JStr "TestNet") (JStr "abc12cd34")
                  (length (snd (fst first))) (snd first) in
  existsb is_full_apply (snd (fst first)) = true /\
  snd second = snd first /\
  Forall (fun e => is_full_apply e = false) (snd (fst second)) /\
  (fst (fst second) = Ret tt ->
   exists prep, snd (fst second) = (prep ++ [EvCmd "192.168.1.1" RestartWireless])%list /\
                Forall (fun e => is_prep e = true) prep).
Proof.
  intros o st first second. split; [vm_compute; reflexivity|].
  apply (proj2 (C7_same_role_fast_path o 0 (lab_node "192.168.1.1" true true "sta") st
                  eq_refl)
           (JStr "TestNet") (JStr "abc12cd34") (JStr "TestNet") (JStr "abc12cd34")
           0 (snd (fst first)) (snd first) (length (snd (fst first)))
           (fst (fst second)) (snd (fst second)) (snd second)).
  - apply run_eta. vm_compute. reflexivity.
  - apply run_eta. reflexivity.
Defined.






(** * Further properties *)

(** ** Retries *)

Section Retries.
Variable o : oracle.




(** One pass of the loop of [ddwrt_wget]. *)
Lemma wget_loop_step (left : nat) (conn : string) (u : url) t (st : list node) :
  fst (o_cmd o t conn (Wget u)) <> [] ->
  wget_loop o left conn u t st =
    match left with
    | 0 => (Ret (o_cmd o t conn (Wget u)), [EvCmd conn (Wget u)], st)
    | S left' =>
        if bool_decide (fst (o_cmd o t conn (Wget u)) = [""])
        then prepend [EvCmd conn (Wget u); EvSleep 2000]
               (wget_loop o left' conn u (t + 2) st)
        else (Ret (o_cmd o t conn (Wget u)), [EvCmd conn (Wget u)], st)
    end.
Proof.
  intros Hne.
  assert (Hcmd : ddwrt_do_cmd (St := list node) o conn (Wget u) t st =
                 (Ret (o_cmd o t conn (Wget u)), [EvCmd conn (Wget u)], st))
    by reflexivity.
  assert (Hone : forall (r0 : string) t' (s : list node),
             (r <- orraise IndexError (py_index [r0] 0) ;;
              ret (negb (bool_decide (r = ""))) : M (list node) bool) t' s =
             (Ret (negb (bool_decide (r0 = ""))), [], s)) by reflexivity.
  destruct (o_cmd o t conn (Wget u)) as [result err] eqn:E. cbn [fst] in *.
  destruct result as [|r0 [|r1 rest]]; [done| |].
  - destruct left as [|left]; cbn [wget_loop];
      rewrite (bind_run _ _ _ _ _ _ _ Hcmd); cbn [length fst Nat.ltb Nat.leb];
      rewrite (bind_run _ _ _ _ _ _ _ (Hone r0 _ _)); cbn [length app prepend];
      rewrite Nat.add_0_r; [reflexivity|].
    destruct (decide (r0 = "")) as [->|Hr].
    + rewrite !bool_decide_eq_true_2 by reflexivity. cbn [negb].
      erewrite bind_run by reflexivity. cbn [length].
      replace (t + 1 + 1) with (t + 2) by lia.
      rewrite !prepend_prepend. reflexivity.
    + rewrite (bool_decide_eq_false_2 (r0 = "")) by exact Hr.
      rewrite bool_decide_eq_false_2 by congruence. reflexivity.
  - destruct left as [|left]; cbn [wget_loop];
      rewrite (bind_run _ _ _ _ _ _ _ Hcmd); cbn [length fst Nat.ltb Nat.leb];
      erewrite bind_run by reflexivity; cbn [length app prepend]; [reflexivity|].
    rewrite bool_decide_eq_false_2 by discriminate. reflexivity.
Qed.

Lemma wget_loop_found (conn : string) (u : url) (st : list node) (n : nat) :
  forall left t, n <= left ->
    (forall i, i < n -> fst (o_cmd o (t + 2 * i) conn (Wget u)) = [""]) ->
    fst (o_cmd o (t + 2 * n) conn (Wget u)) <> [""] ->
    fst (o_cmd o (t + 2 * n) conn (Wget u)) <> [] ->
    wget_loop o left conn u t st =
      (Ret (o_cmd o (t + 2 * n) conn (Wget u)),
       (failed_wgets conn u n ++ [EvCmd conn (Wget u)])%list, st).
Proof.
  induction n as [|n IH]; intros left t Hle Hfail Hok Hne.
  - rewrite Nat.mul_0_r, Nat.add_0_r in *.
    rewrite wget_loop_step by exact Hne.
    destruct left; [reflexivity|]. rewrite bool_decide_eq_false_2 by exact Hok.
    reflexivity.
  - destruct left as [|left]; [lia|].
    pose proof (Hfail 0 ltac:(lia)) as H0. rewrite Nat.mul_0_r, Nat.add_0_r in H0.
    rewrite wget_loop_step by (rewrite H0; discriminate).
    rewrite bool_decide_eq_true_2 by exact H0.
    rewrite (IH left (t + 2)); [| lia | | |].
    + replace (t + 2 + 2 * n) with (t + 2 * S n) by lia. reflexivity.
    + intros i Hi. replace (t + 2 + 2 * i) with (t + 2 * S i) by lia.
      apply Hfail. lia.
    + replace (t + 2 + 2 * n) with (t + 2 * S n) by lia. exact Hok.
    + replace (t + 2 + 2 * n) with (t + 2 * S n) by lia. exact Hne.
Qed.

Lemma wget_loop_exhausted (conn : string) (u : url) (st : list node) (left : nat) :
  forall t,
    (forall i, i <= left -> fst (o_cmd o (t + 2 * i) conn (Wget u)) = [""]) ->
    wget_loop o left conn u t st =
      (Ret (o_cmd o (t + 2 * left) conn (Wget u)),
       (failed_wgets conn u left ++ [EvCmd conn (Wget u)])%list, st).
Proof.
  induction left as [|left IH]; intros t Hfail;
    pose proof (Hfail 0 ltac:(lia)) as H0; rewrite Nat.mul_0_r, Nat.add_0_r in H0;
    rewrite wget_loop_step by (rewrite H0; discriminate).
  - rewrite Nat.mul_0_r, Nat.add_0_r. reflexivity.
  - rewrite bool_decide_eq_true_2 by exact H0.
    rewrite (IH (t + 2)).
    + replace (t + 2 + 2 * left) with (t + 2 * S left) by lia. reflexivity.
    + intros i Hi. replace (t + 2 + 2 * i) with (t + 2 * S i) by lia.
      apply Hfail. lia.
Qed.

(** X2 (ddwrt_wget): the request is repeated, with a pause of two seconds,
    as long as the answer is a single empty line; the first other answer is
    returned at once, and after [tries] unanswered requests the answer to
    one more request is returned whatever it is: never more than
    [tries + 1] requests, and no pause after the last one. *)
Theorem ddwrt_wget_retries (cn : nat) (nd : node) (u : url) (tries : nat) (t : nat)
    (st : list node) :
  st !! cn = Some nd ->
  (forall n, n <= tries ->
     (forall i, i < n -> fst (o_cmd o (t + 2 * i) (n_conn nd) (Wget u)) = [""]) ->
     fst (o_cmd o (t + 2 * n) (n_conn nd) (Wget u)) <> [""] ->
     fst (o_cmd o (t + 2 * n) (n_conn nd) (Wget u)) <> [] ->
     ddwrt_wget o cn u tries t st =
       (Ret (o_cmd o (t + 2 * n) (n_conn nd) (Wget u)),
        (failed_wgets (n_conn nd) u n ++ [EvCmd (n_conn nd) (Wget u)])%list, st)) /\
  ((forall i, i <= tries -> fst (o_cmd o (t + 2 * i) (n_conn nd) (Wget u)) = [""]) ->
   ddwrt_wget o cn u tries t st =
     (Ret (o_cmd o (t + 2 * tries) (n_conn nd) (Wget u)),
      (failed_wgets (n_conn nd) u tries ++ [EvCmd (n_conn nd) (Wget u)])%list, st)).
Proof.
  intros Hnd. unfold ddwrt_wget.
  rewrite (bind_run _ _ _ _ _ _ _ (node_at_run cn nd t st Hnd)).
  cbn [length]. rewrite Nat.add_0_r. split.
  - intros n Hn Hfail Hok Hne.
    rewrite (wget_loop_found (n_conn nd) u st n tries t Hn Hfail Hok Hne). reflexivity.
  - intros Hfail. rewrite (wget_loop_exhausted (n_conn nd) u st tries t Hfail). reflexivity.
Qed.

End Retries.


(** A device that answers the router from tick 4 on is reached by the
    third request; with two retries allowed and a device that never
    answers, the empty answer of the third request is returned. *)
Lemma ddwrt_wget_retries_witness :
  let u := UStatus factory_device_addr in
  let nd := lab_node "192.168.1.3" false true "sta" in
  ddwrt_wget (late_oracle 4) 0 u 10 0 [nd] =
    (Ret (["{}"; ""], ""),
     (failed_wgets "192.168.1.3" u 2 ++ [EvCmd "192.168.1.3" (Wget u)])%list, [nd]) /\
  ddwrt_wget (late_oracle 100) 0 u 2 0 [nd] =
    (Ret ([""], ""),
     (failed_wgets "192.168.1.3" u 2 ++ [EvCmd "192.168.1.3" (Wget u)])%list, [nd]).
Proof.
  intros u nd.
  destruct (ddwrt_wget_retries (late_oracle 4) 0 nd u 10 0 [nd] eq_refl) as [H1 _].
  destruct (ddwrt_wget_retries (late_oracle 100) 0 nd u 2 0 [nd] eq_refl) as [_ H2].
  split.
  - apply (H1 2); [lia| |discriminate|discriminate].
    intros i Hi. destruct i as [|[|i]]; [reflexivity|reflexivity|lia].
  - apply H2. intros i Hi. do 3 (destruct i as [|i]; [reflexivity|]). lia.
Defined.

(** ** Connecting to a router and choosing the roles *)

Section Connect.
Variable o : oracle.

Lemma single_line_run {St} (conn : string) (c : cmd) (line : string) t (s : St) :
  single_line (o_cmd o t conn c) line ->
  ddwrt_get_single_line_result o conn c t s = (Ret line, [EvCmd conn c], s).
Proof.
  intros (Herr & Hlen & Hhead). unfold ddwrt_get_single_line_result, ddwrt_do_cmd.
  erewrite bind_run by reflexivity. cbn [length].
  destruct (o_cmd o t conn c) as [result err]. cbn [fst snd] in *. subst err.
  rewrite bool_decide_eq_true_2 by reflexivity. cbn [negb].
  replace (Nat.ltb 2 (length result)) with false
    by (symmetry; apply Nat.ltb_ge; exact Hlen).
  destruct result as [|r0 rest]; [discriminate|]. injection Hhead as ->.
  reflexivity.
Qed.

(** X3 (ddwrt_connect_to_known_router): a name that is not in the router
    db ends the program before any interaction; an entry that is not an
    object (such as the "format" marker of the file) raises TypeError
    before any interaction; and when the router at the stored address
    reports another et0macaddr than the stored one, the program ends
    after the telnet session was opened and that one value read, without
    the wireless mode being read. *)
Theorem ddwrt_connect_refuses {St : Type} (router_db : dict) (name : string)
    (t : nat) (s : St) :
  (router_db !! name = None ->
   ddwrt_connect_to_known_router o router_db name t s = (Exit ExitUnknownRouter, [], s)) /\
  (forall j, router_db !! name = Some j -> (forall r, j <> JObj r) ->
   ddwrt_connect_to_known_router o router_db name t s = (Raise TypeError, [], s)) /\
  (forall r address mac reported,
     router_db !! name = Some (JObj r) ->
     r !! "address" = Some (JStr address) -> is_Some (r !! "password") ->
     r !! "et0macaddr" = Some mac ->
     o_ok o t = true ->
     single_line (o_cmd o (t + 2) address (NvramGet "et0macaddr")) reported ->
     eq_str mac reported = false ->
     ddwrt_connect_to_known_router o router_db name t s =
       (Exit ExitWrongRouter,
        [EvTelnetOpen address; EvSync address; EvCmd address (NvramGet "et0macaddr")], s)).
Proof.
  split; [|split].
  - intros H. unfold ddwrt_connect_to_known_router. rewrite H. reflexivity.
  - intros j H Hj. unfold ddwrt_connect_to_known_router. rewrite H.
    destruct j; try reflexivity. destruct (Hj m eq_refl).
  - intros r address mac reported H Ha [pw Hp] Hm Hok Hline Hne.
    unfold ddwrt_connect_to_known_router. rewrite H.
    rewrite (bind_run _ _ _ _ _ _ _ (jget_run r "address" _ t s Ha)). cbn [length jstr].
    erewrite bind_run by reflexivity. cbn [length].
    rewrite (bind_run _ _ _ _ _ _ _ (jget_run r "password" _ _ s Hp)). cbn [length].
    rewrite !Nat.add_0_r.
    erewrite (bind_run (ddwrt_establish_connection o address)).
    2:{ unfold ddwrt_establish_connection, io_ok, ddwrt_sync_connection, bind, ask, emit.
        rewrite Hok. cbn. reflexivity. }
    cbn [length]. replace (t + 0 + 0 + 2) with (t + 2) by lia.
    rewrite (bind_run _ _ _ _ _ _ _ (single_line_run _ _ _ _ _ Hline)). cbn [length].
    rewrite (bind_run _ _ _ _ _ _ _ (jget_run r "et0macaddr" _ _ s Hm)). cbn [length].
    rewrite Hne. reflexivity.
Qed.

Lemma connect_known_run {St : Type} (router_db : dict) (name : string)
    (t : nat) (s : St) (r : dict) (address reported mode : string) (mac : json) :
  router_db !! name = Some (JObj r) ->
  r !! "address" = Some (JStr address) -> is_Some (r !! "password") ->
  r !! "et0macaddr" = Some mac ->
  o_ok o t = true ->
  single_line (o_cmd o (t + 2) address (NvramGet "et0macaddr")) reported ->
  eq_str mac reported = true ->
  single_line (o_cmd o (t + 3) address (NvramGet "wl_mode")) mode ->
  ddwrt_connect_to_known_router o router_db name t s =
    (Ret {| n_conn := address; n_router := r; n_current_mode := JStr mode |},
     [EvTelnetOpen address; EvSync address; EvCmd address (NvramGet "et0macaddr");
      EvCmd address (NvramGet "wl_mode")], s).
Proof.
  intros H Ha [pw Hp] Hm Hok Hline Heq Hmode.
  unfold ddwrt_connect_to_known_router. rewrite H.
  rewrite (bind_run _ _ _ _ _ _ _ (jget_run r "address" _ t s Ha)). cbn [length jstr].
  erewrite bind_run by reflexivity. cbn [length].
  rewrite (bind_run _ _ _ _ _ _ _ (jget_run r "password" _ _ s Hp)). cbn [length].
  rewrite !Nat.add_0_r.
  erewrite (bind_run (ddwrt_establish_connection o address)).
  2:{ unfold ddwrt_establish_connection, io_ok, ddwrt_sync_connection, bind, ask, emit.
      rewrite Hok. cbn. reflexivity. }
  cbn [length]. replace (t + 0 + 0 + 2) with (t + 2) by lia.
  rewrite (bind_run _ _ _ _ _ _ _ (single_line_run _ _ _ _ _ Hline)). cbn [length].
  rewrite (bind_run _ _ _ _ _ _ _ (jget_run r "et0macaddr" _ _ s Hm)). cbn [length].
  rewrite Heq. cbn [negb].
  replace (t + 2 + 1 + 0) with (t + 3) by lia.
  rewrite (bind_run _ _ _ _ _ _ _ (single_line_run _ _ _ _ _ Hmode)). reflexivity.
Qed.

(** X4 (ddwrt_connect_to_known_router): when the router at the stored
    address reports the stored et0macaddr, the connection object carries
    the db entry itself and, as current mode, the wl_mode the router
    reports, after exactly four interactions. *)
Theorem ddwrt_connect_returns {St : Type} (router_db : dict) (name : string)
    (t : nat) (s : St) (r : dict) (address reported mode : string) (mac : json) :
  router_db !! name = Some (JObj r) ->
  r !! "address" = Some (JStr address) -> is_Some (r !! "password") ->
  r !! "et0macaddr" = Some mac ->
  o_ok o t = true ->
  single_line (o_cmd o (t + 2) address (NvramGet "et0macaddr")) reported ->
  eq_str mac reported = true ->
  single_line (o_cmd o (t + 3) address (NvramGet "wl_mode")) mode ->
  ddwrt_connect_to_known_router o router_db name t s =
    (Ret {| n_conn := address; n_router := r; n_current_mode := JStr mode |},
     [EvTelnetOpen address; EvSync address; EvCmd address (NvramGet "et0macaddr");
      EvCmd address (NvramGet "wl_mode")], s).
Proof. apply connect_known_run. Qed.

End Connect.

Section Preference.
Variable o : oracle.

(** X5 (ddwrt_choose_roles): of two routers that are each capable of both
    roles, exactly one of which is currently in AP mode, the one in AP
    mode gets the AP slot and the other one the STA slot, in either order
    of the names. *)
Theorem ddwrt_choose_roles_keeps_ap (router_db : dict) (names : list string)
    (t : nat) (st : list node) (tr : list event) (ns : list node) (a s : node) :
  connect_all o router_db names t st = (Ret tt, tr, ns) ->
  ap_capable a = true -> sta_capable a = true ->
  ap_capable s = true -> sta_capable s = true ->
  in_ap_mode a = true -> in_ap_mode s = false ->
  ns = [a; s] \/ ns = [s; a] ->
  exists ap sta,
    ddwrt_choose_roles o router_db names t st = (Ret (ap, sta), tr, ns) /\
    ns !! ap = Some a /\ ns !! sta = Some s.
Proof.
  unfold ap_capable, sta_capable, in_ap_mode.
  intros H Ha1 Ha2 Hs1 Hs2 Ha Hs Hns.
  rewrite (choose_roles_after_connect _ _ _ _ _ _ _ H).
  destruct Hns as [-> | ->].
  - exists 0, 1. unfold assign, choose_indices; cbn [positions length].
    rewrite Ha1, Ha2, Hs1, Hs2, Ha, Hs. done.
  - exists 1, 0. unfold assign, choose_indices; cbn [positions length].
    rewrite Ha1, Ha2, Hs1, Hs2, Ha, Hs. done.
Qed.

(** X6 (ddwrt_choose_roles): with two routers connected, whenever roles
    are returned the AP slot and the STA slot are different routers, the
    router in the AP slot is capable of AP mode, and the router in the
    STA slot is capable of STA mode unless it was learned in neither
    mode. *)
Theorem ddwrt_choose_roles_sound (router_db : dict) (names : list string)
    (t : nat) (st : list node) (tr tr' : list event) (x y : node) (ns' : list node)
    (ap sta : nat) :
  connect_all o router_db names t st = (Ret tt, tr, [x; y]) ->
  ddwrt_choose_roles o router_db names t st = (Ret (ap, sta), tr', ns') ->
  ap <> sta /\
  exists a s,
    [x; y] !! ap = Some a /\ [x; y] !! sta = Some s /\
    ap_capable a = true /\
    (sta_capable s = true \/ ap_capable s = false).
Proof.
  unfold ap_capable, sta_capable. intros H.
  rewrite (choose_roles_after_connect _ _ _ _ _ _ _ H).
  unfold assign, choose_indices; cbn [positions length].
  destruct (has_key (n_router x) "ap") eqn:Hxa, (has_key (n_router x) "sta") eqn:Hxs,
    (has_key (n_router y) "ap") eqn:Hya, (has_key (n_router y) "sta") eqn:Hys,
    (eq_str (n_current_mode x) "ap"), (eq_str (n_current_mode y) "ap"),
    (eq_str (n_current_mode x) "sta"), (eq_str (n_current_mode y) "sta");
    cbn; intros [= <- <- _ _] || discriminate;
    (split; [vm_compute; lia|]); eexists _, _; (split; [reflexivity|]); (split; [reflexivity|]);
    rewrite ?Hxa, ?Hxs, ?Hya, ?Hys; auto.
Qed.

End Preference.

(** An unknown name, the format marker used as a name, and a router that
    answers with another et0macaddr than the stored one. *)
Lemma ddwrt_connect_refuses_witness :
  ddwrt_connect_to_known_router (lab_oracle "ap" 0) lab_stale_db "nobody" 0 tt =
    (Exit ExitUnknownRouter, [], tt) /\
  ddwrt_connect_to_known_router (lab_oracle "ap" 0) lab_stale_db "format" 0 tt =
    (Raise TypeError, [], tt) /\
  ddwrt_connect_to_known_router (lab_oracle "ap" 0) lab_stale_db "moved" 0 tt =
    (Exit ExitWrongRouter,
     [EvTelnetOpen "192.168.1.9"; EvSync "192.168.1.9";
      EvCmd "192.168.1.9" (NvramGet "et0macaddr")], tt).
Proof.
  split; [|split].
  - apply (proj1 (ddwrt_connect_refuses (lab_oracle "ap" 0) lab_stale_db "nobody" 0 tt)).
    reflexivity.
  - apply (proj1 (proj2 (ddwrt_connect_refuses (lab_oracle "ap" 0) lab_stale_db "format"
                           0 tt)) (JStr "automagic")); [reflexivity|discriminate].
  - apply (proj2 (proj2 (ddwrt_connect_refuses (lab_oracle "ap" 0) lab_stale_db "moved"
                           0 tt))
             (<["et0macaddr" := JStr "00:00:00:00:00:00"]> (lab_router "192.168.1.9" true true))
             "192.168.1.9" (JStr "00:00:00:00:00:00") "mac-of-192.168.1.9");
      try reflexivity.
    + eexists; reflexivity.
    + split; [reflexivity|]. split; [vm_compute; lia|reflexivity].
Defined.

(** The dual-capable router of the laboratory, in AP mode. *)
Lemma ddwrt_connect_returns_witness :
  ddwrt_connect_to_known_router (lab_oracle "ap" 0) lab_router_db "both" 0 tt =
    (Ret (lab_node "192.168.1.1" true true "ap"),
     [EvTelnetOpen "192.168.1.1"; EvSync "192.168.1.1";
      EvCmd "192.168.1.1" (NvramGet "et0macaddr");
      EvCmd "192.168.1.1" (NvramGet "wl_mode")], tt).
Proof.
  apply (ddwrt_connect_returns (lab_oracle "ap" 0) lab_router_db "both" 0 tt
           (lab_router "192.168.1.1" true true) "192.168.1.1" "mac-of-192.168.1.1" "ap"
           (JStr "mac-of-192.168.1.1")); try reflexivity.
  - eexists; reflexivity.
  - split; [reflexivity|]. split; [vm_compute; lia|reflexivity].
  - split; [reflexivity|]. split; [vm_compute; lia|reflexivity].
Defined.

(** Two dual-capable routers, the second name being the router in AP
    mode. *)
Lemma ddwrt_choose_roles_keeps_ap_witness :
  let a := lab_node "192.168.1.1" true true "ap" in
  let s := lab_node "192.168.1.4" true true "sta" in
  exists ap sta tr,
    ddwrt_choose_roles lab_mixed_oracle lab_router_db ["both2"; "both"] 0 [] =
      (Ret (ap, sta), tr, [s; a]) /\
    [s; a] !! ap = Some a /\ [s; a] !! sta = Some s.
Proof.
  intros a s.
  destruct (ddwrt_choose_roles_keeps_ap lab_mixed_oracle lab_router_db ["both2"; "both"]
              0 [] _ [s; a] a s
              (run_eta (connect_all lab_mixed_oracle lab_router_db ["both2"; "both"] 0 [])
                 (Ret tt) eq_refl))
    as (ap & sta & H); try reflexivity.
  - right; reflexivity.
  - exists ap, sta. eexists. exact H.
Defined.

(** Two dual-capable routers, the second name being the router in AP
    mode: it gets the AP slot. *)
Lemma ddwrt_choose_roles_sound_witness :
  let a := lab_node "192.168.1.1" true true "ap" in
  let s := lab_node "192.168.1.4" true true "sta" in
  exists ap sta,
    fst (fst (ddwrt_choose_roles lab_mixed_oracle lab_router_db ["both2"; "both"] 0 []))
      = Ret (ap, sta) /\
    ap <> sta /\
    exists n m, [s; a] !! ap = Some n /\ [s; a] !! sta = Some m /\
      ap_capable n = true /\ (sta_capable m = true \/ ap_capable m = false).
Proof.
  intros a s. exists 1, 0. split; [reflexivity|].
  apply (ddwrt_choose_roles_sound lab_mixed_oracle lab_router_db ["both2"; "both"] 0 []
           (snd (fst (connect_all lab_mixed_oracle lab_router_db ["both2"; "both"] 0 [])))
           (snd (fst (ddwrt_choose_roles lab_mixed_oracle lab_router_db ["both2"; "both"]
                        0 [])))
           s a [s; a] 1 0);
    reflexivity.
Defined.

(** ** The ends of a firmware update *)

Section OtaRuns.
Variable o : oracle.
Context {St : Type}.

Lemma flash_poll_progress (addr : string) (pause_time deadline : Z)
    (new_version : option string) (old_version : string) (s : St) (t0 j m : nat) :
  j <= 10 -> j <= m -> ota_progress o addr deadline t0 j m ->
  forall d k fuel last, k + d = m ->
    flash_poll o (d + fuel) addr pause_time deadline new_version old_version
      (Nat.ltb j k) k last (t0 + 3 * k) s =
    prepend (concat (repeat (poll_events addr pause_time) d))
      (flash_poll o fuel addr pause_time deadline new_version old_version
         (Nat.ltb j m) m
         (match d with 0 => last | _ => o_http o (t0 + 3 * (m - 1) + 2) (UOta addr) end)
         (t0 + 3 * m) s).
Proof.
  intros Hj Hjm Hall. induction d as [|d IH]; intros k fuel last Hk.
  - replace k with m by lia. cbn [repeat concat Nat.add]. by rewrite prepend_nil.
  - destruct (Hall k ltac:(lia)) as (st & v & Hpoll & Hiff).
    cbn [Nat.add].
    rewrite (flash_poll_next o _ _ _ _ _ _ _ _ _ _ _ _ _ Hpoll).
    destruct (decide (st = "updating")) as [Hup|Hup].
    + rewrite bool_decide_eq_true_2 by exact Hup.
      apply Hiff in Hup.
      replace true with (Nat.ltb j (S k)) by (apply Nat.ltb_lt; lia).
      rewrite (IH (S k) fuel _ ltac:(lia)). rewrite prepend_prepend.
      cbn [repeat concat]. f_equal. f_equal.
      destruct d; [|reflexivity]. f_equal. f_equal. lia.
    + rewrite bool_decide_eq_false_2 by exact Hup.
      assert (k < j) by (destruct (decide (j <= k)) as [H|H]; [apply Hiff in H; done|lia]).
      replace (Nat.ltb j k) with false by (symmetry; apply Nat.ltb_ge; lia).
      replace (Nat.ltb 10 (S k)) with false by (symmetry; apply Nat.ltb_ge; lia).
      replace false with (Nat.ltb j (S k)) at 1 by (apply Nat.ltb_ge; lia).
      rewrite (IH (S k) fuel _ ltac:(lia)). rewrite prepend_prepend.
      cbn [repeat concat]. f_equal. f_equal.
      destruct d; [|reflexivity]. f_equal. f_equal. lia.
Qed.

Lemma flash_poll_deadline (fuel : nat) (addr : string) (pause_time deadline : Z)
    (new_version : option string) (old_version : string) (seen : bool) (k : nat)
    (last : option json) t (s : St) :
  (deadline <= o_clock o t)%Z ->
  flash_poll o (S fuel) addr pause_time deadline new_version old_version seen k last t s =
    match last with
    | None => (Raise UnboundLocalError, [EvTime], s)
    | Some r =>
        prepend [EvTime]
          ((v <- jget r "old_version" ;; jstr v ;;; ret OtaWallTimeout) (t + 1) s)
    end.
Proof.
  intros H. cbn [flash_poll]. erewrite bind_run by reflexivity. cbn [length].
  replace (Z.ltb (o_clock o t) deadline) with false by (symmetry; apply Z.ltb_ge; lia).
  destruct last; reflexivity.
Qed.


End OtaRuns.

Section OtaEdges.
Variable o : oracle.
Context {St : Type}.
Variables (s : St) (fuel : nat) (addr ota : string) (pause_time ota_timeout : Z).
Variables (new_version : option string) (t : nat) (v1 idle : string).

Hypothesis Hidle : idle <> "updating".
Hypothesis Hrep : reports (o_http o t (UOta addr)) idle v1.
Hypothesis Hnv : new_version <> Some v1.

Let start : list event := [EvHttp (UOta addr); EvHttp (ota_url addr ota); EvTime].
Let polls (n : nat) : list event := concat (repeat (poll_events addr pause_time) n).
Let deadline : Z := (o_clock o (t + 2) + 1000 * ota_timeout)%Z.


Lemma flash_device_polls :
  truthy_opt (o_http o (t + 1) (ota_url addr ota)) = true ->
  ota_timeout <> 0%Z ->
  flash_device o fuel addr pause_time ota ota_timeout new_version false t s =
    prepend start
      (flash_poll o fuel addr pause_time deadline new_version v1 false 0 None
         (t + 3 + 3 * 0) s).
Proof.
  intros Hsent Htm. rewrite Nat.mul_0_r, Nat.add_0_r.
  apply (flash_device_start o fuel addr pause_time ota ota_timeout new_version t s idle v1);
    assumption.
Qed.


(** X8 (flash_device): the verdict of an update that was seen in progress.
    After at most ten polls with another status, and then at least one
    poll with status "updating", the first poll that no longer shows
    "updating" decides, [v] being the version it reports: with no
    requested version, SUCCESS; with a requested version, FAILURE when
    [v] is still the old version, SUCCESS when [v] is the requested one,
    and otherwise FAILURE (unexpected build). *)
Theorem flash_device_verdict (j m : nat) (last_status v : string) :
  truthy_opt (o_http o (t + 1) (ota_url addr ota)) = true ->
  ota_timeout <> 0%Z ->
  j <= 10 -> j < m -> m < fuel ->
  ota_progress o addr deadline (t + 3) j m ->
  last_status <> "updating" ->
  poll_ok o addr deadline (t + 3) m last_status v ->
  exists p,
    flash_device o fuel addr pause_time ota ota_timeout new_version false t s =
      (Ret p, (start ++ polls (S m))%list, s) /\
    match new_version with
    | None => p = OtaSuccess
    | Some nv =>
        if bool_decide (nv = "") then p = OtaSuccess
        else if bool_decide (v = v1) then p = OtaUnchanged
        else if bool_decide (v = nv) then p = OtaSuccess
        else p = OtaMismatch
    end.
Proof.
  intros Hsent Htm Hj Hjm Hf Hall Hlast Hpoll.
  exists (verdict new_version v1 v). split.
  - rewrite (flash_device_polls Hsent Htm).
    replace fuel with (m + S (fuel - S m)) by lia.
    replace false with (Nat.ltb j 0) at 1 by (apply Nat.ltb_ge; lia).
    rewrite (flash_poll_progress o addr pause_time deadline new_version v1 s (t + 3) j m
               Hj ltac:(lia) Hall m 0 _ None ltac:(lia)).
    rewrite (flash_poll_next o _ _ _ _ _ _ _ _ _ _ _ _ _ Hpoll).
    rewrite bool_decide_eq_false_2 by exact Hlast.
    replace (Nat.ltb j m) with true by (symmetry; apply Nat.ltb_lt; lia).
    unfold prepend, start, polls. f_equal. f_equal. f_equal.
    replace (S m) with (m + 1) by lia. rewrite repeat_app, concat_app.
    reflexivity.
  - unfold verdict, no_version, eq_version, eq_str. destruct new_version as [nv|]; [|done].
    destruct (bool_decide (nv = "")); [done|].
    destruct (bool_decide (v = v1)); [done|]. cbn [negb].
    destruct (bool_decide (v = nv)); done.
Qed.

(** X9 (flash_device): the deadline of the polling loop.  When the clock
    has reached the start time plus the OTA timeout at a test of the
    loop, after [m] polls that did not decide, the function returns False
    (TIMEOUT) if at least one poll was made; if none was made, as with a
    negative timeout, the final message reads a variable that was never
    assigned and the function ends in UnboundLocalError. *)
Theorem flash_device_deadline (j m : nat) :
  truthy_opt (o_http o (t + 1) (ota_url addr ota)) = true ->
  ota_timeout <> 0%Z ->
  j <= 10 -> j <= m -> m < fuel ->
  ota_progress o addr deadline (t + 3) j m ->
  (deadline <= o_clock o (t + 3 + 3 * m))%Z ->
  flash_device o fuel addr pause_time ota ota_timeout new_version false t s =
    (match m with 0 => Raise UnboundLocalError | S _ => Ret OtaWallTimeout end,
     (start ++ polls m ++ [EvTime])%list, s) /\
  flash_returns OtaWallTimeout = false.
Proof.
  intros Hsent Htm Hj Hjm Hf Hall Hclock. split; [|done].
  rewrite (flash_device_polls Hsent Htm).
  replace fuel with (m + S (fuel - S m)) by lia.
  replace false with (Nat.ltb j 0) at 1 by (apply Nat.ltb_ge; lia).
  rewrite (flash_poll_progress o addr pause_time deadline new_version v1 s (t + 3) j m
             Hj Hjm Hall m 0 _ None ltac:(lia)).
  rewrite (flash_poll_deadline o _ _ _ _ _ _ _ _ _ _ _ Hclock).
  destruct m as [|m'].
  - reflexivity.
  - destruct (Hall m' ltac:(lia)) as (st & v & [_ (r & Hr & _ & Hv)] & _).
    replace (S m' - 1) with m' by lia. rewrite Hr.
    rewrite (bind_run _ _ _ _ _ _ _ (jget_run _ _ _ _ _ Hv)). cbn [jstr].
    erewrite bind_run by reflexivity.
    unfold prepend, start, polls. cbn [app length]. reflexivity.
Qed.


End OtaEdges.


Lemma ota_progress_intro (answers : list (string * string)) (addr : string)
    (deadline : Z) (j m : nat) :
  (0 <? deadline)%Z = true ->
  (forall k, k < m -> exists st v,
     answers !! S k = Some (st, v) /\ (st = "updating" <-> j <= k)) ->
  ota_progress (ota_oracle answers) addr deadline 3 j m.
Proof.
  intros Hd H k Hk. destruct (H k Hk) as (st & v & Hl & Hiff).
  exists st, v. split; [|exact Hiff]. apply ota_poll; assumption.
Qed.

(** Asked for v2, a device answers (idle,v1) to the first read and to the
    first poll, then (updating,v1) twice, then (idle,v2): SUCCESS; when it
    then answers (idle,v3) instead: FAILURE, unexpected build. *)
Lemma flash_device_verdict_witness :
  fst (fst (flash_device
              (ota_oracle [("idle", "v1"); ("idle", "v1"); ("updating", "v1");
                           ("updating", "v1"); ("idle", "v2")])
              100 "10.0.0.7" 3 "fw.zip" 300 (Some "v2") false 0 tt)) = Ret OtaSuccess /\
  fst (fst (flash_device
              (ota_oracle [("idle", "v1"); ("idle", "v1"); ("updating", "v1");
                           ("updating", "v1"); ("idle", "v3")])
              100 "10.0.0.7" 3 "fw.zip" 300 (Some "v2") false 0 tt)) = Ret OtaMismatch.
Proof.
  split.
  - destruct (flash_device_verdict
                (ota_oracle [("idle", "v1"); ("idle", "v1"); ("updating", "v1");
                             ("updating", "v1"); ("idle", "v2")])
                tt 100 "10.0.0.7" "fw.zip" 3 300 (Some "v2") 0 "v1" "idle"
                ltac:(discriminate)
                ltac:(eexists; split; [reflexivity|split; reflexivity])
                ltac:(discriminate) 1 3 "idle" "v2" eq_refl
                ltac:(discriminate) ltac:(lia) ltac:(lia) ltac:(lia))
      as (p & Hrun & Hp).
    + apply ota_progress_intro; [reflexivity|]. intros k Hk.
      destruct k as [|[|[|k]]]; [exists "idle", "v1"|exists "updating", "v1"|
                                 exists "updating", "v1"|lia];
        (split; [reflexivity|split; [discriminate || (intros; lia)|lia || done]]).
    + discriminate.
    + apply ota_poll; reflexivity.
    + rewrite Hrun. cbn in Hp. rewrite Hp. reflexivity.
  - destruct (flash_device_verdict
                (ota_oracle [("idle", "v1"); ("idle", "v1"); ("updating", "v1");
                             ("updating", "v1"); ("idle", "v3")])
                tt 100 "10.0.0.7" "fw.zip" 3 300 (Some "v2") 0 "v1" "idle"
                ltac:(discriminate)
                ltac:(eexists; split; [reflexivity|split; reflexivity])
                ltac:(discriminate) 1 3 "idle" "v3" eq_refl
                ltac:(discriminate) ltac:(lia) ltac:(lia) ltac:(lia))
      as (p & Hrun & Hp).
    + apply ota_progress_intro; [reflexivity|]. intros k Hk.
      destruct k as [|[|[|k]]]; [exists "idle", "v1"|exists "updating", "v1"|
                                 exists "updating", "v1"|lia];
        (split; [reflexivity|split; [discriminate || (intros; lia)|lia || done]]).
    + discriminate.
    + apply ota_poll; reflexivity.
    + rewrite Hrun. cbn in Hp. rewrite Hp. reflexivity.
Defined.

(** With an OTA timeout of -1 the loop is not entered; with a timeout of
    one second and a clock that advances by 200 ms per interaction, a
    device that keeps answering (updating,v1) is given up at the third
    test of the loop. *)
Lemma flash_device_deadline_witness :
  fst (fst (flash_device (ota_oracle [("idle", "v1")]) 100 "10.0.0.7" 3 "fw.zip" (-1)
              (Some "v2") false 0 tt)) = Raise UnboundLocalError /\
  fst (fst (flash_device (ota_clock_oracle (("idle", "v1") :: repeat ("updating", "v1") 9) 200)
              100 "10.0.0.7" 3 "fw.zip" 1 (Some "v2") false 0 tt)) = Ret OtaWallTimeout.
Proof.
  split.
  - rewrite (proj1 (flash_device_deadline (ota_oracle [("idle", "v1")]) tt 100 "10.0.0.7"
                      "fw.zip" 3 (-1) (Some "v2") 0 "v1" "idle" ltac:(discriminate)
                      ltac:(eexists; split; [reflexivity|split; reflexivity])
                      ltac:(discriminate) 0 0 eq_refl ltac:(discriminate)
                      ltac:(lia) ltac:(lia) ltac:(lia)
                      ltac:(intros k Hk; lia) ltac:(vm_compute; discriminate))).
    reflexivity.
  - rewrite (proj1 (flash_device_deadline
                      (ota_clock_oracle (("idle", "v1") :: repeat ("updating", "v1") 9) 200)
                      tt 100 "10.0.0.7"
                      "fw.zip" 3 1 (Some "v2") 0 "v1" "idle" ltac:(discriminate)
                      ltac:(eexists; split; [reflexivity|split; reflexivity])
                      ltac:(discriminate) 0 2 eq_refl ltac:(discriminate)
                      ltac:(lia) ltac:(lia) ltac:(lia)
                      ltac:(intros k Hk; exists "updating", "v1";
                            destruct k as [|[|k]]; [| |lia];
                            (split; [split; [reflexivity|
                                       eexists; split; [reflexivity|split; reflexivity]]|
                                     split; [intros; lia|reflexivity]]))
                      ltac:(vm_compute; discriminate))).
    reflexivity.
Defined.


(** ** A change of mode *)

Section Switch.
Variable o : oracle.

Lemma prep_no_restart (l : list event) :
  Forall (fun e => is_prep e = true) l -> Forall (fun e => is_restart e = false) l.
Proof.
  intros Hl. eapply Forall_impl; [exact Hl|]. intros [] He; try discriminate; try reflexivity.
  destruct c; try discriminate; reflexivity.
Qed.

Lemma full_apply_inv (nd : node) t (s : list node) r tr s' :
  (address <- dget (St := list node) (n_router nd) "address" ;;
   address <- jstr address ;;
   dget (n_router nd) "password" ;;;
   ddwrt_apply o address ;;;
   sleep 5000 ;;;
   ddwrt_sync_connection (n_conn nd) ;;;
   ddwrt_get_single_line_result o (n_conn nd) RadioCycle ;;; ret tt) t s = (r, tr, s') ->
  s' = s /\ Forall (fun e => is_restart e = false) tr /\
  (r = Ret tt -> exists address,
     n_router nd !! "address" = Some (JStr address) /\
     tr = [EvApply address; EvSleep 5000; EvSync (n_conn nd);
           EvCmd (n_conn nd) RadioCycle]).
Proof.
  unfold dget, orraise.
  destruct (n_router nd !! "address") as [a|] eqn:Ha;
    [|intros [= <- <- <-]; repeat split; [constructor|discriminate]].
  erewrite bind_run by reflexivity. cbn [length]. rewrite prepend_nil.
  destruct a as [| | |address| |];
    try (intros [= <- <- <-]; repeat split; [constructor|discriminate]).
  cbn [jstr]. erewrite bind_run by reflexivity. cbn [length]. rewrite prepend_nil.
  destruct (n_router nd !! "password") as [pw|];
    [|intros [= <- <- <-]; repeat split; [constructor|discriminate]].
  erewrite bind_run by reflexivity. cbn [length]. rewrite prepend_nil.
  unfold ddwrt_apply, io_ok.
  unfold bind at 1. unfold bind at 1. unfold ask at 1.
  destruct (o_ok o (t + 0 + 0 + 0)).
  2:{ cbn. intros [= <- <- <-]. repeat split; [repeat constructor|discriminate]. }
  cbn [ret prepend app length]. unfold sleep, ddwrt_sync_connection.
  erewrite bind_run by reflexivity. erewrite bind_run by reflexivity.
  cbn [length prepend app].
  destruct (ddwrt_get_single_line_result o (n_conn nd) RadioCycle
              (t + 0 + 0 + 0 + 1 + 1 + 1) s) as [[r1 tr1] s1] eqn:E.
  pose proof (single_line_inv o _ _ _ _ _ _ _ E) as [-> ->].
  unfold bind. rewrite E. destruct r1; cbn; intros [= <- <- <-];
    (split; [done|]); (split; [repeat constructor|]); try discriminate.
  intros _. exists address. done.
Qed.

(** X11 (ddwrt_program_mode): when the requested mode is not the
    connection's current mode, the command that restarts the wireless
    services is never issued; and when the function returns, the
    connection object has the requested mode as its current mode and is
    otherwise as before, the other connection objects are untouched, and
    what was issued are the commands that write, delete and commit the
    configuration keys, followed by the ApplyTake request to the address
    of the router db, a pause of five seconds, the resynchronisation of
    the session and the radio cycle. *)
Theorem ddwrt_program_mode_switch (cn : nat) (nd : node) (st : list node)
    (pgm : list (string * json)) (from_db deletes : list string) (mode : json)
    (t : nat) (r : res unit) (tr : list event) (st' : list node) :
  st !! cn = Some nd ->
  literal_get pgm "wl_mode" = Some mode ->
  same_mode (n_current_mode nd) mode = false ->
  ddwrt_program_mode o cn pgm from_db deletes t st = (r, tr, st') ->
  Forall (fun e => is_restart e = false) tr /\
  (r = Ret tt ->
   st' = <[cn := with_mode nd mode]> st /\
   exists prep address,
     n_router nd !! "address" = Some (JStr address) /\
     Forall (fun e => is_prep e = true) prep /\
     tr = (prep ++ [EvApply address; EvSleep 5000; EvSync (n_conn nd);
                    EvCmd (n_conn nd) RadioCycle])%list).
Proof.
  intros Hnd Hmode Hsame H.
  assert (Habort : forall (k : kind) tr0 s0,
             k <> KRet -> prep_only st tr0 s0 k ->
             Forall (fun e => is_restart e = false) tr0).
  { intros k tr0 s0 Hk [-> Hp]. by apply prep_no_restart. }
  unfold ddwrt_program_mode in H.
  rewrite (bind_run _ _ _ _ _ _ _ (node_at_run _ _ _ _ Hnd)) in H.
  cbn [length app] in H. rewrite Hmode in H.
  destruct (bind _ _ _ _) as [[r0 tr0] s0] eqn:E. injection H as <- <- <-.
  apply (bind_inv_sat (R := prep_only)) in E
    as [(_ & tr1 & s1 & tr2 & [-> H1] & E & ->)|[Hk HR]].
  3:{ apply sat_for_each. intros [k v]. cbn [fst snd].
      apply sat_bind; [apply sat_jstr, prep_only_raise|]. intros v'.
      apply sat_prep_cmd. reflexivity. }
  2:{ split; [by eapply Habort|]. intros ->. done. }
  apply bind_inv in E as [(mode' & tr1' & s1' & tr3 & Em & E & ->)|(r1 & Em & Hk1 & _)];
    [|cbn in Em; injection Em as <- _ _; cbn in Hk1; done].
  cbn in Em. injection Em as <- <- <-. cbn [app length] in *. rewrite Hsame in E.
  apply (bind_inv_sat (R := prep_only)) in E
    as [(_ & tr4 & s4 & tr5 & [-> H4] & E & ->)|[Hk [-> HR]]].
  3:{ apply sat_for_each. intros k.
      apply sat_bind.
      - unfold from_profile. destruct mode; try (apply sat_raise, prep_only_raise).
        apply sat_bind; [apply sat_dget, prep_only_raise|]. intros p.
        apply sat_bind; [apply sat_jget, prep_only_raise|]. intros v.
        apply sat_jstr, prep_only_raise.
      - intros v. apply sat_prep_cmd. reflexivity. }
  2:{ split; [|intros ->; done]. apply prep_no_restart, Forall_app; done. }
  apply (bind_inv_sat (R := prep_only)) in E
    as [(_ & tr6 & s6 & tr7 & [-> H6] & E & ->)|[Hk [-> HR]]].
  3:{ apply sat_for_each. intros k. apply sat_prep_cmd. reflexivity. }
  2:{ split; [|intros ->; done]. apply prep_no_restart. rewrite !Forall_app; done. }
  apply bind_inv in E as [(x & tr8 & s8 & tr9 & Ec & E & ->)|(r1 & Ec & Hk & Hr)].
  2:{ apply single_line_inv in Ec as [-> ->]. split; [|intros ->; subst; done].
      apply prep_no_restart. rewrite !Forall_app. repeat split; try done.
      repeat constructor. }
  apply single_line_inv in Ec as [-> ->].
  rewrite (bind_run _ _ _ _ _ _ _ (set_current_mode_run _ _ _ _ _ Hnd)) in E.
  destruct (bind _ _ _ _) as [[r1 tr1'] s1] eqn:E1. injection E as -> <- <-.
  apply full_apply_inv in E1 as (-> & Hno & Hret).
  split.
  - rewrite !Forall_app. repeat split; try (apply prep_no_restart; assumption).
    + repeat constructor.
    + exact Hno.
  - intros ->. destruct (Hret eq_refl) as (address & Ha & ->).
    split; [reflexivity|].
    exists (tr1 ++ tr4 ++ tr6 ++ [EvCmd (n_conn nd) NvramCommit])%list, address.
    split; [exact Ha|]. split.
    + rewrite !Forall_app. repeat split; auto; repeat constructor.
    + cbn [app]. by rewrite <- !app_assoc.
Qed.

End Switch.

(** A laboratory router in STA mode set to AP mode. *)
Lemma ddwrt_program_mode_switch_witness :
  let nd := lab_node "192.168.1.1" true true "sta" in
  let run := ddwrt_set_ap_mode (lab_oracle "sta" 0) 0 (JStr "TestNet") (JStr "abc12cd34")
               0 [nd] in
  fst (fst run) = Ret tt /\
  Forall (fun e => is_restart e = false) (snd (fst run)) /\
  snd run = [with_mode nd (JStr "ap")] /\
  exists prep,
    Forall (fun e => is_prep e = true) prep /\
    snd (fst run) = (prep ++ [EvApply "192.168.1.1"; EvSleep 5000; EvSync "192.168.1.1";
                              EvCmd "192.168.1.1" RadioCycle])%list.
Proof.
  intros nd run.
  assert (Hret : fst (fst run) = Ret tt) by (vm_compute; reflexivity).
  pose proof (ddwrt_program_mode_switch (lab_oracle "sta" 0) 0 nd [nd]
                (ap_program (JStr "TestNet") (JStr "abc12cd34"))
                [ "wl0_hw_rxchain"; "wl0_hw_txchain"; "wan_hwaddr" ]
                [ "wan_ipaddr_buf"; "wan_ipaddr_static"; "wan_netmask_static"; "wl0_vifs" ]
                (JStr "ap") 0 (fst (fst run)) (snd (fst run)) (snd run)
                eq_refl eq_refl eq_refl
                (run_eta run (fst (fst run)) eq_refl)) as [Hno Hfin].
  destruct (Hfin Hret) as (Hst & prep & address & Ha & Hprep & Htr).
  split; [exact Hret|]. split; [exact Hno|]. split; [exact Hst|].
  exists prep. split; [exact Hprep|]. rewrite Htr.
  assert (address = "192.168.1.1") as -> by (vm_compute in Ha; congruence).
  reflexivity.
Defined.

(** ** Counts, waits and a device without status *)

Section Counts.
Variable o : oracle.
Variable json_loads : string -> option json.
Variable survey_ssid : string -> string.
Variable args : options.
Variable new_version : option string.
Variable fuel : nat.

Lemma provision_loop_counts (ap_node sta_node : nat) (n : nat) :
  forall a setup_count success_count t w,
    a + n = length (device_queue w) ->
    wp (provision_loop o json_loads survey_ssid fuel args new_version ap_node sta_node
          (seq a n) setup_count success_count)
       (fun r _ _ => forall x, r = Ret x ->
          let k := length (filter (fun rec => selected args rec = true)
                             (drop a (device_queue w))) in
          x = (success_count + k, setup_count + k)) t w.
Proof.
  induction n as [|n IH]; intros a setup sc t w Hlen.
  { cbn [seq provision_loop]. apply wp_ret. intros x [= <-].
    rewrite drop_ge by lia. cbn. f_equal; lia. }
  cbn [seq provision_loop]. unfold get_rec.
  apply wp_bind. apply wp_bind. apply wp_get. cbn [wp_next].
  apply wp_orraise; [|intros _; cbn [wp_next]; discriminate].
  intros rec Hrec. cbn [wp_next].
  pose proof (drop_S _ _ _ Hrec) as Hdrop.
  destruct (selected args rec) eqn:Hsel.
  2:{ assert (forall r, (forall x, r = Ret x ->
                  let k := length (filter (fun rec => selected args rec = true)
                                     (drop (S a) (device_queue w))) in
                  x = (sc + k, setup + k)) ->
                forall x, r = Ret x ->
                  let k := length (filter (fun rec => selected args rec = true)
                                     (drop a (device_queue w))) in
                  x = (sc + k, setup + k)) as Hskip.
      { intros r H x Hx. rewrite Hdrop. rewrite filter_cons_False by congruence.
        apply H, Hx. }
      apply selected_false in Hsel as Hc. destruct Hc as [Hc|Hc]; rewrite Hc.
      - eapply wp_conseq; [apply IH; lia|]. intros r t9 w9 H. apply Hskip, H.
      - destruct (_ || _); cbn [negb];
          (eapply wp_conseq; [apply IH; lia|]; intros r t9 w9 H; apply Hskip, H). }
  apply selected_true in Hsel as Hc. destruct Hc as (Hc1 & Hc2 & Hc3).
  rewrite Hc1, Hc2. cbn [negb].
  apply wp_bind.
  assert (forall Q : res unit -> nat -> world -> Prop,
             (forall t', Q (Ret tt) t' w) ->
             wp (if Nat.ltb 0 setup && a_cue args then emit EvCue else ret tt) Q t w) as Hcue.
  { intros Q HQ. destruct (Nat.ltb 0 setup && a_cue args);
      [apply wp_emit|apply wp_ret]; apply HQ. }
  apply Hcue. intros t1. cbn [wp_next].
  apply wp_bind. eapply wp_conseq.
  { apply (provision_rec_wp o json_loads survey_ssid (fun _ _ => True)
             (stamping_trivial o) a w); [|eauto].
    eapply inv_open; eauto. apply Forall_forall. done. }
  intros r t2 w2 (ph & (G1 & G2 & G3 & G4) & Hr).
  destruct r as [sc'|x|e|]; cbn [wp_next]; try discriminate.
  destruct Hr as [-> ->].
  eapply wp_conseq; [apply IH; lia|].
  intros r t9 w9 H x Hx. specialize (H x Hx). cbn zeta in H |- *.
  rewrite Hdrop. rewrite filter_cons_True by exact Hsel. cbn [length].
  replace (drop (S a) (device_queue w2)) with (drop (S a) (device_queue w)) in H.
  - rewrite H. f_equal; lia.
  - apply list_eq. intros j. rewrite !lookup_drop. symmetry. apply G3. lia.
Qed.

(** X12 (provision_list): the two numbers of the final message.  When
    [provision_list] returns, the number of devices provisioned
    successfully equals the number of devices set up, and both equal the
    number of records of the queue that were selected: not marked
    complete, in the requested group, and naming an SSID.  A failure
    never shows in the counts: it ends the program before the message. *)
Theorem provision_list_counts (router_db : dict) (t : nat) (w : world)
    (success_count setup_count : nat) (tr : list event) (w' : world) :
  provision_list o json_loads survey_ssid fuel args router_db new_version t w =
    (Ret (success_count, setup_count), tr, w') ->
  success_count = setup_count /\
  setup_count = length (filter (fun rec => selected args rec = true) (device_queue w)).
Proof.
  intros Hrun.
  assert (wp (provision_list o json_loads survey_ssid fuel args router_db new_version)
            (fun r _ _ => forall x, r = Ret x ->
               let k := length (filter (fun rec => selected args rec = true)
                                  (device_queue w)) in
               x = (k, k)) t w) as Hwp.
  { unfold provision_list.
    apply wp_bind, wp_get. cbn [wp_next].
    apply wp_bind. unfold check_for_device_queue.
    destruct (Nat.eqb _ 0); [apply wp_exit; cbn [wp_next]; discriminate|].
    destruct (queue_ready _ _ _); [|apply wp_exit; cbn [wp_next]; discriminate].
    apply wp_ret. cbn [wp_next].
    apply wp_bind, wp_on_nodes. intros r t1 ns Ht1.
    destruct r as [roles|x|e|]; cbn [wp_next]; try discriminate.
    apply wp_bind, wp_get. cbn [wp_next].
    eapply wp_conseq.
    { apply (provision_loop_counts (fst roles) (snd roles)
               (length (device_queue (set_nodes ns w))) 0 0 0). lia. }
    cbn [device_queue set_nodes]. intros r t9 w9 H x Hx. rewrite drop_0 in H.
    exact (H x Hx). }
  specialize (wp_run _ _ _ _ _ _ _ Hrun Hwp _ eq_refl) as H. cbn zeta in H.
  injection H as -> ->. done.
Qed.

End Counts.

Section Waiting.
Variable o : oracle.
Variable json_loads : string -> option json.
Variable survey_ssid : string -> string.

(** X13 (provision_list): the wait for a factory device has no bound.  As
    long as the site survey of the STA router shows no SSID with the
    prefix, the loop surveys and pauses for [wait_time] seconds, round
    after round: for every number of rounds the run has not ended after
    that many rounds, and it has changed nothing in the queue, the device
    records or the files. *)
Theorem provision_rec_waits (args : options) (new_version : option string)
    (ap_node sta_node i success_count : nat) (nd : node) (rounds : nat)
    (t : nat) (w : world) :
  nodes w !! sta_node = Some nd ->
  (forall k, k < rounds ->
     survey_failed (o_cmd o (t + 2 * k) (n_conn nd) SiteSurvey) = false /\
     visible survey_ssid (a_prefix args) (o_cmd o (t + 2 * k) (n_conn nd) SiteSurvey) = []) ->
  provision_rec o json_loads survey_ssid rounds args new_version ap_node sta_node i
    success_count t w =
    (Diverge, concat (repeat (wait_round (n_conn nd) (a_wait_time args)) rounds), w).
Proof.
  intros Hnd. revert t. induction rounds as [|n IH]; intros t Hall; [reflexivity|].
  cbn [provision_rec].
  destruct (Hall 0 ltac:(lia)) as [Hf Hv]. rewrite Nat.mul_0_r, Nat.add_0_r in Hf, Hv.
  erewrite (bind_run (on_nodes _)).
  2:{ unfold on_nodes, lift. rewrite (ddwrt_discover_run o survey_ssid _ _ _ _ _ Hnd).
      rewrite Hf, Hv. reflexivity. }
  assert (set_nodes (nodes w) w = w) as -> by (destruct w; reflexivity).
  cbn [length]. unfold sleep. erewrite bind_run by reflexivity. cbn [length].
  replace (t + 1 + 1) with (t + 2) by lia.
  rewrite IH.
  - reflexivity.
  - intros k Hk. replace (t + 2 + 2 * k) with (t + 2 * S k) by lia. apply Hall. lia.
Qed.

End Waiting.

Section Finish.
Variable o : oracle.

(** X14 (finish_up_device): a device whose status could not be read.
    With no status ([None], what [get_status] returns after five failed
    attempts) and the settings at hand, the function ends in TypeError
    when it reads the MAC address of the status: by then the record has
    been given ConfirmedTime, a null status, the settings and the
    origin, in memory only; the device is not entered in the device db
    and no file is written. *)
Theorem finish_up_device_no_status (fuel : nat) (device : string) (i : nat)
    (operation : string) (args : options) (new_version : option string)
    (settings : json) (rec : dict) (t : nat) (w : world) :
  device_queue w !! i = Some rec ->
  truthy settings = true ->
  finish_up_device o fuel device i operation args new_version None (Some settings) t w =
    (Raise TypeError, [EvTime],
     set_device_queue
       (<[i := unconfirmed rec (o_clock o t) settings operation]> (device_queue w)) w).
Proof.
  intros Hrec Htr. unfold finish_up_device.
  assert (Hset : forall k v t0 w0,
            set_field i k v t0 w0 =
              (Ret tt, [], set_device_queue (alter (insert k v) i (device_queue w0)) w0))
    by reflexivity.
  erewrite bind_run by reflexivity. cbn [length].
  rewrite (bind_run _ _ _ _ _ _ _ (Hset _ _ _ _)). cbn [length].
  set (w1 := set_device_queue _ w).
  assert (device_queue w1 !! i = Some (<["ConfirmedTime" := JNum (o_clock o t)]> rec))
    as Hrec1.
  { subst w1. cbn [device_queue set_device_queue].
    rewrite list_lookup_alter_eq, Hrec. reflexivity. }
  erewrite (bind_run (get_rec i)).
  2:{ unfold get_rec, bind, get, orraise. rewrite Hrec1. reflexivity. }
  cbn [length truthy_opt]. rewrite Htr.
  erewrite bind_run by reflexivity. cbn [length].
  rewrite (bind_run _ _ _ _ _ _ _ (Hset _ _ _ _)). cbn [length].
  rewrite (bind_run _ _ _ _ _ _ _ (Hset _ _ _ _)). cbn [length].
  rewrite (bind_run _ _ _ _ _ _ _ (Hset _ _ _ _)). cbn [length].
  cbn [orraise]. unfold bind at 1, raise, prepend. cbn [app default].
  f_equal. subst w1. unfold set_device_queue. cbn [device_queue nodes device_db
    queue_file db_file]. f_equal.
  apply list_eq. intros j. destruct (decide (j = i)) as [->|Hne].
  - rewrite list_lookup_insert_eq by (eapply lookup_lt_Some; exact Hrec).
    rewrite !list_lookup_alter_eq, Hrec. cbn [truthy_opt]. rewrite Htr. reflexivity.
  - rewrite list_lookup_insert_ne by done.
    rewrite !list_lookup_alter_ne by done. reflexivity.
Qed.

End Finish.

(** A queue of two instructions, the second of which is already marked
    complete, provisioned through the laboratory's dual-capable router. *)
Lemma provision_list_counts_witness :
  let q := [lab_instruction "TestNet" "abc12cd34" 5;
            <["CompletedTime" := JNum 9]> (lab_instruction "TestNet" "abc12cd34" 6)] in
  fst (fst (lab_run "ap" 120 ["both"] q)) = Ret (1, 1) /\
  length (filter (fun rec => selected (lab_args ["both"]) rec = true) q) = 1.
Proof.
  intros q.
  assert (Hret : fst (fst (lab_run "ap" 120 ["both"] q)) = Ret (1, 1))
    by (vm_compute; reflexivity).
  split; [exact Hret|].
  pose proof (provision_list_counts (lab_oracle "ap" 120) lab_json_loads lab_survey_ssid
                (lab_args ["both"]) None 100 lab_router_db 0 (lab_world [] q) 1 1
                (snd (fst (lab_run "ap" 120 ["both"] q))) (snd (lab_run "ap" 120 ["both"] q))
                (run_eta (lab_run "ap" 120 ["both"] q) (Ret (1, 1)) Hret)) as [_ H].
  symmetry. exact H.
Defined.

(** Three rounds in a laboratory where no factory device is in sight. *)
Lemma provision_rec_waits_witness :
  let w := lab_world [lab_node "192.168.1.1" true true "ap"]
             [lab_instruction "TestNet" "abc12cd34" 5] in
  provision_rec (lab_oracle "ap" 0) lab_json_loads lab_survey_ssid 3 (lab_args ["both"])
    None 0 0 0 0 0 w =
    (Diverge,
     [EvCmd "192.168.1.1" SiteSurvey; EvSleep 0; EvCmd "192.168.1.1" SiteSurvey; EvSleep 0;
      EvCmd "192.168.1.1" SiteSurvey; EvSleep 0], w).
Proof.
  intros w.
  apply (provision_rec_waits (lab_oracle "ap" 0) lab_json_loads lab_survey_ssid
           (lab_args ["both"]) None 0 0 0 0 (lab_node "192.168.1.1" true true "ap") 3 0 w).
  - reflexivity.
  - intros k Hk. split; reflexivity.
Defined.

(** A device that joined the target network and cannot be read by the
    host. *)
Lemma finish_up_device_no_status_witness :
  let w := lab_world [] [lab_instruction "TestNet" "abc12cd34" 5] in
  let run := finish_up_device (lab_oracle "ap" 0) 100 "10.0.0.7" 0 "provision-list"
               (lab_args ["both"]) None None (Some lab_settings) 0 w in
  fst (fst run) = Raise TypeError /\
  (fun rec => has_key rec "ConfirmedTime") <$> device_queue (snd run) !! 0 = Some true /\
  device_db (snd run) = device_db w /\ db_file (snd run) = [].
Proof.
  intros w run. subst run.
  rewrite (finish_up_device_no_status (lab_oracle "ap" 0) 100 "10.0.0.7" 0 "provision-list"
             (lab_args ["both"]) None lab_settings
             (lab_instruction "TestNet" "abc12cd34" 5) 0 w eq_refl eq_refl).
  split; [reflexivity|]. split; [vm_compute; reflexivity|]. split; reflexivity.
Defined.

(** ** Toggling *)

Ltac same_run :=
  repeat first [ reflexivity | lia | progress f_equal
               | match goal with
                 | |- context [match ?n with 0 => _ | S _ => _ end] => destruct n
                 end ].


Section Toggle.
Variable answer : nat -> toggle_type -> string.

Lemma toggle_loop_settled (ty : toggle_type) :
  (forall t, answer t ty <> "") ->
  forall fuel t sc fc,
    toggle_loop fuel answer t {| success_cnt := sc; fail_cnt := fc; use_type := Some ty |} =
      (false, concat (repeat [TgRead ty; TgSleep] fuel),
       {| success_cnt := fuel + sc;
          fail_cnt := match fuel with 0 => fc | S _ => 0 end;
          use_type := Some ty |}).
Proof.
  intros Hans. induction fuel as [|fuel IH]; intros t sc fc; [reflexivity|].
  cbn [toggle_loop]. unfold toggle_round. cbn [use_type success_cnt fail_cnt].
  destruct ty; cbn [tries_type length app Nat.add].
  - rewrite (bool_decide_eq_false_2 _ (Hans t)). cbn. rewrite ?orb_true_r.
    unfold toggle_done. cbn. rewrite IH. cbn [repeat concat app].
    same_run.
  - rewrite Nat.add_0_r. rewrite (bool_decide_eq_false_2 _ (Hans t)). cbn.
    rewrite ?orb_true_r. unfold toggle_done. cbn. rewrite IH. cbn [repeat concat app].
    same_run.
Qed.

(** X15 (toggle_device): as long as the device answers, the function does
    not return.  For a device that answers every request of type 'light',
    every number of passes of the loop is reached without the loop being
    left: each pass is one request of that type and a pause, the other
    type never being tried. *)
Theorem toggle_device_keeps_toggling (passes : nat) :
  (forall t, answer t Light <> "") ->
  toggle_device_requests passes answer =
    (false, concat (repeat [TgRead Light; TgSleep] passes),
     {| success_cnt := passes; fail_cnt := 0;
        use_type := match passes with 0 => None | S _ => Some Light end |}).
Proof.
  intros Hans. unfold toggle_device_requests. destruct passes as [|n]; [reflexivity|].
  cbn [toggle_loop]. unfold toggle_round. cbn [use_type success_cnt fail_cnt tries_type].
  rewrite (bool_decide_eq_false_2 _ (Hans 0)). cbn. rewrite ?orb_true_r.
  unfold toggle_done. cbn. rewrite (toggle_loop_settled Light Hans). cbn [repeat concat app].
  same_run.
Qed.




End Toggle.

(** A light that answers every request, after fifty passes. *)
Lemma toggle_device_keeps_toggling_witness :
  fst (fst (toggle_device_requests 50 (fun _ _ => "{}"))) = false /\
  length (snd (fst (toggle_device_requests 50 (fun _ _ => "{}")))) = 100.
Proof.
  rewrite (toggle_device_keeps_toggling (fun _ _ => "{}") 50 ltac:(discriminate)).
  split; reflexivity.
Defined.


(** ** Import *)

Section ImportRows.
Variables latlng_ok tz_ok : string -> bool.

Lemma for_keys_inv (P : list string -> dict -> Prop) f ks :
  (forall done k r r', k ∈ ks -> P done r -> f k r = inr r' -> P (done ++ [k])%list r') ->
  forall done r r', P done r -> for_keys f ks r = inr r' -> P (done ++ ks)%list r'.
Proof.
  induction ks as [|k ks IH]; intros Hstep done r r' HP H; cbn in H.
  - injection H as <-. by rewrite app_nil_r.
  - destruct (f k r) as [e|r1] eqn:E; [discriminate|]. cbn in H.
    replace (done ++ k :: ks)%list with ((done ++ [k]) ++ ks)%list
      by (by rewrite <- app_assoc).
    apply (IH (fun done k' r0 r0' Hk => Hstep done k' r0 r0' (list_elem_of_further _ _ _ Hk))
              (done ++ [k])%list r1 r'); [|exact H].
    apply (Hstep done k r r1); [by left|exact HP|exact E].
Qed.

Lemma for_keys_each f ks r r' :
  for_keys f ks r = inr r' -> forall k, k ∈ ks -> exists r1 r2, f k r1 = inr r2.
Proof.
  revert r. induction ks as [|k0 ks IH]; intros r H k Hk; [inversion Hk|].
  cbn in H. destruct (f k0 r) as [e|r1] eqn:E; [discriminate|]. cbn in H.
  apply elem_of_cons in Hk as [->|Hk]; [eauto|]. eapply IH; eauto.
Qed.

Lemma for_keys_total f ks :
  (forall k r, k ∈ ks -> exists r', f k r = inr r') ->
  forall r, exists r', for_keys f ks r = inr r'.
Proof.
  induction ks as [|k ks IH]; intros H r; [by eexists|].
  cbn. destruct (H k r ltac:(by left)) as [r1 ->]. cbn.
  apply IH. intros k' r0 Hk. apply H. by right.
Qed.

Lemma copy_required_ok row k r :
  (exists r', copy_required row k r = inr r') <->
  has_key row k = true \/ has_key row "ProbeIP" = true.
Proof.
  unfold copy_required.
  destruct (has_key row k), (has_key row "ProbeIP"); cbn; split; intros H; eauto.
  - destruct H; discriminate.
  - destruct H; discriminate.
Qed.

Lemma must_match_ok (ok : string -> bool) v e :
  e <> NotAString ->
  (must_match ok v e = inr tt <-> exists s, v = JStr s /\ ok s = true).
Proof.
  intros He. unfold must_match. destruct v; try (split; [discriminate|intros (s & [=] & _)]).
  destruct (ok s) eqn:E; split; intros H; eauto; try discriminate.
  destruct H as (s' & [= <-] & H). congruence.
Qed.

Lemma copy_optional_ok row k r :
  (exists r', copy_optional latlng_ok tz_ok row k r = inr r') <->
  key_ok latlng_ok tz_ok row k.
Proof.
  unfold copy_optional, key_ok.
  destruct (row !! k) as [v|] eqn:Hv; [|split; [intros _ v [=]|eauto]].
  destruct (truthy v) eqn:Ht.
  2:{ rewrite !andb_false_r. cbn. split; [intros _ v' [= <-]; congruence|eauto]. }
  rewrite !andb_true_r.
  destruct (decide (k = "StaticIP")) as [->|H1].
  { rewrite bool_decide_eq_true_2 by done. cbn [bool_decide]. unfold has_key.
    destruct (row !! "NetMask") as [m|] eqn:Hm; cbn [truthy_opt].
    - rewrite bool_decide_eq_true_2 by eauto. cbn [negb orb].
      destruct (truthy m); cbn; split; intros H; eauto.
      + intros v' [= <-] _. repeat split; done.
      + destruct H; discriminate.
      + destruct (H v eq_refl Ht) as [H0 _]. specialize (H0 eq_refl). discriminate.
    - rewrite bool_decide_eq_false_2 by (intros [? [=]]). cbn. split; intros H.
      + destruct H; discriminate.
      + destruct (H v eq_refl Ht) as [H0 _]. specialize (H0 eq_refl). discriminate. }
  rewrite (bool_decide_eq_false_2 _ H1). cbn [and_then].
  destruct (decide (k = "LatLng")) as [->|H2].
  { rewrite bool_decide_eq_true_2 by done. cbn [bool_decide and_then].
    pose proof (must_match_ok latlng_ok v BadLatLng ltac:(discriminate)) as Hm.
    destruct (must_match latlng_ok v BadLatLng) as [e|[]] eqn:E; cbn; split; intros H.
    - destruct H; discriminate.
    - destruct (H v eq_refl Ht) as (_ & H0 & _). specialize (H0 eq_refl).
      apply Hm in H0. discriminate.
    - intros v' [= <-] _. repeat split; try done. intros _. by apply Hm.
    - eauto. }
  rewrite (bool_decide_eq_false_2 _ H2). cbn [and_then].
  destruct (decide (k = "TZ")) as [->|H3].
  { rewrite bool_decide_eq_true_2 by done. cbn [bool_decide and_then].
    pose proof (must_match_ok tz_ok v BadTZ ltac:(discriminate)) as Hm.
    destruct (must_match tz_ok v BadTZ) as [e|[]] eqn:E; cbn; split; intros H.
    - destruct H; discriminate.
    - destruct (H v eq_refl Ht) as (_ & _ & H0 & _). specialize (H0 eq_refl).
      apply Hm in H0. discriminate.
    - intros v' [= <-] _. repeat split; try done. intros _. by apply Hm.
    - eauto. }
  rewrite (bool_decide_eq_false_2 _ H3). cbn [and_then].
  destruct (decide (k = "Access")) as [->|H4].
  { rewrite bool_decide_eq_true_2 by done. cbn [and_then].
    destruct (eq_str v "Continuous" || eq_str v "Periodic") eqn:E; cbn; split; intros H.
    - intros v' [= <-] _. repeat split; try done. intros _.
      apply orb_true_iff in E as [E|E]; destruct v; try discriminate;
        apply bool_decide_eq_true in E; subst; auto.
    - eauto.
    - destruct H; discriminate.
    - destruct (H v eq_refl Ht) as (_ & _ & _ & H0). specialize (H0 eq_refl).
      destruct H0 as [->| ->]; cbn in E; discriminate. }
  rewrite (bool_decide_eq_false_2 _ H4). cbn. split; [|eauto].
  intros _ v' [= <-] _. repeat split; done.
Qed.

Lemma snoc_other (k' k : string) (done : list string) :
  k' <> k -> bool_decide (k' ∈ (done ++ [k])%list) = bool_decide (k' ∈ done).
Proof.
  intros Hne. apply bool_decide_ext. rewrite elem_of_app, list_elem_of_singleton. tauto.
Qed.

Lemma snoc_self (k : string) (done : list string) :
  bool_decide (k ∈ (done ++ [k])%list) = true.
Proof.
  apply bool_decide_eq_true_2, elem_of_app. right. by apply list_elem_of_singleton.
Qed.

Lemma copy_required_copied row done k r r' :
  k <> "IP" -> k <> "StaticIP" ->
  copied row done r -> copy_required row k r = inr r' -> copied row (done ++ [k]) r'.
Proof.
  intros Hk1 Hk2 [Hip Hc] H. split.
  { rewrite elem_of_app, list_elem_of_singleton. intros [?|?]; [done|congruence]. }
  intros k'. unfold copy_required in H.
  destruct (negb (has_key row k) && negb (has_key row "ProbeIP")); [discriminate|].
  injection H as <-.
  specialize (Hc k') as Hk'.
  rewrite (snoc_other "StaticIP" k) by congruence.
  destruct (decide (k' = k)) as [->|Hne].
  - rewrite snoc_self.
    destruct (row !! k) as [v|] eqn:Hv; [by rewrite lookup_insert_eq|].
    rewrite Hk'. rewrite (bool_decide_eq_false_2 (k = "IP")) by done.
    destruct (bool_decide (k ∈ done)); done.
  - rewrite (snoc_other k' k) by done.
    destruct (row !! k) as [v|]; [rewrite lookup_insert_ne by done|]; exact Hk'.
Qed.

Lemma copy_optional_copied row done k r r' :
  k <> "IP" ->
  copied row done r -> copy_optional latlng_ok tz_ok row k r = inr r' ->
  copied row (done ++ [k]) r'.
Proof.
  intros Hk1 [Hip Hc] H. split.
  { rewrite elem_of_app, list_elem_of_singleton. intros [?|?]; [done|congruence]. }
  assert (exists r1, r' = match row !! k with Some v => <[k := v]> r1 | None => r1 end /\
            r1 = if bool_decide (k = "StaticIP") && truthy_opt (row !! k)
                 then match row !! k with Some v => <["IP" := v]> r | None => r end
                 else r) as (r1 & -> & ->).
  { unfold copy_optional in H. destruct (row !! k) as [v|] eqn:Hv.
    - cbn [truthy_opt]. destruct (bool_decide (k = "StaticIP") && truthy v).
      + destruct (_ || _); [discriminate|]. cbn [and_then] in H.
        repeat match type of H with
               | and_then ?x _ = _ => destruct x as [?|[]]; [discriminate|]; cbn [and_then] in H
               end.
        injection H as <-. eauto.
      + cbn [and_then] in H.
        repeat match type of H with
               | and_then ?x _ = _ => destruct x as [?|[]]; [discriminate|]; cbn [and_then] in H
               end.
        injection H as <-. eauto.
    - injection H as <-. rewrite andb_false_r. eauto. }
  intros k'. specialize (Hc k') as Hk'.
  destruct (decide (k' = k)) as [->|Hne].
  - rewrite snoc_self.
    destruct (row !! k) as [v|] eqn:Hv; [by rewrite lookup_insert_eq|].
    rewrite andb_false_r. rewrite Hk'. rewrite (bool_decide_eq_false_2 (k = "IP")) by done.
    destruct (bool_decide (k ∈ done)); done.
  - rewrite (snoc_other k' k) by done.
    destruct (decide (k = "StaticIP")) as [->|Hs].
    + rewrite snoc_self.
      rewrite (bool_decide_eq_true_2 ("StaticIP" = "StaticIP")) by done.
      cbn [andb].
      destruct (row !! "StaticIP") as [v|] eqn:Hv; cbn [truthy_opt].
      * rewrite lookup_insert_ne by done.
        destruct (truthy v) eqn:Ht.
        -- destruct (decide (k' = "IP")) as [->|Hip'].
           ++ rewrite lookup_insert_eq.
              rewrite (bool_decide_eq_false_2 ("IP" ∈ done)) by done. reflexivity.
           ++ rewrite lookup_insert_ne by done. rewrite Hk'.
              rewrite (bool_decide_eq_false_2 (k' = "IP")) by done. reflexivity.
        -- rewrite Hk'. cbn [truthy_opt]. rewrite Ht, ?andb_false_r. reflexivity.
      * rewrite Hk'. cbn [truthy_opt]. rewrite ?andb_false_r. reflexivity.
    + rewrite (bool_decide_eq_false_2 (k = "StaticIP")) by done. cbn [andb].
      rewrite (snoc_other "StaticIP" k) by congruence.
      destruct (row !! k) as [v|]; [rewrite lookup_insert_ne by done|]; exact Hk'.
Qed.

Lemma known_key_not_ip (k : string) :
  k ∈ (required_keys ++ optional_keys)%list -> k <> "IP".
Proof.
  intros Hk ->. unfold required_keys, optional_keys in Hk. cbn [app] in Hk.
  repeat (apply elem_of_cons in Hk as [Hk|Hk]; [discriminate Hk|]).
  by apply elem_of_nil in Hk.
Qed.

Lemma import_row_cut_down row r :
  import_row latlng_ok tz_ok row = inr r -> cut_down row r.
Proof.
  unfold import_row. intros H.
  destruct (for_keys (copy_required row) required_keys ∅) as [e|r1] eqn:E1; [discriminate|].
  cbn [and_then] in H.
  assert (copied row [] ∅) as H0.
  { split; [apply not_elem_of_nil|]. intros k. rewrite lookup_empty.
    rewrite bool_decide_eq_false_2 by apply not_elem_of_nil.
    rewrite (bool_decide_eq_false_2 ("StaticIP" ∈ [])) by apply not_elem_of_nil.
    cbn. by destruct (bool_decide _). }
  assert (copied row required_keys r1) as H1.
  { apply (for_keys_inv (copied row) (copy_required row) required_keys) with (done := []) (r := ∅);
      [|exact H0|exact E1].
    intros done k r0 r0' Hk. apply copy_required_copied.
    - apply known_key_not_ip, elem_of_app. by left.
    - intros ->. unfold required_keys in Hk.
      repeat (apply elem_of_cons in Hk as [Hk|Hk]; [discriminate Hk|]).
      by apply elem_of_nil in Hk. }
  assert (copied row (required_keys ++ optional_keys) r) as [_ H2].
  { apply (for_keys_inv (copied row) (copy_optional latlng_ok tz_ok row) optional_keys)
      with (r := r1); [|exact H1|exact H].
    intros done k r0 r0' Hk. apply copy_optional_copied.
    apply known_key_not_ip, elem_of_app. by right. }
  intros k. rewrite (H2 k).
  rewrite (bool_decide_eq_true_2 ("StaticIP" ∈ _)).
  - reflexivity.
  - unfold required_keys, optional_keys. cbn [app]. do 2 right. left.
Qed.

Lemma import_row_importable row :
  (exists r, import_row latlng_ok tz_ok row = inr r) <-> importable latlng_ok tz_ok row.
Proof.
  unfold import_row. split.
  - intros [r H].
    destruct (for_keys (copy_required row) required_keys ∅) as [e|r1] eqn:E1; [discriminate|].
    cbn [and_then] in H.
    assert (forall k, k ∈ required_keys ->
              has_key row k = true \/ has_key row "ProbeIP" = true) as Hreq.
    { intros k Hk. destruct (for_keys_each _ _ _ _ E1 k Hk) as (r2 & r3 & E).
      apply (copy_required_ok row k r2). eauto. }
    assert (forall k, k ∈ optional_keys -> key_ok latlng_ok tz_ok row k) as Hopt.
    { intros k Hk. destruct (for_keys_each _ _ _ _ H k Hk) as (r2 & r3 & E).
      apply (copy_optional_ok row k r2). eauto. }
    split; [|split; [|split; [|split]]].
    + destruct (Hreq "SSID" ltac:(by left)) as [H1|H1]; [|by left].
      destruct (Hreq "Password" ltac:(right; by left)) as [H2|H2]; [|by left].
      right. done.
    + pose proof (Hopt "StaticIP" ltac:(by left)) as Hk.
      destruct (row !! "StaticIP") as [v|] eqn:Hv; cbn; [|discriminate].
      intros Ht. by apply (Hk v Hv Ht).
    + pose proof (Hopt "LatLng" ltac:(do 8 right; by left)) as Hk.
      destruct (row !! "LatLng") as [v|] eqn:Hv; cbn; [|discriminate].
      intros Ht. destruct (Hk v Hv Ht) as (_ & Hl & _).
      destruct (Hl eq_refl) as (s & -> & Hs). eauto.
    + pose proof (Hopt "TZ" ltac:(do 9 right; by left)) as Hk.
      destruct (row !! "TZ") as [v|] eqn:Hv; cbn; [|discriminate].
      intros Ht. destruct (Hk v Hv Ht) as (_ & _ & Hl & _).
      destruct (Hl eq_refl) as (s & -> & Hs). eauto.
    + pose proof (Hopt "Access" ltac:(do 10 right; by left)) as Hk.
      destruct (row !! "Access") as [v|] eqn:Hv; cbn; [|discriminate].
      intros Ht. destruct (Hk v Hv Ht) as (_ & _ & _ & Hl).
      destruct (Hl eq_refl) as [-> | ->]; auto.
  - intros (Hreq & Hip & Hll & Htz & Hacc).
    destruct (for_keys_total (copy_required row) required_keys) with (r := (∅ : dict))
      as [r1 E1].
    { intros k r Hk. apply copy_required_ok. unfold required_keys in Hk.
      apply elem_of_cons in Hk as [->|Hk]; [tauto|].
      apply list_elem_of_singleton in Hk as ->. tauto. }
    rewrite E1. cbn [and_then]. apply for_keys_total.
    intros k r Hk. apply copy_optional_ok. intros v Hv Ht.
    repeat split; intros ->; rewrite Hv in *; cbn [truthy_opt] in *.
    + by apply Hip.
    + destruct (Hll Ht) as (s & [= ->] & Hs). eauto.
    + destruct (Htz Ht) as (s & [= ->] & Hs). eauto.
    + destruct (Hacc Ht) as [[= ->]|[= ->]]; auto.
Qed.

Variable o : oracle.

Lemma append_list_spec (l : list dict) :
  forall t dq r tr dq',
    append_list o latlng_ok tz_ok l t dq = (r, tr, dq') ->
    exists recs,
      dq' = (dq ++ recs)%list /\ tr = repeat EvTime (length recs) /\
      length recs <= length l /\
      (forall i rec, recs !! i = Some rec ->
         exists row r0, l !! i = Some row /\ import_row latlng_ok tz_ok row = inr r0 /\
                        rec = <["InsertTime" := JNum (o_clock o (t + i))]> r0) /\
      match r with
      | Ret None => length recs = length l
      | Ret (Some e) =>
          e <> NotAString /\
          exists row, l !! length recs = Some row /\ import_row latlng_ok tz_ok row = inl e
      | Raise e =>
          e = TypeError /\
          exists row, l !! length recs = Some row /\
                      import_row latlng_ok tz_ok row = inl NotAString
      | _ => False
      end.
Proof.
  induction l as [|row l IH]; intros t dq r tr dq' H; cbn [append_list] in H.
  - injection H as <- <- <-. exists []. rewrite app_nil_r. repeat split; try done.
  - destruct (import_row latlng_ok tz_ok row) as [e|r0] eqn:E.
    + exists []. rewrite app_nil_r.
      destruct e; injection H as <- <- <-; cbn [length];
        (split; [done|]); (split; [done|]); (split; [lia|]); (split; [done|]);
        (split; [done|]); exists row; done.
    + erewrite bind_run in H by reflexivity. cbn [length] in H.
      erewrite bind_run in H by reflexivity. cbn [length] in H.
      erewrite bind_run in H by reflexivity. cbn [length] in H.
      rewrite !prepend_prepend in H. cbn [app] in H.
      apply prepend_inv in H as (tr2 & H & ->).
      apply IH in H as (recs & -> & -> & Hlen & Hrecs & Hr).
      exists (<["InsertTime" := JNum (o_clock o t)]> r0 :: recs).
      split; [by rewrite <- app_assoc|]. split; [reflexivity|].
      split; [cbn [length]; lia|]. split.
      * intros [|i] rec Hi; cbn in Hi.
        -- injection Hi as <-. exists row, r0. rewrite Nat.add_0_r. done.
        -- destruct (Hrecs i rec Hi) as (row' & r1 & H1 & H2 & ->).
           exists row', r1. split; [exact H1|]. split; [exact H2|].
           do 3 f_equal. lia.
      * destruct r as [[e|]|x|e|]; cbn [length]; try done.
        lia.
Qed.

End ImportRows.

(** X17 (append_list): which rows are imported, and as what.  A row is
    accepted exactly when it has ProbeIP or both SSID and Password, when
    its StaticIP, if given, comes with a NetMask, when its LatLng and TZ,
    if given, are strings of the required form, and when its Access, if
    given, is Continuous or Periodic.  The record made of an accepted row
    holds the row's values under the keys the tool knows, StaticIP's
    value under IP as well, and nothing else: other columns are
    dropped. *)
Theorem import_row_accepts (latlng_ok tz_ok : string -> bool) (row : dict) :
  (importable latlng_ok tz_ok row <-> exists r, import_row latlng_ok tz_ok row = inr r) /\
  (forall r, import_row latlng_ok tz_ok row = inr r -> cut_down row r).
Proof.
  split.
  - symmetry. apply import_row_importable.
  - intros r. apply import_row_cut_down.
Qed.

(** The laboratory's row: the column Color is dropped and IP is set. *)
Lemma import_row_accepts_witness :
  exists r, import_row (fun _ => true) (fun _ => true) lab_row = inr r /\
            r !! "Color" = None /\ r !! "IP" = Some (JStr "10.0.0.9") /\
            r !! "SSID" = Some (JStr "TestNet").
Proof.
  destruct (import_row_accepts (fun _ => true) (fun _ => true) lab_row) as [H1 H2].
  destruct (proj1 H1) as [r Hr].
  - split; [right; split; reflexivity|]. split; [reflexivity|].
    repeat split; discriminate.
  - exists r. split; [exact Hr|]. specialize (H2 r Hr).
    rewrite (H2 "Color"), (H2 "IP"), (H2 "SSID"). repeat split; reflexivity.
Defined.

(** X18 (append_list): the function only appends.  However it ends, the
    queue is the queue it found followed by one record for each of the
    rows before the first refused one, in their order, each record being
    the row's record stamped with an InsertTime read from the clock; when
    it returns, every row was appended; when it leaves through
    [sys.exit()], the row at that position is the refused one. *)
Theorem append_list_appends (o : oracle) (latlng_ok tz_ok : string -> bool)
    (l : list dict) (t : nat) (dq : list dict) (r : res (option import_stop))
    (tr : list event) (dq' : list dict) :
  append_list o latlng_ok tz_ok l t dq = (r, tr, dq') ->
  exists recs,
    dq' = (dq ++ recs)%list /\ tr = repeat EvTime (length recs) /\
    (forall i rec, recs !! i = Some rec ->
       exists row r0, l !! i = Some row /\ import_row latlng_ok tz_ok row = inr r0 /\
                      rec = <["InsertTime" := JNum (o_clock o (t + i))]> r0) /\
    (r = Ret None -> length recs = length l) /\
    (forall e, r = Ret (Some e) ->
       exists row, l !! length recs = Some row /\ import_row latlng_ok tz_ok row = inl e).
Proof.
  intros H. apply append_list_spec in H as (recs & H1 & H2 & _ & H3 & H4).
  exists recs. split; [exact H1|]. split; [exact H2|]. split; [exact H3|]. split.
  - intros ->. exact H4.
  - intros e ->. apply H4.
Qed.

(** Two good rows and a bad one between them. *)
Lemma append_list_appends_witness :
  let run := append_list (lab_oracle "ap" 0) (fun _ => true) (fun _ => true)
               [lab_row; lab_bad_row; lab_row] 0 [] in
  fst (fst run) = Ret (Some (MissingKey "Password")) /\
  exists recs, snd run = recs /\ snd (fst run) = repeat EvTime (length recs) /\
               length recs = 1.
Proof.
  intros run.
  assert (Hret : fst (fst run) = Ret (Some (MissingKey "Password")))
    by (vm_compute; reflexivity).
  split; [exact Hret|].
  destruct (append_list_appends (lab_oracle "ap" 0) (fun _ => true) (fun _ => true)
              [lab_row; lab_bad_row; lab_row] 0 [] (fst (fst run)) (snd (fst run))
              (snd run) (run_eta run (fst (fst run)) eq_refl))
    as (recs & H1 & H2 & _).
  exists recs. split; [exact H1|]. split; [exact H2|].
  assert (length (snd (fst run)) = 1) as Hlen by (vm_compute; reflexivity).
  rewrite H2, repeat_length in Hlen. exact Hlen.
Defined.

Lemma cut_down_no_stamp (row r : dict) (k : string) :
  cut_down row r -> is_stamp k = true -> r !! k = None.
Proof.
  intros Hc Hk. rewrite (Hc k). unfold is_stamp in Hk.
  repeat (apply orb_true_iff in Hk as [Hk|Hk]);
    apply bool_decide_eq_true in Hk; subst k; reflexivity.
Qed.

Lemma timeline_fresh (now z : Z) (row r : dict) :
  cut_down row r -> (z <= now)%Z -> timeline now (<["InsertTime" := JNum z]> r).
Proof.
  intros Hc Hz. unfold timeline.
  rewrite lookup_insert_eq, !lookup_insert_ne by done.
  rewrite (cut_down_no_stamp row r "InProgressTime" Hc eq_refl).
  rewrite (cut_down_no_stamp row r "CompletedTime" Hc eq_refl).
  rewrite (cut_down_no_stamp row r "ConfirmedTime" Hc eq_refl).
  repeat split; try discriminate. intros z' [= <-]. exact Hz.
Qed.

(** X19 (append_list): imported records are well stamped.  With a clock
    that does not go backwards, a queue whose records carry well-ordered
    timestamps still does after [append_list], however it ends: each new
    record has its InsertTime and none of InProgressTime, CompletedTime
    and ConfirmedTime, whatever the import file held under these
    names. *)
Theorem append_list_timeline (o : oracle) (latlng_ok tz_ok : string -> bool)
    (l : list dict) (t : nat) (dq : list dict) (r : res (option import_stop))
    (tr : list event) (dq' : list dict) :
  clock_mono o ->
  Forall (timeline (o_clock o t)) dq ->
  append_list o latlng_ok tz_ok l t dq = (r, tr, dq') ->
  Forall (timeline (o_clock o (t + length tr))) dq' /\
  forall i rec, length dq <= i -> dq' !! i = Some rec ->
    is_Some (rec !! "InsertTime") /\ rec !! "InProgressTime" = None /\
    rec !! "CompletedTime" = None /\ rec !! "ConfirmedTime" = None.
Proof.
  intros Hmono HF H. apply append_list_spec in H as (recs & -> & -> & _ & Hrecs & _).
  rewrite repeat_length. split.
  - apply Forall_app. split.
    + eapply Forall_impl; [exact HF|]. intros rec. apply timeline_mono, Hmono. lia.
    + apply Forall_lookup. intros i rec Hi.
      destruct (Hrecs i rec Hi) as (row & r0 & _ & Hr0 & ->).
      apply (timeline_fresh _ _ row); [by apply (import_row_cut_down latlng_ok tz_ok)|].
      apply Hmono. apply lookup_lt_Some in Hi. lia.
  - intros i rec Hi Hrec. rewrite lookup_app_r in Hrec by exact Hi.
    destruct (Hrecs _ rec Hrec) as (row & r0 & _ & Hr0 & ->).
    apply (import_row_cut_down latlng_ok tz_ok) in Hr0.
    rewrite lookup_insert_eq, !lookup_insert_ne by done.
    rewrite (cut_down_no_stamp row r0 "InProgressTime" Hr0 eq_refl).
    rewrite (cut_down_no_stamp row r0 "CompletedTime" Hr0 eq_refl).
    rewrite (cut_down_no_stamp row r0 "ConfirmedTime" Hr0 eq_refl).
    split; [eauto|done].
Qed.

(** A row that brings its own CompletedTime, imported into an empty
    queue. *)
Lemma append_list_timeline_witness :
  let o := lab_oracle "ap" 0 in
  let run := append_list o (fun _ => true) (fun _ => true)
               [<["CompletedTime" := JNum 1]> lab_row] 0 [] in
  Forall (timeline (o_clock o (0 + length (snd (fst run))))) (snd run) /\
  (fun rec => has_key rec "CompletedTime") <$> snd run !! 0 = Some false.
Proof.
  intros o run. split; [|vm_compute; reflexivity].
  apply (append_list_timeline o (fun _ => true) (fun _ => true)
           [<["CompletedTime" := JNum 1]> lab_row] 0 [] (fst (fst run)) (snd (fst run))
           (snd run)).
  - intros a b Hab. cbn. lia.
  - constructor.
  - apply run_eta. reflexivity.
Defined.

(** X20 (read_json_file, append_list): what an import leaves is accepted
    at the next start.  When the queue was empty or had SSID or ProbeIP in
    its first record, the queue that [append_list] leaves, written to the
    queue file, is read back by [read_json_file] with the validation the
    tool uses for that file, and is not refused. *)
Theorem read_json_file_after_import (o : oracle) (latlng_ok tz_ok : string -> bool)
    (json_load : string -> option json) (l : list dict) (t : nat) (dq : list dict)
    (r : res (option import_stop)) (tr : list event) (dq' : list dict) (text : string) :
  queue_valid dq ->
  append_list o latlng_ok tz_ok l t dq = (r, tr, dq') ->
  json_load text = Some (JArr (JObj <$> dq')) ->
  read_json_file json_load (Some text) (JArr []) (ValidateKeys ["SSID"; "ProbeIP"]) =
    ReadRet (JArr (JObj <$> dq')).
Proof.
  intros Hv H Hload. apply append_list_spec in H as (recs & -> & _ & _ & Hrecs & _).
  unfold read_json_file. rewrite Hload. cbn [validates same_type negb].
  assert (queue_valid (dq ++ recs)) as Hq.
  { destruct dq as [|first dq]; [|exact Hv]. cbn [app].
    destruct recs as [|rec recs]; [exact I|]. cbn.
    destruct (Hrecs 0 rec eq_refl) as (row & r0 & _ & Hr0 & ->).
    pose proof (import_row_cut_down _ _ _ _ Hr0) as Hc.
    pose proof (proj1 (import_row_importable _ _ _) (ex_intro _ r0 Hr0)) as [Hreq _].
    unfold has_key in *. rewrite !lookup_insert_ne by done.
    rewrite (Hc "SSID"), (Hc "ProbeIP").
    destruct Hreq as [Hp|[Hs _]]; [right|left]; assumption. }
  destruct (dq ++ recs)%list as [|first rest]; [reflexivity|].
  cbn [fmap list_fmap any_key_in py_in]. cbn in Hq.
  destruct Hq as [-> | ->]; [|reflexivity].
  rewrite orb_true_r. reflexivity.
Qed.

(** The laboratory's row imported into an empty queue. *)
Lemma read_json_file_after_import_witness :
  let dq' := snd (append_list (lab_oracle "ap" 0) (fun _ => true) (fun _ => true)
                    [lab_row] 0 []) in
  length dq' = 1 /\
  read_json_file (fun _ => Some (JArr (JObj <$> dq'))) (Some "queue") (JArr [])
    (ValidateKeys ["SSID"; "ProbeIP"]) = ReadRet (JArr (JObj <$> dq')).
Proof.
  intros dq'. split; [vm_compute; reflexivity|].
  apply (read_json_file_after_import (lab_oracle "ap" 0) (fun _ => true) (fun _ => true)
           (fun _ => Some (JArr (JObj <$> dq'))) [lab_row] 0 []
           (fst (fst (append_list (lab_oracle "ap" 0) (fun _ => true) (fun _ => true)
                        [lab_row] 0 [])))
           (snd (fst (append_list (lab_oracle "ap" 0) (fun _ => true) (fun _ => true)
                        [lab_row] 0 [])))
           dq' "queue").
  - exact I.
  - apply run_eta. reflexivity.
  - reflexivity.
Defined.

(** X21 (import_csv, import_json): the queue file is written only when
    every row was accepted.  After an import that returned, the queue
    file holds the queue in memory; after an import that ended in any
    other way, with a refused row in particular, the queue file is as it
    was.  The connection objects, the device db and its file are not
    touched. *)
Theorem import_writes_all_or_nothing (o : oracle) (latlng_ok tz_ok : string -> bool)
    (rows : list dict) (t : nat) (w : world) (r : res (option import_stop))
    (tr : list event) (w' : world) :
  import_csv o latlng_ok tz_ok rows t w = (r, tr, w') ->
  nodes w' = nodes w /\ device_db w' = device_db w /\ db_file w' = db_file w /\
  (r = Ret None -> queue_file w' = device_queue w' :: queue_file w) /\
  (r <> Ret None -> queue_file w' = queue_file w).
Proof.
  unfold import_csv, bind, lift. intros H.
  destruct (append_list o latlng_ok tz_ok rows t (device_queue w)) as [[r1 tr1] dq1] eqn:E.
  apply append_list_spec in E as (recs & -> & -> & _ & _ & Hr).
  destruct r1 as [[e|]|x|e|]; try done.
  - injection H as <- <- <-. cbn. repeat split; try done.
  - unfold write_queue, bind, ask, get, put, exit, ret, prepend in H.
    destruct (o_ok o _); injection H as <- <- <-; cbn; repeat split; try done.
  - injection H as <- <- <-. cbn. repeat split; try done.
Qed.

(** A file with a refused row, and a file of one good row. *)
Lemma import_writes_all_or_nothing_witness :
  let w := lab_world [] [] in
  let bad := import_csv (lab_oracle "ap" 0) (fun _ => true) (fun _ => true)
               [lab_row; lab_bad_row] 0 w in
  let good := import_csv (lab_oracle "ap" 0) (fun _ => true) (fun _ => true)
                [lab_row] 0 w in
  queue_file (snd bad) = [] /\ queue_file (snd good) = [device_queue (snd good)] /\
  length (device_queue (snd good)) = 1.
Proof.
  intros w bad good.
  destruct (import_writes_all_or_nothing (lab_oracle "ap" 0) (fun _ => true) (fun _ => true)
              [lab_row; lab_bad_row] 0 w (fst (fst bad)) (snd (fst bad)) (snd bad)
              (run_eta bad (fst (fst bad)) eq_refl)) as (_ & _ & _ & _ & Hbad).
  destruct (import_writes_all_or_nothing (lab_oracle "ap" 0) (fun _ => true) (fun _ => true)
              [lab_row] 0 w (fst (fst good)) (snd (fst good)) (snd good)
              (run_eta good (fst (fst good)) eq_refl)) as (_ & _ & _ & Hgood & _).
  split; [apply Hbad; vm_compute; discriminate|].
  split; [apply Hgood; vm_compute; reflexivity|vm_compute; reflexivity].
Defined.

(** ** Learning *)

Section Learn.
Variable o : oracle.

Lemma learn_prefix {A} (address : string) (t : nat) (mac mode : string) (info : dict)
    (s : learn_store) (k : string -> string -> dict -> M learn_store A) :
  learnable o address t mac mode info ->
  (conn <- ddwrt_establish_connection o address ;;
   et0macaddr <- ddwrt_get_single_line_result o conn (NvramGet "et0macaddr") ;;
   ddwrt_info <- learn_info o conn learn_terms ∅ ;;
   k conn et0macaddr ddwrt_info) t s =
    prepend (learn_events address) (k address mac info (t + 8) s).
Proof.
  intros (Hok & Hmac & Hinfo & _).
  erewrite (bind_run (ddwrt_establish_connection o address)).
  2:{ unfold ddwrt_establish_connection, io_ok, ddwrt_sync_connection, bind, ask, emit.
      rewrite Hok. cbn. reflexivity. }
  cbn [length].
  rewrite (bind_run _ _ _ _ _ _ _ (single_line_run _ _ _ _ _ _ Hmac)). cbn [length].
  replace (t + 2 + 1) with (t + 3) by lia.
  rewrite (bind_run _ _ _ _ _ _ _ (Hinfo _ s)).
  rewrite !prepend_prepend. cbn [length fmap list_fmap learn_terms].
  replace (t + 3 + 5) with (t + 8) by lia. reflexivity.
Qed.

Lemma learn_new_run (name address password : string) (t : nat) (s : learn_store)
    (mac mode : string) (info : dict) :
  known s !! name = None ->
  learnable o address t mac mode info ->
  let entry := <["InsertTime" := JNum (o_clock o (t + 8))]>
                 (new_entry name address password mac mode info) in
  let db := <[name := JObj entry]> (known s) in
  ddwrt_learn o true name address password t s =
    (Ret Learned, (learn_events address ++ [EvTime])%list,
     {| known := db; router_file := db :: router_file s |}).
Proof.
  intros Hnew Hl entry db.
  unfold ddwrt_learn. rewrite (learn_prefix address t mac mode info s _ Hl).
  destruct Hl as (_ & _ & _ & Hm).
  erewrite (bind_run get) by reflexivity. cbn [length]. rewrite prepend_nil, Nat.add_0_r.
  rewrite Hnew. unfold dget. rewrite Hm. cbn [orraise jstr].
  erewrite (bind_run (bind _ _)).
  2:{ erewrite bind_run by reflexivity. erewrite bind_run by reflexivity. reflexivity. }
  cbn [length app]. rewrite prepend_nil, !Nat.add_0_r.
  erewrite bind_run by reflexivity. cbn [length].
  erewrite bind_run by reflexivity. reflexivity.
Qed.

Lemma new_entry_fields (name address password mac mode : string) (info : dict) (now : Z) :
  mode = "ap" \/ mode = "sta" ->
  let entry := <["InsertTime" := JNum now]>
                 (new_entry name address password mac mode info) in
  entry !! "address" = Some (JStr address) /\
  entry !! "password" = Some (JStr password) /\
  entry !! "et0macaddr" = Some (JStr mac) /\
  entry !! mode = Some (JObj info) /\
  has_key entry "ap" = bool_decide (mode = "ap") /\
  has_key entry "sta" = bool_decide (mode = "sta").
Proof.
  intros Hmode entry. subst entry. unfold new_entry, has_key.
  destruct Hmode as [-> | ->]; repeat split; reflexivity.
Qed.

Lemma learn_info_keys {St} (conn : string) (terms : list string) :
  forall (info0 info : dict) t (s s' : St) tr,
    learn_info o conn terms info0 t s = (Ret info, tr, s') ->
    forall k, k ∈ terms \/ (exists v, info0 !! k = Some (JStr v)) ->
      exists v, info !! k = Some (JStr v).
Proof.
  induction terms as [|term terms IH]; intros info0 info t s s' tr H k Hk.
  - cbn in H. injection H as <- _ _. destruct Hk as [Hk|Hk]; [|exact Hk].
    by apply elem_of_nil in Hk.
  - cbn [learn_info] in H.
    apply bind_inv in H as [(v & tr1 & s1 & tr2 & _ & H & _)|(r1 & _ & Hk1 & Hr)];
      [|cbn in Hr; congruence].
    apply (IH _ _ _ _ _ _ H).
    destruct (decide (k = term)) as [->|Hne]; [right; rewrite lookup_insert_eq; eauto|].
    destruct Hk as [Hk|Hk].
    + left. apply elem_of_cons in Hk as [Hk|Hk]; done.
    + right. by rewrite lookup_insert_ne.
Qed.

(** X22 (ddwrt_learn): a router learned under a new name.  The entry
    made for it holds the address and the password given, the
    et0macaddr the router reported, and the settings read from the
    router under the router's wireless mode; the router file is written
    with it.  A router learned in AP mode only is capable of the AP role
    and not of the STA role, and conversely. *)
Theorem ddwrt_learn_new (name address password : string) (t : nat) (s : learn_store)
    (mac mode : string) (info : dict) :
  known s !! name = None ->
  learnable o address t mac mode info ->
  mode = "ap" \/ mode = "sta" ->
  let entry := <["InsertTime" := JNum (o_clock o (t + 8))]>
                 (new_entry name address password mac mode info) in
  let db := <[name := JObj entry]> (known s) in
  ddwrt_learn o true name address password t s =
    (Ret Learned, (learn_events address ++ [EvTime])%list,
     {| known := db; router_file := db :: router_file s |}) /\
  entry !! "address" = Some (JStr address) /\
  entry !! "password" = Some (JStr password) /\
  entry !! "et0macaddr" = Some (JStr mac) /\
  entry !! mode = Some (JObj info) /\
  has_key entry "ap" = bool_decide (mode = "ap") /\
  has_key entry "sta" = bool_decide (mode = "sta").
Proof.
  intros Hnew Hl Hmode entry db. split.
  - by apply learn_new_run.
  - by apply new_entry_fields.
Qed.

(** X23 (ddwrt_learn): a name that is already known.  When the router
    reports another et0macaddr than the one stored under the name, the
    program ends: the router db is as it was and no file is written.
    When it reports the stored one, the settings read are put under the
    router's wireless mode in the stored entry, which is otherwise kept:
    a profile learned before in the other mode stays, and so does the
    address stored before, whatever address was given this time. *)
Theorem ddwrt_learn_again (name address password : string) (t : nat) (s : learn_store)
    (mac mode : string) (info old : dict) (old_mac : string) :
  known s !! name = Some (JObj old) ->
  old !! "et0macaddr" = Some (JStr old_mac) ->
  learnable o address t mac mode info ->
  mode = "ap" \/ mode = "sta" ->
  (old_mac <> mac ->
   ddwrt_learn o true name address password t s =
     (Ret NameTaken, learn_events address, s)) /\
  (old_mac = mac ->
   let entry := <["InsertTime" := JNum (o_clock o (t + 8))]> (<[mode := JObj info]> old) in
   let db := <[name := JObj entry]> (known s) in
   ddwrt_learn o true name address password t s =
     (Ret Learned, (learn_events address ++ [EvTime])%list,
      {| known := db; router_file := db :: router_file s |}) /\
   entry !! mode = Some (JObj info) /\
   forall k, k <> mode -> k <> "InsertTime" -> entry !! k = old !! k).
Proof.
  intros Hold Hmac Hl Hmode. split.
  - intros Hne. unfold ddwrt_learn. rewrite (learn_prefix address t mac mode info s _ Hl).
    erewrite (bind_run get) by reflexivity. cbn [length]. rewrite prepend_nil, Nat.add_0_r.
    rewrite Hold.
    erewrite (bind_run (bind _ _)).
    2:{ rewrite (bind_run _ _ _ _ _ _ _ (jget_run _ _ _ _ _ Hmac)).
        cbn [eq_str]. rewrite bool_decide_eq_false_2 by exact Hne. cbn [negb jstr].
        erewrite bind_run by reflexivity. reflexivity. }
    destruct s; reflexivity.
  - intros <- entry db. split; [|split].
    + unfold ddwrt_learn. rewrite (learn_prefix address t old_mac mode info s _ Hl).
      destruct Hl as (_ & _ & _ & Hm).
      erewrite (bind_run get) by reflexivity. cbn [length].
      rewrite prepend_nil, Nat.add_0_r. rewrite Hold.
      erewrite (bind_run (bind _ _)).
      2:{ rewrite (bind_run _ _ _ _ _ _ _ (jget_run _ _ _ _ _ Hmac)).
          cbn [eq_str]. rewrite bool_decide_eq_true_2 by reflexivity. cbn [negb].
          unfold dget. rewrite Hm. cbn [orraise jstr].
          erewrite bind_run by reflexivity. erewrite bind_run by reflexivity. reflexivity. }
      cbn [length app]. rewrite prepend_nil, !Nat.add_0_r.
      erewrite bind_run by reflexivity. cbn [length].
      erewrite bind_run by reflexivity. reflexivity.
    + subst entry. rewrite lookup_insert_ne by (destruct Hmode as [-> | ->]; done).
      by rewrite lookup_insert_eq.
    + intros k Hk1 Hk2. subst entry. by rewrite !lookup_insert_ne.
Qed.

(** X24 (ddwrt_learn, ddwrt_connect_to_known_router): a router learned
    under a new name can be connected to and programmed.  As long as the
    router at the address reports the et0macaddr it reported when it was
    learned, [ddwrt_connect_to_known_router] returns a connection to it
    on the router db that [ddwrt_learn] left; the router is capable of
    the role it was learned in and of no other; and its profile for that
    role holds, as a string, each of the settings [ddwrt_set_ap_mode]
    and [ddwrt_set_sta_mode] copy from it. *)
Theorem ddwrt_learn_then_connect {St : Type} (name address password : string) (t : nat)
    (s : learn_store) (mac mode : string) (info : dict) (t' : nat) (st : St)
    (current : string) :
  known s !! name = None ->
  learnable o address t mac mode info ->
  mode = "ap" \/ mode = "sta" ->
  o_ok o t' = true ->
  single_line (o_cmd o (t' + 2) address (NvramGet "et0macaddr")) mac ->
  single_line (o_cmd o (t' + 3) address (NvramGet "wl_mode")) current ->
  exists nd,
    ddwrt_connect_to_known_router o
      (known (snd (ddwrt_learn o true name address password t s))) name t' st =
      (Ret nd,
       [EvTelnetOpen address; EvSync address; EvCmd address (NvramGet "et0macaddr");
        EvCmd address (NvramGet "wl_mode")], st) /\
    n_conn nd = address /\ n_current_mode nd = JStr current /\
    ap_capable nd = bool_decide (mode = "ap") /\
    sta_capable nd = bool_decide (mode = "sta") /\
    forall k, k ∈ ["sta_ifname"; "wl0_hw_rxchain"; "wl0_hw_txchain"; "wan_hwaddr"] ->
      exists v, forall t'' (st'' : St),
        from_profile (n_router nd) (JStr mode) k t'' st'' = (Ret v, [], st'').
Proof.
  intros Hnew Hl Hmode Hok Hmac Hcur.
  rewrite (learn_new_run name address password t s mac mode info Hnew Hl).
  cbn [snd known].
  destruct (new_entry_fields name address password mac mode info (o_clock o (t + 8)) Hmode)
    as (Ha & Hp & Hm & Hi & Hap & Hsta).
  eexists. split.
  - eapply (connect_known_run o); try eassumption.
    + apply lookup_insert_eq.
    + eauto.
    + cbn. by apply bool_decide_eq_true_2.
  - cbn [n_conn n_current_mode n_router]. unfold ap_capable, sta_capable.
    cbn [n_router]. split; [done|]. split; [done|]. split; [exact Hap|].
    split; [exact Hsta|].
    intros k Hk. destruct Hl as (_ & _ & Hinfo & _).
    destruct (learn_info_keys address learn_terms ∅ info (t + 3) tt tt _ (Hinfo unit tt) k)
      as [v Hv].
    { left. unfold learn_terms.
      repeat (apply elem_of_cons in Hk as [->|Hk];
              [by repeat first [apply list_elem_of_here | apply list_elem_of_further]|]).
      by apply elem_of_nil in Hk. }
    exists v. intros t'' st''. unfold from_profile, dget.
    rewrite Hi. cbn [orraise].
    erewrite bind_run by reflexivity.
    rewrite (bind_run _ _ _ _ _ _ _ (jget_run _ _ _ _ _ Hv)). reflexivity.
Qed.

End Learn.

Lemma lab_learnable (mode address : string) (t : nat) :
  learnable (lab_learn_oracle mode) address t ("mac-of-" +:+ address) mode (lab_info mode).
Proof.
  split; [reflexivity|]. split; [|split; [|reflexivity]].
  - split; [reflexivity|]. split; [vm_compute; lia|reflexivity].
  - intros St s. reflexivity.
Qed.

(** The laboratory's router learned in AP mode under a new name. *)
Lemma ddwrt_learn_new_witness :
  let run := ddwrt_learn (lab_learn_oracle "ap") true "depot" "192.168.1.7" "secret" 0
               {| known := ∅; router_file := [] |} in
  fst (fst run) = Ret Learned /\ length (router_file (snd run)) = 1 /\
  exists entry, known (snd run) !! "depot" = Some (JObj entry) /\
                has_key entry "ap" = true /\ has_key entry "sta" = false.
Proof.
  intros run.
  destruct (ddwrt_learn_new (lab_learn_oracle "ap") "depot" "192.168.1.7" "secret" 0
              {| known := ∅; router_file := [] |} "mac-of-192.168.1.7" "ap" (lab_info "ap")
              (lookup_empty _) (lab_learnable "ap" "192.168.1.7" 0) (or_introl eq_refl))
    as (Hrun & _ & _ & _ & _ & Hap & Hsta).
  subst run. rewrite Hrun. cbn [fst snd known router_file length].
  split; [reflexivity|]. split; [reflexivity|].
  eexists. split; [apply lookup_insert_eq|]. split; [exact Hap|exact Hsta].
Defined.

(** The router learned in AP mode is learned again in STA mode under the
    same name; and another router is learned under that name. *)
Lemma ddwrt_learn_again_witness :
  let old := <["InsertTime" := JNum 1008]>
               (new_entry "depot" "192.168.1.7" "secret" "mac-of-192.168.1.7" "ap"
                  (lab_info "ap")) in
  let s := {| known := <["depot" := JObj old]> ∅; router_file := [] |} in
  let again := ddwrt_learn (lab_learn_oracle "sta") true "depot" "192.168.1.7" "secret" 0 s in
  let other := ddwrt_learn (lab_learn_oracle "sta") true "depot" "192.168.1.8" "secret" 0 s in
  fst (fst again) = Ret Learned /\
  (exists entry, known (snd again) !! "depot" = Some (JObj entry) /\
                 has_key entry "ap" = true /\ has_key entry "sta" = true) /\
  fst (fst other) = Ret NameTaken /\ snd other = s.
Proof.
  intros old s again other.
  destruct (ddwrt_learn_again (lab_learn_oracle "sta") "depot" "192.168.1.7" "secret" 0 s
              "mac-of-192.168.1.7" "sta" (lab_info "sta") old "mac-of-192.168.1.7"
              ltac:(reflexivity) ltac:(reflexivity) (lab_learnable "sta" "192.168.1.7" 0)
              (or_intror eq_refl))
    as [_ Hsame].
  destruct (ddwrt_learn_again (lab_learn_oracle "sta") "depot" "192.168.1.8" "secret" 0 s
              "mac-of-192.168.1.8" "sta" (lab_info "sta") old "mac-of-192.168.1.7"
              ltac:(reflexivity) ltac:(reflexivity) (lab_learnable "sta" "192.168.1.8" 0)
              (or_intror eq_refl))
    as [Hother _].
  destruct (Hsame eq_refl) as (Hrun & Hsta & Hkeep).
  subst again other. rewrite Hrun, (Hother ltac:(discriminate)).
  cbn [fst snd known]. split; [reflexivity|]. split; [|split; reflexivity].
  eexists. split; [apply lookup_insert_eq|]. unfold has_key. split.
  - rewrite (Hkeep "ap") by discriminate. reflexivity.
  - rewrite Hsta. reflexivity.
Defined.

(** The router learned in STA mode and connected to while it reports AP
    mode. *)
Lemma ddwrt_learn_then_connect_witness :
  exists nd,
    fst (fst (ddwrt_connect_to_known_router (lab_learn_oracle "sta")
                (known (snd (ddwrt_learn (lab_learn_oracle "sta") true "depot"
                               "192.168.1.7" "secret" 0
                               {| known := ∅; router_file := [] |})))
                "depot" 20 tt)) = Ret nd /\
    sta_capable nd = true /\ ap_capable nd = false.
Proof.
  destruct (ddwrt_learn_then_connect (lab_learn_oracle "sta") "depot" "192.168.1.7" "secret"
              0 {| known := ∅; router_file := [] |} "mac-of-192.168.1.7" "sta"
              (lab_info "sta") 20 tt "sta" (lookup_empty _)
              (lab_learnable "sta" "192.168.1.7" 0)
              (or_intror eq_refl) eq_refl)
    as (nd & Hrun & _ & _ & Hap & Hsta & _).
  - split; [reflexivity|]. split; [vm_compute; lia|reflexivity].
  - split; [reflexivity|]. split; [vm_compute; lia|reflexivity].
  - exists nd. rewrite Hrun. split; [reflexivity|]. rewrite Hap, Hsta. split; reflexivity.
Defined.

(** ** Conditions *)

Lemma py_split_plain (c : ascii) (s : string) :
  has_char c s = false -> py_split c s = [s].
Proof.
  induction s as [|a s IH]; cbn [py_split has_char]; [reflexivity|].
  intros H. apply orb_false_iff in H as [H1 H2]. rewrite H1, (IH H2). reflexivity.
Qed.

Lemma append_nil (s : string) : "" +:+ s = s.
Proof. reflexivity. Qed.

Lemma append_cons (x : ascii) (a b : string) : String x a +:+ b = String x (a +:+ b).
Proof. reflexivity. Qed.

Lemma py_split_at (c : ascii) (a b : string) :
  has_char c a = false -> py_split c (a +:+ String c b) = a :: py_split c b.
Proof.
  induction a as [|x a IH]; rewrite ?append_nil, ?append_cons; cbn [py_split has_char].
  - intros _. rewrite Ascii.eqb_refl. reflexivity.
  - intros H. apply orb_false_iff in H as [H1 H2]. rewrite H1, (IH H2). reflexivity.
Qed.

Lemma has_char_app (c : ascii) (a b : string) :
  has_char c (a +:+ b) = has_char c a || has_char c b.
Proof.
  induction a as [|x a IH]; rewrite ?append_nil, ?append_cons; cbn [has_char];
    [reflexivity|].
  by rewrite IH, orb_assoc.
Qed.

Lemma as_term_split (p : string * string) :
  plain p -> py_split "=" (as_term p) = [fst p; snd p].
Proof.
  intros (_ & H1 & _ & H2). unfold as_term.
  change ("=" +:+ snd p) with (String "=" (snd p)).
  rewrite (py_split_at "=" _ _ H1), (py_split_plain "=" _ H2). reflexivity.
Qed.

Lemma as_term_no_comma (p : string * string) :
  plain p -> has_char "," (as_term p) = false.
Proof.
  intros (H1 & _ & H2 & _). unfold as_term. rewrite !has_char_app, H1, H2. reflexivity.
Qed.

Lemma terms_split (ps : list (string * string)) :
  ps <> [] -> Forall plain ps ->
  py_split "," (String.concat "," (map as_term ps)) = map as_term ps.
Proof.
  induction ps as [|p ps IH]; [done|]. intros _ HF.
  apply Forall_cons in HF as [Hp HF].
  destruct ps as [|q ps].
  - cbn [map String.concat]. apply py_split_plain, as_term_no_comma, Hp.
  - cbn [map String.concat] in *.
    change ("," +:+ ?x) with (String "," x).
    rewrite (py_split_at "," _ _ (as_term_no_comma p Hp)). f_equal.
    apply IH; [done|exact HF].
Qed.

Lemma concat_not_empty (ps : list (string * string)) :
  ps <> [] -> String.concat "," (map as_term ps) <> "".
Proof.
  destruct ps as [|p [|q ps]]; [done| |]; intros _.
  - cbn. unfold as_term. destruct (fst p); discriminate.
  - cbn [map String.concat]. unfold as_term. destruct (fst p); discriminate.
Qed.

(** X25 (get_name_value_pairs): conditions typed as name=value,name=value
    are read back as the pairs they stand for, in their order, provided
    no name and no value contains a comma or an equals sign; no
    condition at all, an option that is not given or is empty, gives no
    pair; and a text with a term that has no equals sign ends the
    program. *)
Theorem get_name_value_pairs_reads (ps : list (string * string)) (s : string) :
  (Forall plain ps ->
   get_name_value_pairs (Some (String.concat "," (map as_term ps))) =
     Some (map (fun p => [fst p; snd p]) ps)) /\
  get_name_value_pairs None = Some [] /\
  (Exists (fun term => has_char "=" term = false) (py_split "," s) -> s <> "" ->
   get_name_value_pairs (Some s) = None).
Proof.
  split; [|split].
  - intros HF. unfold get_name_value_pairs.
    destruct (decide (ps = [])) as [->|Hne]; [reflexivity|].
    rewrite bool_decide_eq_false_2 by (by apply concat_not_empty).
    rewrite (terms_split ps Hne HF). rewrite map_map.
    replace (map (fun x => py_split "=" (as_term x)) ps)
      with (map (fun p : string * string => [fst p; snd p]) ps).
    + replace (forallb _ _) with true; [reflexivity|].
      symmetry. apply forallb_forall. intros q Hq. apply in_map_iff in Hq as (p & <- & _).
      reflexivity.
    + apply map_ext_in. intros p Hp. symmetry. apply as_term_split.
      rewrite Forall_forall in HF. apply HF. by apply list_elem_of_In.
  - reflexivity.
  - intros Hex Hs. unfold get_name_value_pairs.
    rewrite bool_decide_eq_false_2 by exact Hs.
    replace (forallb _ _) with false; [reflexivity|].
    symmetry. apply not_true_iff_false. intros Hall.
    rewrite forallb_forall in Hall. apply Exists_exists in Hex as (term & Hin & Hno).
    specialize (Hall (py_split "=" term)
                  ltac:(apply in_map; by apply list_elem_of_In)).
    rewrite (py_split_plain "=" term Hno) in Hall. discriminate.
Qed.

(** Two conditions, and a text whose second term has no equals sign. *)
Lemma get_name_value_pairs_reads_witness :
  get_name_value_pairs (Some "type=SHSW-1,fw=1.9") = Some [["type"; "SHSW-1"]; ["fw"; "1.9"]] /\
  get_name_value_pairs (Some "type=SHSW-1,fw") = None.
Proof.
  destruct (get_name_value_pairs_reads [("type", "SHSW-1"); ("fw", "1.9")] "type=SHSW-1,fw")
    as (H1 & _ & H3).
  split.
  - apply H1. repeat constructor.
  - apply H3; [|discriminate]. right. left. reflexivity.
Defined.
